(** * SWAS order-and-payment lifecycle: a shallow embedding

    The development follows the server sources:
    - [utils/generatePaymentId.ts]            (payment id allocation),
    - [controllers/serviceRequestController.ts] (order intake),
    - [controllers/transactionController.ts]  (payment ledger, PUT patch),
    - [socket/index.ts]                       (change-stream notifier).

    Conventions.  JavaScript numbers are restricted to the integers ([Z],
    [N] for id counters); a string is a [string] of 8-bit code units.  MongoDB
    collections are lists in insertion order (ascending [_id]); the
    position of a document in its collection plays the role of its [_id].
    A multi-document session is a working copy of the store: reads and
    writes that pass [session] act on the working copy, [commitTransaction]
    publishes it and [abortTransaction] drops it. *)

From Stdlib Require Import ZArith NArith Lia List Ascii String Bool.
From Stdlib Require Import Numbers.DecimalString Numbers.DecimalN Numbers.DecimalPos.
From stdpp Require Import base option list strings gmap.
Import ListNotations.

Local Open Scope string_scope.
Local Open Scope Z_scope.

(** ** JavaScript string and number primitives used by the controllers *)
Module Js.

(** [x || d] on a number: [0] is falsy. *)
Definition num_or (x d : Z) : Z := if x =? 0 then d else x.

(** [x == null]: [x] is [null] or [undefined]. *)
Definition is_null {A} (o : option A) : bool :=
  match o with
  | Some _ => false
  | None => true
  end.

(** Truthiness of an optional string: [undefined] and the empty string are
    falsy. *)
Definition truthy (o : option string) : bool :=
  match o with
  | Some s => negb (String.eqb s "")
  | None => false
  end.

(** [o || d] on an optional string. *)
Definition str_or (o : option string) (d : string) : string :=
  match o with
  | Some s => if String.eqb s "" then d else s
  | None => d
  end.

Definition is_digit (c : ascii) : bool :=
  let n := nat_of_ascii c in (48 <=? n)%nat && (n <=? 57)%nat.

Definition digit_val (c : ascii) : N := N.of_nat (nat_of_ascii c - 48).

(** White space and line terminators that [String.prototype.trim] and
    [parseInt] skip, among the code units below 256: TAB, LF, VT, FF, CR,
    SPACE and NBSP. *)
Definition is_ws (c : ascii) : bool :=
  let n := nat_of_ascii c in
  ((9 <=? n)%nat && (n <=? 13)%nat) || (n =? 32)%nat || (n =? 160)%nat.

Fixpoint trimStart (s : string) : string :=
  match s with
  | String c r => if is_ws c then trimStart r else s
  | EmptyString => EmptyString
  end.

Fixpoint trimEnd (s : string) : string :=
  match s with
  | EmptyString => EmptyString
  | String c r =>
      match trimEnd r with
      | EmptyString => if is_ws c then EmptyString else String c EmptyString
      | r' => String c r'
      end
  end.

Definition trim (s : string) : string := trimEnd (trimStart s).

(** [s.split(sep)] for a one-character separator; the result is never
    empty ([""] splits to [[""]]). *)
Fixpoint split (sep : ascii) (s : string) : list string :=
  match s with
  | EmptyString => [EmptyString]
  | String c r =>
      if Ascii.eqb c sep then EmptyString :: split sep r
      else match split sep r with
           | h :: t => String c h :: t
           | [] => [String c EmptyString]
           end
  end.

(** [parts.join(sep)]. *)
Definition join (sep : string) (parts : list string) : string :=
  String.concat sep parts.

(** [arr.includes(x)] on an array of strings. *)
Definition includes (arr : list string) (x : string) : bool :=
  existsb (String.eqb x) arr.

(** [String(n)] for a non-negative integer. *)
Definition String_of_N (n : N) : string :=
  NilZero.string_of_uint (N.to_uint n).

(** A number that may be [NaN] (the result of [parseInt]). *)
Definition num_to_string (o : option N) : string :=
  match o with
  | Some n => String_of_N n
  | None => "NaN"
  end.

Fixpoint repeat_char (c : ascii) (n : nat) : string :=
  match n with
  | O => EmptyString
  | S k => String c (repeat_char c k)
  end.

(** [s.padStart(width, "0")]. *)
Definition padStart0 (width : nat) (s : string) : string :=
  repeat_char "0"%char (width - String.length s) ++ s.

(** The leading run of decimal digits of [s], and what follows it. *)
Fixpoint span_digits (s : string) : string * string :=
  match s with
  | String c r =>
      if is_digit c then let '(d, rest) := span_digits r in (String c d, rest)
      else (EmptyString, s)
  | EmptyString => (EmptyString, EmptyString)
  end.

Fixpoint digits_value (acc : N) (s : string) : N :=
  match s with
  | String c r => digits_value (acc * 10 + digit_val c)%N r
  | EmptyString => acc
  end.

(** [parseInt(s, 10)]: leading white space and an optional [+] are
    skipped, then the value of the leading digits is returned, [NaN]
    ([None]) when there is none.  The controllers parse a capture of
    [\d+] or a part of [split("-")], so a minus sign never occurs. *)
Definition parseInt (s : string) : option N :=
  let unsigned :=
    match trimStart s with
    | String "+" r => r
    | r => r
    end in
  match fst (span_digits unsigned) with
  | EmptyString => None
  | d => Some (digits_value 0%N d)
  end.

(** [parseInt(parts[i], 10)] where [parts[i]] may be [undefined]:
    [parseInt(undefined)] is [NaN]. *)
Definition parseInt_opt (o : option string) : option N :=
  match o with
  | Some s => parseInt s
  | None => None
  end.

(** A template hole filled with [parts[i]], which prints ["undefined"]
    when the index is out of range. *)
Definition hole (o : option string) : string :=
  match o with
  | Some s => s
  | None => "undefined"
  end.

(** [s] minus the prefix [p], when [s] starts with [p]. *)
Fixpoint strip_prefix (p s : string) : option string :=
  match p, s with
  | EmptyString, _ => Some s
  | String a p', String b s' =>
      if Ascii.eqb a b then strip_prefix p' s' else None
  | String _ _, EmptyString => None
  end.

(** The largest string of a list under the binary order MongoDB sorts
    by ([sort({field: -1}).limit(1)]). *)
Fixpoint max_string (l : list string) : option string :=
  match l with
  | [] => None
  | x :: r =>
      match max_string r with
      | Some y => Some (if String.leb x y then y else x)
      | None => Some x
      end
  end.

End Js.

(** ** Data model ([models/*.ts]) *)

(** [models/Transactions.ts].  Dates are time stamps; [date_out] defaults
    to [null]. *)
Record Transaction := mkTransaction {
  transaction_id : string;
  line_item_id : list string;
  branch_id : string;
  date_in : Z;
  received_by : string;
  date_out : option Z;
  cust_id : string;
  no_pairs : Z;
  no_released : Z;
  total_amount : Z;
  discount_amount : Z;
  amount_paid : Z;
  payment_status : string;
  payments : list string;
  payment_mode : string
}.

(** [models/payments.ts] *)
Record Payment := mkPayment {
  payment_id : string;
  pay_transaction_id : string;
  payment_amount : Z;
  pay_mode : string;
  payment_date : Z
}.

(** [models/LineItem.ts] *)
Record LineItem := mkLineItem {
  li_line_item_id : string;
  li_transaction_id : string;
  priority : string;
  li_cust_id : string;
  services : list (string * Z);
  storage_fee : Z;
  li_branch_id : string;
  shoes : string;
  current_location : string;
  current_status : string;
  due_date : option string;
  latest_update : Z;
  before_img : option string;
  after_img : option string
}.

(** [models/Customer.ts] *)
Record Customer := mkCustomer {
  c_cust_id : string;
  cust_name : string;
  cust_bdate : option string;
  cust_address : option string;
  cust_email : option string;
  cust_contact : option string;
  total_services : Z;
  total_expenditure : Z
}.

(** [models/Branch.ts], the fields the controllers read. *)
Record Branch := mkBranch {
  b_branch_id : string;
  branch_number : N;
  branch_code : string
}.

(** The ledger store: one list per collection, oldest document first. *)
Record Store := mkStore {
  db_transactions : list Transaction;
  db_payments : list Payment;
  db_line_items : list LineItem;
  db_customers : list Customer;
  db_branches : list Branch;
  db_services : list string
}.

(** Field updates of a loaded document ([doc.field = v]). *)
Definition set_no_released (v : Z) (t : Transaction) : Transaction :=
  mkTransaction (transaction_id t) (line_item_id t) (branch_id t) (date_in t)
    (received_by t) (date_out t) (cust_id t) (no_pairs t) v (total_amount t)
    (discount_amount t) (amount_paid t) (payment_status t) (payments t)
    (payment_mode t).

Definition set_amount_paid (v : Z) (t : Transaction) : Transaction :=
  mkTransaction (transaction_id t) (line_item_id t) (branch_id t) (date_in t)
    (received_by t) (date_out t) (cust_id t) (no_pairs t) (no_released t)
    (total_amount t) (discount_amount t) v (payment_status t) (payments t)
    (payment_mode t).

Definition set_payment_status (v : string) (t : Transaction) : Transaction :=
  mkTransaction (transaction_id t) (line_item_id t) (branch_id t) (date_in t)
    (received_by t) (date_out t) (cust_id t) (no_pairs t) (no_released t)
    (total_amount t) (discount_amount t) (amount_paid t) v (payments t)
    (payment_mode t).

Definition set_payment_mode (v : string) (t : Transaction) : Transaction :=
  mkTransaction (transaction_id t) (line_item_id t) (branch_id t) (date_in t)
    (received_by t) (date_out t) (cust_id t) (no_pairs t) (no_released t)
    (total_amount t) (discount_amount t) (amount_paid t) (payment_status t)
    (payments t) v.

Definition set_payments (v : list string) (t : Transaction) : Transaction :=
  mkTransaction (transaction_id t) (line_item_id t) (branch_id t) (date_in t)
    (received_by t) (date_out t) (cust_id t) (no_pairs t) (no_released t)
    (total_amount t) (discount_amount t) (amount_paid t) (payment_status t)
    v (payment_mode t).

Definition set_date_out (v : option Z) (t : Transaction) : Transaction :=
  mkTransaction (transaction_id t) (line_item_id t) (branch_id t) (date_in t)
    (received_by t) v (cust_id t) (no_pairs t) (no_released t)
    (total_amount t) (discount_amount t) (amount_paid t) (payment_status t)
    (payments t) (payment_mode t).

Definition set_current_status (v : string) (li : LineItem) : LineItem :=
  mkLineItem (li_line_item_id li) (li_transaction_id li) (priority li)
    (li_cust_id li) (services li) (storage_fee li) (li_branch_id li)
    (shoes li) (current_location li) v (due_date li) (latest_update li)
    (before_img li) (after_img li).

Definition set_customer_totals (n e : Z) (c : Customer) : Customer :=
  mkCustomer (c_cust_id c) (cust_name c) (cust_bdate c) (cust_address c)
    (cust_email c) (cust_contact c) n e.

Definition with_transactions (v : list Transaction) (s : Store) : Store :=
  mkStore v (db_payments s) (db_line_items s) (db_customers s)
    (db_branches s) (db_services s).

Definition with_payments (v : list Payment) (s : Store) : Store :=
  mkStore (db_transactions s) v (db_line_items s) (db_customers s)
    (db_branches s) (db_services s).

Definition with_line_items (v : list LineItem) (s : Store) : Store :=
  mkStore (db_transactions s) (db_payments s) v (db_customers s)
    (db_branches s) (db_services s).

Definition with_customers (v : list Customer) (s : Store) : Store :=
  mkStore (db_transactions s) (db_payments s) (db_line_items s) v
    (db_branches s) (db_services s).

(** [Model.findOne(filter)]: the first document that satisfies the filter,
    together with its position. *)
Fixpoint findOne_from {A} (filter : A -> bool) (i : nat) (l : list A)
  : option (nat * A) :=
  match l with
  | [] => None
  | x :: r => if filter x then Some (i, x) else findOne_from filter (S i) r
  end.

Definition findOne {A} (filter : A -> bool) (l : list A) : option (nat * A) :=
  findOne_from filter 0 l.

(** The filter [{key: k}]. *)
Definition by_key {A} (key : A -> string) (k : string) : A -> bool :=
  fun x => String.eqb (key x) k.

(** ** Identifier Allocator *)

(** Does [id] match [^PAY-(\d+)-<branch>$]?  The capture group when it
    does.  The branch code is escaped in the source, so it matches
    literally; [\d+] is followed by ["-"], so the group is the whole run
    of digits. *)
Definition pay_id_match (branch : string) (id : string) : option string :=
  match Js.strip_prefix "PAY-" id with
  | Some r =>
      let '(d, rest) := Js.span_digits r in
      if String.eqb d "" then None
      else if String.eqb rest ("-" ++ branch) then Some d else None
  | None => None
  end.

(** [Payment.find({payment_id: {$regex: re}}).sort({_id: -1}).limit(100)] *)
Definition latest_payments (db : Store) (branch : string) : list Payment :=
  take 100 (rev (List.filter
    (fun p => match pay_id_match branch (payment_id p) with
              | Some _ => true | None => false end)
    (db_payments db))).

(** One turn of the [for (const p of latest)] loop. *)
Definition maxNum_step (branch : string) (maxNum : N) (p : Payment) : N :=
  match pay_id_match branch (Js.str_or (Some (payment_id p)) "") with
  | Some m1 =>
      if negb (String.eqb m1 "") then
        match Js.parseInt m1 with
        | Some n => if (maxNum <? n)%N then n else maxNum
        | None => maxNum
        end
      else maxNum
  | None => maxNum
  end.

(** [utils/generatePaymentId.ts] *)
Definition generatePaymentId (db : Store) (branch_code : string) : string :=
  let re_branch := Js.str_or (Some branch_code) "" in
  let latest := latest_payments db re_branch in
  let maxNum := fold_left (maxNum_step re_branch) latest 0%N in
  let next := (maxNum + 1)%N in
  "PAY-" ++ Js.String_of_N next ++ "-" ++ branch_code.

(** The wall clock as [generateTransactionId] reads it: [getFullYear()]
    and [getMonth()] (January is 0). *)
Record Clock := mkClock { getFullYear : N; getMonth : N; getTime : Z }.

(** [s] minus its first [n] characters when these are all digits. *)
Fixpoint strip_digits (n : nat) (s : string) : option string :=
  match n with
  | O => Some s
  | S k =>
      match s with
      | String c r => if Js.is_digit c then strip_digits k r else None
      | EmptyString => None
      end
  end.

(** Does [id] match [^<yearMonth>-\d{5}-<branch_code>$]?  The source
    interpolates [branch_code] unescaped; the model reads it literally,
    which agrees for codes without regular-expression operators. *)
Definition trx_id_match (yearMonth branch_code id : string) : bool :=
  match Js.strip_prefix (yearMonth ++ "-") id with
  | Some r =>
      match strip_digits 5 r with
      | Some rest => String.eqb rest ("-" ++ branch_code)
      | None => false
      end
  | None => false
  end.

Definition yearMonth_of (now : Clock) : string :=
  Js.String_of_N (getFullYear now) ++ "-" ++
  Js.padStart0 2 (Js.String_of_N (getMonth now + 1)).

(** [generateTransactionId] *)
Definition generateTransactionId (now : Clock) (db : Store)
    (branch_code : string) : string :=
  let yearMonth := yearMonth_of now in
  let lastTrx :=
    Js.max_string
      (List.filter (trx_id_match yearMonth branch_code)
         (map transaction_id (db_transactions db))) in
  let lastNumber :=
    match lastTrx with
    | Some id => Js.parseInt_opt (Js.split "-" id !! 2%nat)
    | None => Some 0%N
    end in
  yearMonth ++ "-" ++
  Js.padStart0 5 (Js.num_to_string (option_map (fun n => (n + 1)%N) lastNumber))
  ++ "-" ++ branch_code.

(** [generateLineItemId] *)
Definition generateLineItemId (transactionId : string) (lineIndex : nat)
  : string :=
  let parts := Js.split "-" transactionId in
  let year := parts !! 0%nat in
  let month := parts !! 1%nat in
  let trxIncrement := parts !! 2%nat in
  let branchCode := Js.join "-" (drop 3 parts) in
  Js.hole year ++ "-" ++ Js.hole month ++ "-" ++ Js.hole trxIncrement ++ "-" ++
  Js.padStart0 3 (Js.String_of_N (N.of_nat lineIndex + 1)) ++ "-" ++ branchCode.

(** Does [s] contain [pat]?  ([new RegExp(pat)] without anchors, for a
    pattern of letters, digits and dashes.) *)
Definition contains (pat s : string) : bool :=
  match String.index 0 pat s with
  | Some _ => true
  | None => false
  end.

(** [generateCustomerId] *)
Definition generateCustomerId (db : Store) (branch_number : N) : string :=
  let pat := "CUST-" ++ Js.String_of_N branch_number ++ "-" in
  let lastCust :=
    Js.max_string (List.filter (contains pat) (map c_cust_id (db_customers db))) in
  let lastNumber :=
    match lastCust with
    | Some id => Js.parseInt_opt (Js.split "-" id !! 2%nat)
    | None => Some 0%N
    end in
  "CUST-" ++ Js.String_of_N branch_number ++ "-" ++
  Js.num_to_string (option_map (fun n => (n + 1)%N) lastNumber).

Definition empty_store : Store := mkStore [] [] [] [] [] [].

Definition march_2025 : Clock := mkClock 2025 2 0.

(** ** Request handlers over a session *)

(** What a handler sends back. *)
Inductive Response :=
| Json200 (transaction : Transaction)
| Json201 (customer : Customer) (lineItems : list LineItem)
          (transaction : Transaction)
| Json400 (errors : list string)
| Json404 (error : string)
| Json500.

(** One step of a handler body running inside a session: it goes on with
    a value and the session's working copy, or returns a response early
    (with or without [abortTransaction]: the working copy is never
    committed), or throws to the enclosing [catch]. *)
Inductive Step (A : Type) :=
| Next (a : A) (sess : Store)
| Return (r : Response)
| Throw (sess : Store).
Arguments Next {A} a sess.
Arguments Return {A} r.
Arguments Throw {A} sess.

Definition M (A : Type) : Type := Store -> Step A.

Definition ret {A} (a : A) : M A := fun sess => Next a sess.

Definition bind {A B} (m : M A) (k : A -> M B) : M B :=
  fun sess =>
    match m sess with
    | Next a sess' => k a sess'
    | Return r => Return r
    | Throw sess' => Throw sess'
    end.

Notation "'do' x <- m ; k" := (bind m (fun x => k))
  (at level 10, x name, m at level 100, k at level 200).

Definition respond {A} (r : Response) : M A := fun _ => Return r.
Definition throw {A} : M A := fun sess => Throw sess.
Definition read {A} (f : Store -> A) : M A := fun sess => Next (f sess) sess.
Definition write (f : Store -> Store) : M unit := fun sess => Next tt (f sess).

(** [try { m } catch (e) { handler }]: the handler resumes with the working
    copy as it was when the exception was thrown. *)
Definition try_catch {A} (m : M A) (handler : M A) : M A :=
  fun sess =>
    match m sess with
    | Throw sess' => handler sess'
    | r => r
    end.

(** [session.startTransaction(); try { body; commitTransaction() }
     catch { abortTransaction(); 500 }]: the working copy starts as the
    committed store and replaces it only on commit. *)
Definition in_session {A} (db : Store) (fail_commit : bool) (body : M A)
    (ok : A -> Response) : Response * Store :=
  match body db with
  | Next a sess => if fail_commit then (Json500, db) else (ok a, sess)
  | Return r => (r, db)
  | Throw _ => (Json500, db)
  end.

(** *** Writes.  Each takes a fault flag: [true] makes the storage layer
    reject the write, which throws. *)

Definition PAYMENT_MODES : list string := ["Cash"; "GCash"; "Bank"; "Other"].

(** Validators of [PaymentSchema]: required ids, [payment_amount] at least
    0.01 (on integers: positive), [payment_mode] in its enum. *)
Definition payment_valid (p : Payment) : bool :=
  negb (String.eqb (payment_id p) "") &&
  negb (String.eqb (pay_transaction_id p) "") &&
  (0 <? payment_amount p) &&
  Js.includes PAYMENT_MODES (pay_mode p).

(** [new Payment(p).save({session})]: validation, then the insert, which
    the unique index on [payment_id] may reject. *)
Definition insert_payment (fault : bool) (p : Payment) : M unit :=
  fun sess =>
    if negb (payment_valid p) then Throw sess
    else if fault then Throw sess
    else if existsb (by_key payment_id (payment_id p)) (db_payments sess)
    then Throw sess
    else Next tt (with_payments (db_payments sess ++ [p]) sess).

Definition insert_customer (fault : bool) (c : Customer) : M unit :=
  fun sess =>
    if fault then Throw sess
    else if existsb (by_key c_cust_id (c_cust_id c)) (db_customers sess)
    then Throw sess
    else Next tt (with_customers (db_customers sess ++ [c]) sess).

Definition insert_line_item (fault : bool) (li : LineItem) : M unit :=
  fun sess =>
    if fault then Throw sess
    else if existsb (by_key li_line_item_id (li_line_item_id li))
              (db_line_items sess)
    then Throw sess
    else Next tt (with_line_items (db_line_items sess ++ [li]) sess).

Definition insert_transaction (fault : bool) (t : Transaction) : M unit :=
  fun sess =>
    if fault then Throw sess
    else if existsb (by_key transaction_id (transaction_id t))
              (db_transactions sess)
    then Throw sess
    else Next tt (with_transactions (db_transactions sess ++ [t]) sess).

(** [doc.save({session})] of a document loaded from position [i]. *)
Definition save_transaction (fault : bool) (i : nat) (t : Transaction)
  : M unit :=
  if fault then throw
  else write (fun sess => with_transactions (<[i := t]> (db_transactions sess)) sess).

Definition save_line_item (fault : bool) (i : nat) (li : LineItem) : M unit :=
  if fault then throw
  else write (fun sess => with_line_items (<[i := li]> (db_line_items sess)) sess).

Definition save_customer (fault : bool) (i : nat) (c : Customer) : M unit :=
  if fault then throw
  else write (fun sess => with_customers (<[i := c]> (db_customers sess)) sess).

(** ** Payment Ledger ([controllers/transactionController.ts]) *)

(** [req.params] and [req.body] of
    [POST /transactions/:transaction_id/apply-payment]. *)
Record ApplyPaymentReq := mkApplyPaymentReq {
  params_transaction_id : string;
  dueNow : option Z;
  customerPaid : option Z;
  modeOfPayment : option string;
  lineItemId : option string;
  markPickedUp : bool;
  body_payment_status : option string;
  provided_payment_id : option string
}.

(** Which writes of one [applyPayment] call the storage layer rejects. *)
Record ApplyPaymentFaults := mkApplyPaymentFaults {
  fail_payment_save : bool;
  fail_transaction_save : bool;
  fail_line_item_save : bool;
  fail_customer_save : bool;
  fail_commit : bool
}.

Definition no_faults : ApplyPaymentFaults :=
  mkApplyPaymentFaults false false false false false.

Definition VALID : list string := ["NP"; "PARTIAL"; "PAID"].

(** [if (markPickedUp) transaction.no_released = (no_released || 0) + 1] *)
Definition bump_released (markPickedUp : bool) (t : Transaction)
  : Transaction :=
  if markPickedUp then set_no_released (Js.num_or (no_released t) 0 + 1) t
  else t.

(** [amount_paid = newPaid > totalAmt ? totalAmt : newPaid] *)
Definition add_payment (dueNow : option Z) (t : Transaction) : Transaction :=
  let prevPaid := Js.num_or (amount_paid t) 0 in
  let dueNum := Js.num_or (default 0 dueNow) 0 in
  let totalAmt := Js.num_or (total_amount t) 0 in
  let newPaid := prevPaid + dueNum in
  set_amount_paid (if totalAmt <? newPaid then totalAmt else newPaid) t.

(** The [if (modeOfPayment) { ... }] block. *)
Definition append_mode (modeOfPayment : option string) (t : Transaction)
  : Transaction :=
  match modeOfPayment with
  | Some mode =>
      if String.eqb mode "" then t
      else
        let existing := Js.str_or (Some (payment_mode t)) "" in
        if String.eqb existing "" then set_payment_mode mode t
        else if negb (Js.includes (map Js.trim (Js.split "," existing)) mode)
        then set_payment_mode (existing ++ "," ++ mode) t
        else t
  | None => t
  end.

(** [if (!payments.includes(id)) payments.push(id)] *)
Definition attach_payment (id : string) (t : Transaction) : Transaction :=
  if Js.includes (payments t) id then t
  else set_payments (payments t ++ [id]) t.

(** The branch code for the payment id: the branch document's code when
    the branch exists and has one, the raw [branch_id] otherwise. *)
Definition branch_code_of (sess : Store) (t : Transaction) : string :=
  match findOne (by_key b_branch_id (branch_id t)) (db_branches sess) with
  | Some (_, branch) =>
      if String.eqb (branch_code branch) "" then branch_id t
      else branch_code branch
  | None => branch_id t
  end.

(** The [try { ... } catch (err) { console.error(...) }] block that creates
    or attaches the Payment record.  [generatePaymentId] queries without
    the session, so it reads the committed store [db]. *)
Definition record_payment (db : Store) (faults : ApplyPaymentFaults)
    (now : Clock) (req : ApplyPaymentReq) (t : Transaction) : M Transaction :=
  let dueNum := Js.num_or (default 0 (dueNow req)) 0 in
  try_catch
    (if Js.truthy (provided_payment_id req) then
       let pid := Js.str_or (provided_payment_id req) "" in
       do existing <- read (fun sess => findOne (by_key payment_id pid) (db_payments sess));
       match existing with
       | Some _ => ret (attach_payment pid t)
       | None => ret t
       end
     else if 0 <? dueNum then
       do branchCode <- read (fun sess => branch_code_of sess t);
       let paymentId := generatePaymentId db branchCode in
       let payment :=
         mkPayment paymentId (transaction_id t) dueNum
           (Js.str_or (modeOfPayment req) "Other") (getTime now) in
       do _ <- insert_payment (fail_payment_save faults) payment;
       ret (attach_payment paymentId t)
     else ret t)
    (ret t).

(** [if (markPickedUp && (no_pairs || 0) - (no_released || 0) <= 0)
      transaction.date_out = new Date()] *)
Definition stamp_date_out (markPickedUp : bool) (now : Clock)
    (t : Transaction) : Transaction :=
  if markPickedUp &&
     (Js.num_or (no_pairs t) 0 - Js.num_or (no_released t) 0 <=? 0)
  then set_date_out (Some (getTime now)) t
  else t.

(** Step 2 and 3 of the handler: the line item and the customer. *)
Definition release_line_item (faults : ApplyPaymentFaults)
    (req : ApplyPaymentReq) (t : Transaction) : M unit :=
  if markPickedUp req && Js.truthy (lineItemId req) then
    let id := Js.str_or (lineItemId req) "" in
    do found <- read (fun sess => findOne (by_key li_line_item_id id) (db_line_items sess));
    match found with
    | None => respond (Json404 "Line item not found")
    | Some (i, lineItem) =>
        do _ <- save_line_item (fail_line_item_save faults) i
                  (set_current_status "Picked Up" lineItem);
        do cust <- read (fun sess => findOne (by_key c_cust_id (cust_id t)) (db_customers sess));
        match cust with
        | Some (j, customer) =>
            save_customer (fail_customer_save faults) j
              (set_customer_totals
                 (Js.num_or (total_services customer) 0 + 1)
                 (Js.num_or (total_expenditure customer) 0 +
                  Js.num_or (total_amount t) 0)
                 customer)
        | None => ret tt
        end
    end
  else ret tt.

(** The [if (payment_status !== undefined) { ... }] block: a status outside
    [VALID] aborts with 400, a valid one is stored as supplied. *)
Definition check_payment_status (ps : option string) (t : Transaction)
  : M Transaction :=
  match ps with
  | Some ps =>
      if Js.includes VALID ps then ret (set_payment_status ps t)
      else respond (Json400
             ["Invalid payment_status. Must be one of NP, PARTIAL, PAID"])
  | None => ret t
  end.

(** The body of [applyPayment] between [startTransaction] and
    [commitTransaction]. *)
Definition applyPayment_body (db : Store) (faults : ApplyPaymentFaults)
    (now : Clock) (req : ApplyPaymentReq) : M Transaction :=
  if String.eqb (params_transaction_id req) "" then
    respond (Json400 ["transaction_id required"])
  else if Js.is_null (dueNow req) || Js.is_null (customerPaid req) then
    respond (Json400 ["dueNow and customerPaid are required"])
  else
    do found <- read (fun sess =>
      findOne (by_key transaction_id (params_transaction_id req)) (db_transactions sess));
    match found with
    | None => respond (Json404 "Transaction not found")
    | Some (i, transaction) =>
        let t1 := bump_released (markPickedUp req) transaction in
        let t2 := add_payment (dueNow req) t1 in
        do t3 <- check_payment_status (body_payment_status req) t2;
        let t4 := append_mode (modeOfPayment req) t3 in
        do t5 <- record_payment db faults now req t4;
        let t6 := stamp_date_out (markPickedUp req) now t5 in
        do _ <- save_transaction (fail_transaction_save faults) i t6;
        do _ <- release_line_item faults req t6;
        ret t6
    end.

(** [applyPayment]: the response and the committed store after the call.
    (The socket emit that follows the commit changes no record.) *)
Definition applyPayment (db : Store) (faults : ApplyPaymentFaults)
    (now : Clock) (req : ApplyPaymentReq) : Response * Store :=
  in_session db (fail_commit faults) (applyPayment_body db faults now req)
    Json200.

Definition demo_txn : Transaction :=
  mkTransaction "2025-03-00001-NCR" ["2025-03-00001-001-NCR"; "2025-03-00001-002-NCR"]
    "NCR-B-LOC" 0 "staff" None "CUST-1-1" 2 0 1000 0 0 "NP" [] "Cash".

Definition demo_db : Store :=
  mkStore [demo_txn] []
    [mkLineItem "2025-03-00001-001-NCR" "2025-03-00001-NCR" "Normal" "CUST-1-1"
       [("SVC-1", 1)] 0 "NCR-B-LOC" "sneakers" "Branch" "Queued" None 0 None None;
     mkLineItem "2025-03-00001-002-NCR" "2025-03-00001-NCR" "Rush" "CUST-1-1"
       [("SVC-1", 1)] 0 "NCR-B-LOC" "boots" "Branch" "Queued" None 0 None None]
    [mkCustomer "CUST-1-1" "Ana" None None None None 0 0]
    [mkBranch "NCR-B-LOC" 1 "NCR"]
    ["SVC-1"].

Definition pay (due : Z) (mode : option string) (li : option string)
    (mark : bool) : ApplyPaymentReq :=
  mkApplyPaymentReq "2025-03-00001-NCR" (Some due) (Some due) mode li mark None None.

(** ** Order Intake ([controllers/serviceRequestController.ts]) *)

Definition PRIORITY_ENUM : list string := ["Rush"; "Normal"].
Definition CURRENT_LOCATION_ENUM : list string := ["Hub"; "Branch"].
Definition PAYMENT_STATUS_ENUM : list string := ["NP"; "PARTIAL"; "PAID"].
Definition PAYMENT_MODE_ENUM : list string := ["Cash"; "Bank"; "GCash"; "Other"].

Record ServiceInput := mkServiceInput {
  in_service_id : string;
  in_quantity : option Z
}.

Record LineItemInput := mkLineItemInput {
  in_priority : string;
  in_shoes : string;
  in_due_date : option string;
  in_before_img : option string;
  in_after_img : option string;
  in_services : list ServiceInput;
  in_storage_fee : option Z;
  in_current_location : option string
}.

Record ServiceRequestInput := mkServiceRequestInput {
  in_cust_name : string;
  in_cust_bdate : option string;
  in_cust_address : option string;
  in_cust_email : option string;
  in_cust_contact : option string;
  in_branch_id : string;
  in_received_by : string;
  in_total_amount : option Z;
  in_discount_amount : option Z;
  in_amount_paid : option Z;
  in_payment_status : string;
  in_payment_mode : string;
  in_date_in : option Z;
  in_no_released : option Z;
  in_lineItems : list LineItemInput
}.

(** [o || null] on an optional string. *)
Definition or_null (o : option string) : option string :=
  if Js.truthy o then o else None.

(** [arr.forEach((x, index) => ...)] collecting error messages. *)
Fixpoint flat_mapi {A} (f : nat -> A -> list string) (i : nat) (l : list A)
  : list string :=
  match l with
  | [] => []
  | x :: r => f i x ++ flat_mapi f (S i) r
  end.

Definition idx (i : nat) : string := Js.String_of_N (N.of_nat i).

Definition validate_service (index svcIndex : nat) (svc : ServiceInput)
  : list string :=
  (if String.eqb (in_service_id svc) "" then
     ["lineItems[" ++ idx index ++ "].services[" ++ idx svcIndex ++
      "].service_id is required"]
   else []) ++
  (match in_quantity svc with
   | Some q =>
       if q <? 1 then
         ["lineItems[" ++ idx index ++ "].services[" ++ idx svcIndex ++
          "].quantity must be a number >= 1"]
       else []
   | None =>
       ["lineItems[" ++ idx index ++ "].services[" ++ idx svcIndex ++
        "].quantity must be a number >= 1"]
   end).

Definition validate_line_item (index : nat) (item : LineItemInput)
  : list string :=
  (if negb (Js.includes PRIORITY_ENUM (in_priority item)) then
     ["lineItems[" ++ idx index ++ "].priority must be one of " ++
      Js.join ", " PRIORITY_ENUM]
   else []) ++
  (if String.eqb (in_shoes item) "" then
     ["lineItems[" ++ idx index ++ "].shoes is required"]
   else []) ++
  (match in_services item with
   | [] => ["lineItems[" ++ idx index ++ "].services is required and cannot be empty"]
   | svcs => flat_mapi (validate_service index) 0 svcs
   end) ++
  (if Js.truthy (in_current_location item) &&
      negb (Js.includes CURRENT_LOCATION_ENUM
              (Js.str_or (in_current_location item) ""))
   then ["lineItems[" ++ idx index ++ "].current_location must be one of " ++
         Js.join ", " CURRENT_LOCATION_ENUM]
   else []).

(** [validateServiceRequestInput] *)
Definition validateServiceRequestInput (data : ServiceRequestInput)
  : list string :=
  (if String.eqb (in_cust_name data) "" then ["cust_name is required"] else []) ++
  (if String.eqb (in_branch_id data) "" then ["branch_id is required"] else []) ++
  (if String.eqb (in_received_by data) "" then ["received_by is required"] else []) ++
  (if Js.is_null (in_total_amount data) then ["total_amount is required"] else []) ++
  (if Js.is_null (in_discount_amount data) then ["discount_amount is required"] else []) ++
  (if Js.is_null (in_amount_paid data) then ["amount_paid is required"] else []) ++
  (if negb (Js.includes PAYMENT_STATUS_ENUM (in_payment_status data)) then
     ["payment_status must be one of " ++ Js.join ", " PAYMENT_STATUS_ENUM]
   else []) ++
  (if negb (Js.includes PAYMENT_MODE_ENUM (in_payment_mode data)) then
     ["payment_mode must be one of " ++ Js.join ", " PAYMENT_MODE_ENUM]
   else []) ++
  (match in_lineItems data with
   | [] => ["At least one line item is required"]
   | items => flat_mapi validate_line_item 0 items
   end).

(** Which writes of one [createServiceRequest] call the storage layer
    rejects; line-item writes are numbered from 0. *)
Record IntakeFaults := mkIntakeFaults {
  fail_new_customer : bool;
  fail_new_line_item : nat -> bool;
  fail_new_payment : bool;
  fail_new_transaction : bool;
  fail_intake_commit : bool
}.

Definition no_intake_faults : IntakeFaults :=
  mkIntakeFaults false (fun _ => false) false false false.

(** [[...new Set(ids)]]: first occurrences, in order. *)
Fixpoint unique (seen ids : list string) : list string :=
  match ids with
  | [] => []
  | x :: r => if Js.includes seen x then unique seen r
              else x :: unique (x :: seen) r
  end.

(** The document built from the [i]-th line-item input. *)
Definition new_line_item (now : Clock) (data : ServiceRequestInput)
    (transactionId : string) (customer : Customer) (i : nat)
    (item : LineItemInput) : LineItem :=
  mkLineItem (generateLineItemId transactionId i) transactionId
    (in_priority item) (c_cust_id customer)
    (map (fun s => (in_service_id s, default 1 (in_quantity s))) (in_services item))
    (Js.num_or (default 0 (in_storage_fee item)) 0)
    (in_branch_id data) (in_shoes item)
    (Js.str_or (in_current_location item) "Branch")
    "Queued"
    (or_null (in_due_date item))
    (getTime now)
    (or_null (in_before_img item)) (or_null (in_after_img item)).

(** The [for (let i = 0; ...)] loop that saves the line items. *)
Fixpoint create_line_items (faults : IntakeFaults) (now : Clock)
    (data : ServiceRequestInput) (transactionId : string)
    (customer : Customer) (i : nat) (items : list LineItemInput)
  : M (list LineItem) :=
  match items with
  | [] => ret []
  | item :: rest =>
      let newLineItem := new_line_item now data transactionId customer i item in
      do _ <- insert_line_item (fail_new_line_item faults i) newLineItem;
      do created <- create_line_items faults now data transactionId customer (S i) rest;
      ret (newLineItem :: created)
  end.

(** Resolve the customer by name and birth date, or create it. *)
Definition resolve_customer (db : Store) (faults : IntakeFaults)
    (data : ServiceRequestInput) (branch_number : N) : M Customer :=
  do found <- read (fun sess =>
    findOne (fun c => String.eqb (cust_name c) (in_cust_name data) &&
                      bool_decide (cust_bdate c = or_null (in_cust_bdate data)))
            (db_customers sess));
  match found with
  | Some (_, customer) => ret customer
  | None =>
      let customer :=
        mkCustomer (generateCustomerId db branch_number) (in_cust_name data)
          (or_null (in_cust_bdate data)) (or_null (in_cust_address data))
          (or_null (in_cust_email data)) (or_null (in_cust_contact data)) 0 0 in
      do _ <- insert_customer (fail_new_customer faults) customer;
      ret customer
  end.

(** The [if (data.amount_paid && data.amount_paid > 0) { ... }] block: the
    initial Payment and its id on the transaction. *)
Definition initial_payment (db : Store) (faults : IntakeFaults) (now : Clock)
    (data : ServiceRequestInput) (branch_code : string)
    (transaction : Transaction) : M Transaction :=
  let amountPaid := default 0 (in_amount_paid data) in
  if 0 <? amountPaid then
    let paymentId := generatePaymentId db branch_code in
    let payment :=
      mkPayment paymentId (transaction_id transaction) amountPaid
        (in_payment_mode data) (getTime now) in
    do _ <- insert_payment (fail_new_payment faults) payment;
    ret (set_payments [paymentId] transaction)
  else ret transaction.

(** The body of [createServiceRequest] between [startTransaction] and
    [commitTransaction].  The id generators query without the session and
    read the committed store [db]. *)
Definition createServiceRequest_body (db : Store) (faults : IntakeFaults)
    (now : Clock) (data : ServiceRequestInput)
  : M (Customer * list LineItem * Transaction) :=
  match validateServiceRequestInput data with
  | _ :: _ as validationErrors => respond (Json400 validationErrors)
  | [] =>
    do branch <- read (fun sess =>
      findOne (by_key b_branch_id (in_branch_id data)) (db_branches sess));
    match branch with
    | None => respond (Json400 ["Branch not found"])
    | Some (_, branch) =>
      let allServiceIds :=
        flat_map (fun li => map in_service_id (in_services li)) (in_lineItems data) in
      let uniqueServiceIds := unique [] allServiceIds in
      do existingIds <- read (fun sess =>
        List.filter (Js.includes uniqueServiceIds) (db_services sess));
      let invalidIds :=
        List.filter (fun id => negb (Js.includes existingIds id)) uniqueServiceIds in
      match invalidIds with
      | _ :: _ =>
          respond (Json400 ["Invalid service_id(s): " ++ Js.join ", " invalidIds])
      | [] =>
        do customer <- resolve_customer db faults data (branch_number branch);
        let transactionId := generateTransactionId now db (branch_code branch) in
        do createdLineItems <-
          create_line_items faults now data transactionId customer 0
            (in_lineItems data);
        let noPairs := Z.of_nat (length createdLineItems) in
        let amountPaid := default 0 (in_amount_paid data) in
        let transaction :=
          mkTransaction transactionId (map li_line_item_id createdLineItems)
            (in_branch_id data)
            (default (getTime now) (in_date_in data))
            (in_received_by data) None (c_cust_id customer) noPairs
            (Js.num_or (default 0 (in_no_released data)) 0)
            (default 0 (in_total_amount data))
            (default 0 (in_discount_amount data))
            amountPaid (in_payment_status data) [] (in_payment_mode data) in
        do transaction <-
          initial_payment db faults now data (branch_code branch) transaction;
        do _ <- insert_transaction (fail_new_transaction faults) transaction;
        ret (customer, createdLineItems, transaction)
      end
    end
  end.

(** [createServiceRequest]: the response and the committed store. *)
Definition createServiceRequest (db : Store) (faults : IntakeFaults)
    (now : Clock) (data : ServiceRequestInput) : Response * Store :=
  in_session db (fail_intake_commit faults)
    (createServiceRequest_body db faults now data)
    (fun '(customer, lineItems, transaction) =>
       Json201 customer lineItems transaction).

Definition demo_item (shoes : string) : LineItemInput :=
  mkLineItemInput "Normal" shoes None None None
    [mkServiceInput "SVC-1" (Some 1)] None None.

Definition demo_order (total paid : Z) (items : list LineItemInput)
  : ServiceRequestInput :=
  mkServiceRequestInput "Ben" None None None None "NCR-B-LOC" "staff"
    (Some total) (Some 0) (Some paid) "PARTIAL" "Cash" None None items.

Definition demo_branches : Store :=
  mkStore [] [] [] [] [mkBranch "NCR-B-LOC" 1 "NCR"; mkBranch "VAL-B-LOC" 2 "VAL"]
    ["SVC-1"].

(** ** PUT /transactions/:transaction_id ([updateTransaction]) *)
Module Patch.

(** A JSON value of a request body or a stored document. *)
#[warnings="-register-all"]
Inductive Json :=
| JNull
| JBool (b : bool)
| JNum (n : Z)
| JStr (s : string)
| JArr (items : list Json)
| JObj (fields : list (string * Json)).

(** A Mongoose document / a request body: field name to value. *)
Abbreviation Doc := (gmap string Json).

(** JavaScript truthiness of an optional field. *)
Definition truthy (o : option Json) : bool :=
  match o with
  | None | Some JNull => false
  | Some (JBool b) => b
  | Some (JNum n) => negb (n =? 0)
  | Some (JStr s) => negb (String.eqb s "")
  | Some (JArr _) | Some (JObj _) => true
  end.

(** [['NP', 'PARTIAL', 'PAID'].includes(v)] *)
Definition is_status (o : option Json) : bool :=
  match o with
  | Some (JStr s) => Js.includes ["NP"; "PARTIAL"; "PAID"] s
  | _ => false
  end.

Definition restrictedFields : list string :=
  ["transaction_id"; "_id"; "__v"; "createdAt"; "updatedAt"].

(** [restrictedFields.forEach(field => delete updates[field])] *)
Definition strip_restricted (updates : Doc) : Doc :=
  fold_left (fun u field => delete field u) restrictedFields updates.

(** [Object.assign(transaction, updates)]: every own key of [updates] is
    written onto the document. *)
Definition assign (transaction updates : Doc) : Doc := updates ∪ transaction.

Inductive PatchResponse :=
| Patch200 (transaction : Doc)
| Patch400 (error : string)
| Patch404
| Patch500.

Definition has_id (transaction_id : string) (d : Doc) : bool :=
  match d !! "transaction_id" with
  | Some (JStr s) => String.eqb s transaction_id
  | _ => false
  end.

(** [{ timestamps: true }]: [save] refreshes [updatedAt] on the document
    it writes. *)
Definition touch (now : Z) (d : Doc) : Doc := <["updatedAt" := JNum now]> d.

(** [updateTransaction]; [fail_save] makes [transaction.save()] throw. *)
Definition updateTransaction (coll : list Doc) (fail_save : bool) (now : Z)
    (transaction_id : string) (body : Doc) : PatchResponse * list Doc :=
  if String.eqb transaction_id "" then (Patch400 "transaction_id required", coll)
  else
    match findOne (has_id transaction_id) coll with
    | None => (Patch404, coll)
    | Some (i, transaction) =>
        let updates := strip_restricted body in
        if truthy (updates !! "payment_status") &&
           negb (is_status (updates !! "payment_status"))
        then (Patch400 "Invalid payment_status. Must be NP, PARTIAL, or PAID", coll)
        else
          let saved := touch now (assign transaction updates) in
          if fail_save then (Patch500, coll)
          else (Patch200 saved, <[i := saved]> coll)
    end.

End Patch.

(** ** Change Notifier ([socket/index.ts]) *)
Module Notifier.

Record WatchTarget := mkWatchTarget {
  collectionName : string;
  event : string
}.

Definition WATCH_TARGETS : list WatchTarget :=
  [mkWatchTarget "line_items" "lineItemUpdated";
   mkWatchTarget "appointments" "appointmentUpdated";
   mkWatchTarget "unavailabilities" "unavailabilityUpdated"].

(** A resume position ([change._id]). *)
Abbreviation ResumeToken := Z.

Definition FLOOR_DELAY : Z := 1000.
Definition CAP_DELAY : Z := 30000.

(** One opened change stream with the variables its handlers close over. *)
Record Stream := mkStream {
  target : WatchTarget;
  resumeAfter : option ResumeToken;   (* the option given to [watch] *)
  currentToken : option ResumeToken;
  backoffDelay : Z;
  closed : bool
}.

(** A pending [setTimeout(() => watchTarget(target, token, delay), delay)]. *)
Record Timer := mkTimer {
  timer_target : WatchTarget;
  timer_token : option ResumeToken;
  timer_delay : Z
}.

(** The notifier: every stream ever opened (a stream's handle is its
    position), the [activeStreams] map from event name to handle, the
    pending timers and the events broadcast so far. *)
Record State := mkState {
  streams : list Stream;
  activeStreams : gmap string nat;
  timers : list Timer;
  emitted : list (string * ResumeToken)
}.

Definition init : State := mkState [] ∅ [] [].

Definition close_stream (sid : nat) (st : State) : State :=
  match streams st !! sid with
  | Some s =>
      mkState (<[sid := mkStream (target s) (resumeAfter s) (currentToken s)
                          (backoffDelay s) true]> (streams st))
        (activeStreams st) (timers st) (emitted st)
  | None => st
  end.

Definition add_timer (t : Timer) (st : State) : State :=
  mkState (streams st) (activeStreams st) (timers st ++ [t]) (emitted st).

Definition set_active (m : gmap string nat) (st : State) : State :=
  mkState (streams st) m (timers st) (emitted st).

(** [watchTarget(target, resumeToken, retryDelay)]; [watch_throws] tells
    whether [collection.watch] throws for a collection. *)
Definition watchTarget (watch_throws : string -> bool) (tg : WatchTarget)
    (resumeToken : option ResumeToken) (retryDelay : Z) (st : State) : State :=
  if watch_throws (collectionName tg) then
    let nextDelay := Z.min (retryDelay * 2) CAP_DELAY in
    add_timer (mkTimer tg resumeToken nextDelay) st
  else
    let sid := length (streams st) in
    mkState (streams st ++ [mkStream tg resumeToken resumeToken retryDelay false])
      (<[event tg := sid]> (activeStreams st)) (timers st) (emitted st).

(** [scheduleRestart] as called by the handlers of stream [sid]. *)
Definition scheduleRestart (sid : nat) (st : State) : State :=
  match streams st !! sid with
  | Some s =>
      if bool_decide (activeStreams st !! event (target s) = Some sid) then
        let st1 := set_active (delete (event (target s)) (activeStreams st)) st in
        let st2 := close_stream sid st1 in
        let nextDelay := Z.min (backoffDelay s * 2) CAP_DELAY in
        add_timer (mkTimer (target s) (currentToken s) nextDelay) st2
      else st
  | None => st
  end.

(** [stream.on("change", ...)]: record the position, reset the backoff,
    broadcast. *)
Definition on_change (sid : nat) (token : ResumeToken) (st : State) : State :=
  match streams st !! sid with
  | Some s =>
      if closed s then st
      else
        mkState (<[sid := mkStream (target s) (resumeAfter s) (Some token)
                            FLOOR_DELAY false]> (streams st))
          (activeStreams st) (timers st)
          (emitted st ++ [(event (target s), token)])
  | None => st
  end.

(** One turn of the [forEach] of [openAllStreams]: close and forget the
    target's stream, if any, and watch afresh ([watchTarget(target)]: no
    resume token, default delay). *)
Definition reopen (watch_throws : string -> bool) (st : State)
    (tg : WatchTarget) : State :=
  let st1 := match activeStreams st !! event tg with
             | Some sid => close_stream sid st
             | None => st
             end in
  let st2 := set_active (delete (event tg) (activeStreams st1)) st1 in
  watchTarget watch_throws tg None FLOOR_DELAY st2.

(** [openAllStreams] *)
Definition openAllStreams (watch_throws : string -> bool) (st : State) : State :=
  fold_left (reopen watch_throws) WATCH_TARGETS st.

(** [db.on("disconnected", ...)] *)
Definition on_disconnected (st : State) : State :=
  let st1 :=
    map_fold (fun _ sid acc => close_stream sid acc) st (activeStreams st) in
  set_active ∅ st1.

(** What the runtime can deliver to the notifier. *)
Inductive Input :=
| Change (sid : nat) (token : ResumeToken)
| StreamError (sid : nat)
| StreamClose (sid : nat)
| TimerFires (k : nat)
| Disconnected
| Reconnected.

Definition step (watch_throws : string -> bool) (i : Input) (st : State)
  : State :=
  match i with
  | Change sid token => on_change sid token st
  | StreamError sid => scheduleRestart sid st
  | StreamClose sid => scheduleRestart sid st
  | TimerFires k =>
      match timers st !! k with
      | Some t =>
          watchTarget watch_throws (timer_target t) (timer_token t) (timer_delay t)
            (mkState (streams st) (activeStreams st) (delete k (timers st))
               (emitted st))
      | None => st
      end
  | Disconnected => on_disconnected st
  | Reconnected => openAllStreams watch_throws st
  end.

(** [initSocket]: the streams are opened once at start-up. *)
Definition initSocket (watch_throws : string -> bool) : State :=
  openAllStreams watch_throws init.

(** Every handle of [activeStreams] is one of an opened stream. *)
Definition handles_bound (st : State) : Prop :=
  forall ev sid, activeStreams st !! ev = Some sid ->
                 (sid < length (streams st))%nat.

End Notifier.

(** ** Notions the statements are phrased with, and sample data *)

(** The suffixes [parseInt(m[1], 10)] of the payments of a window. *)
Fixpoint suffixes (branch : string) (window : list Payment) : list N :=
  match window with
  | [] => []
  | p :: r =>
      match pay_id_match branch (payment_id p) with
      | Some d =>
          match Js.parseInt d with
          | Some n => n :: suffixes branch r
          | None => suffixes branch r
          end
      | None => suffixes branch r
      end
  end.

(** The maximum of a list of suffixes, [0] when there is none. *)
Definition max_suffix (l : list N) : N := fold_right N.max 0%N l.


Definition february_txn : Transaction :=
  mkTransaction "2025-02-00007-VAL" [] "VAL-B-LOC" 0 "staff" None "CUST-2-1"
    1 0 100 0 0 "NP" [] "Cash".


(** [payment_status] as the handler leaves it. *)
Definition set_status_opt (ps : option string) (t : Transaction) : Transaction :=
  match ps with
  | Some s => set_payment_status s t
  | None => t
  end.

(** The in-memory transaction just before the payment block. *)
Definition before_payment (req : ApplyPaymentReq) (t : Transaction)
  : Transaction :=
  append_mode (modeOfPayment req)
    (set_status_opt (body_payment_status req)
       (add_payment (dueNow req) (bump_released (markPickedUp req) t))).

(** Reduce projections of updated transactions, and nothing else. *)
Ltac txn_simpl :=
  cbn [transaction_id line_item_id branch_id date_in received_by date_out
       cust_id no_pairs no_released total_amount discount_amount amount_paid
       payment_status payments payment_mode
       set_no_released set_amount_paid set_payment_status set_payment_mode
       set_payments set_date_out set_status_opt] in *.

Ltac split_ifs :=
  repeat match goal with
         | |- context [if ?b then _ else _] => destruct b
         | |- context [match ?o with Some _ => _ | None => _ end] => destruct o
         end.

(** The transaction fields a successful call answers with, in terms of the
    stored transaction [t] it found. *)
Record ledger_step (now : Clock) (req : ApplyPaymentReq)
    (t t' : Transaction) : Prop := mkLedgerStep {
  ls_id : transaction_id t' = transaction_id t;
  ls_pairs : no_pairs t' = no_pairs t;
  ls_total : total_amount t' = total_amount t;
  ls_released :
    no_released t' = no_released (bump_released (markPickedUp req) t);
  ls_paid : amount_paid t' = amount_paid (add_payment (dueNow req) t);
  ls_mode : payment_mode t' = payment_mode (append_mode (modeOfPayment req) t);
  ls_date_out :
    date_out t' =
    date_out (stamp_date_out (markPickedUp req) now
                (bump_released (markPickedUp req) t))
}.

Record Call := mkCall {
  call_faults : ApplyPaymentFaults;
  call_now : Clock;
  call_req : ApplyPaymentReq
}.

Definition apply_call (db : Store) (c : Call) : Store :=
  snd (applyPayment db (call_faults c) (call_now c) (call_req c)).

Definition run_calls (db : Store) (calls : list Call) : Store :=
  fold_left apply_call calls db.

Definition paid_le_total (t : Transaction) : Prop :=
  amount_paid t <= total_amount t.

Definition paid_in_range (t : Transaction) : Prop :=
  0 <= amount_paid t <= total_amount t.








(** The entries of the comma-joined [payment_mode], each trimmed: the list
    the handler tests membership in. *)
Definition modes (t : Transaction) : list string :=
  map Js.trim (Js.split "," (payment_mode t)).

Fixpoint has_char (c : ascii) (s : string) : bool :=
  match s with
  | EmptyString => false
  | String a r => Ascii.eqb a c || has_char c r
  end.

(** A mode the handler compares faithfully: not empty, free of commas and
    of surrounding white space -- as [Cash], [GCash], [Bank] and [Other]
    are. *)
Definition plain_mode (mode : string) : Prop :=
  mode <> "" /\ has_char "," mode = false /\ Js.trim mode = mode.

Definition spaced_cash : Call :=
  mkCall no_faults march_2025 (pay 0 (Some " Cash") None false).

Definition ghost_payment_req : ApplyPaymentReq :=
  mkApplyPaymentReq "2025-03-00001-NCR" (Some 300) (Some 300) (Some "GCash")
    None false None (Some "PAY-404-NCR").

(** The documents of a committed order. *)
Record order_stored (data : ServiceRequestInput) (db' : Store)
    (customer : Customer) (lineItems : list LineItem)
    (transaction : Transaction) : Prop := mkOrderStored {
  os_customer : customer ∈ db_customers db';
  os_count : length lineItems = length (in_lineItems data);
  os_line_items : forall li, li ∈ lineItems -> li ∈ db_line_items db';
  os_transaction : transaction ∈ db_transactions db';
  os_refs : line_item_id transaction = map li_line_item_id lineItems;
  os_pairs : no_pairs transaction = Z.of_nat (length (in_lineItems data));
  os_payment :
    0 < default 0 (in_amount_paid data) ->
    exists p, p ∈ db_payments db' /\
              payments transaction = [payment_id p] /\
              payment_amount p = default 0 (in_amount_paid data) /\
              pay_transaction_id p = transaction_id transaction;
  os_no_payment :
    default 0 (in_amount_paid data) <= 0 -> payments transaction = []
}.

(** No write that the call performed was rejected. *)
Definition no_fault_hit (faults : IntakeFaults) (data : ServiceRequestInput)
  : Prop :=
  (forall k, (k < length (in_lineItems data))%nat ->
             fail_new_line_item faults k = false) /\
  (0 < default 0 (in_amount_paid data) -> fail_new_payment faults = false) /\
  fail_new_transaction faults = false /\
  fail_intake_commit faults = false.

Definition not_created (resp : Response) : Prop :=
  forall c l t, resp <> Json201 c l t.

Definition four_pairs : ServiceRequestInput :=
  demo_order 800 200
    [demo_item "a"; demo_item "b"; demo_item "c"; demo_item "d"].

(** The storage layer rejects the write that follows the third line item. *)
Definition fails_after_third : IntakeFaults :=
  mkIntakeFaults false (fun k => Nat.eqb k 3) false false false.

Definition stored_doc : gmap string Patch.Json :=
  {[ "transaction_id" := Patch.JStr "2025-03-00001-VAL";
     "_id" := Patch.JStr "65f0c0ffee";
     "__v" := Patch.JNum 0;
     "createdAt" := Patch.JNum 1700;
     "updatedAt" := Patch.JNum 1700;
     "amount_paid" := Patch.JNum 0 ]}.

Definition hostile_body : gmap string Patch.Json :=
  {[ "transaction_id" := Patch.JStr "2099-01-00001-XXX";
     "_id" := Patch.JStr "deadbeef";
     "__v" := Patch.JNum 42;
     "createdAt" := Patch.JNum 1;
     "amount_paid" := Patch.JNum 250 ]}.

(** A run: start-up, an event at position 5 on the line-items stream, an
    error on it, the timer firing. *)
Definition never_throws : string -> bool := fun _ => false.

Definition after_event : Notifier.State :=
  Notifier.step never_throws (Notifier.Change 0 5)
    (Notifier.initSocket never_throws).

Definition after_error : Notifier.State :=
  Notifier.step never_throws (Notifier.StreamError 0) after_event.

Definition after_restart : Notifier.State :=
  Notifier.step never_throws (Notifier.TimerFires 0) after_error.

(** ** Notions and models of the further properties *)

Fixpoint all_digits (s : string) : bool :=
  match s with
  | EmptyString => true
  | String c r => Js.is_digit c && all_digits r
  end.


(** A service line the validator lets through. *)
Definition service_ok (svc : ServiceInput) : Prop :=
  in_service_id svc <> "" /\
  exists q, in_quantity svc = Some q /\ 1 <= q.

(** A line item the validator lets through. *)
Definition line_item_ok (item : LineItemInput) : Prop :=
  In (in_priority item) PRIORITY_ENUM /\
  in_shoes item <> "" /\
  in_services item <> [] /\
  Forall service_ok (in_services item) /\
  (forall loc, in_current_location item = Some loc -> loc <> "" ->
               In loc CURRENT_LOCATION_ENUM).

(** An order the validator lets through. *)
Definition request_ok (data : ServiceRequestInput) : Prop :=
  in_cust_name data <> "" /\
  in_branch_id data <> "" /\
  in_received_by data <> "" /\
  is_Some (in_total_amount data) /\
  is_Some (in_discount_amount data) /\
  is_Some (in_amount_paid data) /\
  In (in_payment_status data) PAYMENT_STATUS_ENUM /\
  In (in_payment_mode data) PAYMENT_MODE_ENUM /\
  in_lineItems data <> [] /\
  Forall line_item_ok (in_lineItems data).

Definition no_items_order : ServiceRequestInput := demo_order 100 0 [].

(** Every [service_id] an order names, with repetitions. *)
Definition requested_service_ids (data : ServiceRequestInput) : list string :=
  flat_map (fun li => map in_service_id (in_services li)) (in_lineItems data).

Definition unknown_service_order : ServiceRequestInput :=
  demo_order 100 0
    [mkLineItemInput "Rush" "boots" None None None
       [mkServiceInput "SVC-1" (Some 1); mkServiceInput "SVC-9" (Some 2);
        mkServiceInput "SVC-9" (Some 1)] None None].

(** The line-item documents of an order, numbered from [n]. *)
Fixpoint line_item_docs (now : Clock) (data : ServiceRequestInput)
    (transactionId : string) (customer : Customer) (n : nat)
    (items : list LineItemInput) : list LineItem :=
  match items with
  | [] => []
  | item :: rest =>
      new_line_item now data transactionId customer n item ::
      line_item_docs now data transactionId customer (S n) rest
  end.

(** The customer document [createServiceRequest] builds for a new
    customer. *)
Definition new_customer (db : Store) (data : ServiceRequestInput)
    (branch_number : N) : Customer :=
  mkCustomer (generateCustomerId db branch_number) (in_cust_name data)
    (or_null (in_cust_bdate data)) (or_null (in_cust_address data))
    (or_null (in_cust_email data)) (or_null (in_cust_contact data)) 0 0.

(** The filter [{cust_name, cust_bdate: cust_bdate || null}]. *)
Definition same_customer (data : ServiceRequestInput) (c : Customer) : bool :=
  String.eqb (cust_name c) (in_cust_name data) &&
  bool_decide (cust_bdate c = or_null (in_cust_bdate data)).

(** The transaction document [createServiceRequest] builds, before a first
    payment is attached. *)
Definition order_transaction (now : Clock) (data : ServiceRequestInput)
    (transactionId : string) (customer : Customer)
    (createdLineItems : list LineItem) : Transaction :=
  mkTransaction transactionId (map li_line_item_id createdLineItems)
    (in_branch_id data)
    (default (getTime now) (in_date_in data))
    (in_received_by data) None (c_cust_id customer)
    (Z.of_nat (length createdLineItems))
    (Js.num_or (default 0 (in_no_released data)) 0)
    (default 0 (in_total_amount data))
    (default 0 (in_discount_amount data))
    (default 0 (in_amount_paid data)) (in_payment_status data) []
    (in_payment_mode data).

(** The Payment document of an order placed with a positive
    [amount_paid]. *)
Definition order_payment (db : Store) (now : Clock)
    (data : ServiceRequestInput) (branch_code transactionId : string)
  : Payment :=
  mkPayment (generatePaymentId db branch_code) transactionId
    (default 0 (in_amount_paid data)) (in_payment_mode data) (getTime now).


(** The responses of [getTransactionById]. *)
Inductive GetResponse :=
| Get200 (transaction : Transaction) (customer : option Customer)
         (lineItems : list LineItem)
| Get400
| Get404.

(** [getTransactionById]: the transaction, its customer (null when there
    is none) and the line items that name the transaction. *)
Definition getTransactionById (db : Store) (transaction_id_param : string)
  : GetResponse :=
  if String.eqb transaction_id_param "" then Get400
  else
    match findOne (by_key transaction_id transaction_id_param)
            (db_transactions db) with
    | None => Get404
    | Some (_, transaction) =>
        let customer :=
          findOne (by_key c_cust_id (cust_id transaction)) (db_customers db) in
        let lineItems :=
          List.filter (by_key li_transaction_id transaction_id_param)
            (db_line_items db) in
        Get200 transaction (snd <$> customer) lineItems
    end.

(** The responses of [deleteTransaction]. *)
Inductive DeleteResponse := Delete200 | Delete400 | Delete404.

(** [Model.deleteOne(filter)]: the first matching document is removed. *)
Fixpoint deleteOne {A} (f : A -> bool) (l : list A) : nat * list A :=
  match l with
  | [] => (0%nat, [])
  | x :: rest =>
      if f x then (1%nat, rest)
      else let '(deletedCount, rest') := deleteOne f rest in
           (deletedCount, x :: rest')
  end.

(** [deleteTransaction] *)
Definition deleteTransaction (db : Store) (transaction_id_param : string)
  : DeleteResponse * Store :=
  if String.eqb transaction_id_param "" then (Delete400, db)
  else
    let '(deletedCount, transactions) :=
      deleteOne (by_key transaction_id transaction_id_param)
        (db_transactions db) in
    if (deletedCount =? 0)%nat then (Delete404, db)
    else (Delete200, with_transactions transactions db).

(** The Payment document [applyPayment] builds for a call without
    [provided_payment_id]. *)
Definition ledger_payment (db : Store) (now : Clock) (req : ApplyPaymentReq)
    (t : Transaction) : Payment :=
  mkPayment (generatePaymentId db (branch_code_of db t)) (transaction_id t)
    (Js.num_or (default 0 (dueNow req)) 0)
    (Js.str_or (modeOfPayment req) "Other") (getTime now).

(** Is that document stored?  The amount must be positive, the document
    must pass the schema, and the insert must go through. *)
Definition ledger_payment_stored (db : Store) (faults : ApplyPaymentFaults)
    (now : Clock) (req : ApplyPaymentReq) (t : Transaction) : bool :=
  (0 <? Js.num_or (default 0 (dueNow req)) 0) &&
  payment_valid (ledger_payment db now req t) &&
  negb (fail_payment_save faults) &&
  negb (existsb (by_key payment_id (payment_id (ledger_payment db now req t)))
          (db_payments db)).

(** The customer document after one pickup of transaction [t]. *)
Definition charged (t : Transaction) (customer : Customer) : Customer :=
  set_customer_totals
    (Js.num_or (total_services customer) 0 + 1)
    (Js.num_or (total_expenditure customer) 0 + Js.num_or (total_amount t) 0)
    customer.

(** A pickup of the first pair of the sample transaction, paying 400. *)
Definition first_pair_pickup : ApplyPaymentReq :=
  pay 400 (Some "Cash") (Some "2025-03-00001-001-NCR") true.

(** A pickup that names a line item the store does not have. *)
Definition unknown_item_pickup : ApplyPaymentReq :=
  pay 400 (Some "Cash") (Some "2025-03-00001-009-NCR") true.

(** [req.body] of [POST /payments]. *)
Record CreatePaymentReq := mkCreatePaymentReq {
  cp_transaction_id : option string;
  cp_payment_amount : option Z;
  cp_payment_mode : option string;
  cp_branch_id : option string
}.

Inductive PaymentResponse :=
| Payment201 (payment : Payment)
| Payment400 (error : string)
| Payment500.

(** [createPayment]: the branch code is looked up only when [branch_id] is
    given, and is empty when the branch is unknown; the Payment is saved
    outside any session. *)
Definition createPayment (db : Store) (fault : bool) (now : Clock)
    (req : CreatePaymentReq) : PaymentResponse * Store :=
  if negb (Js.truthy (cp_transaction_id req)) then
    (Payment400 "transaction_id required", db)
  else if Js.is_null (cp_payment_amount req) ||
          (default 0 (cp_payment_amount req) <=? 0) then
    (Payment400 "payment_amount must be a positive number", db)
  else
    let branchCode :=
      if Js.truthy (cp_branch_id req) then
        match findOne (by_key b_branch_id (Js.str_or (cp_branch_id req) ""))
                (db_branches db) with
        | Some (_, branch) => branch_code branch
        | None => ""
        end
      else "" in
    let paymentId := generatePaymentId db branchCode in
    let payment :=
      mkPayment paymentId (Js.str_or (cp_transaction_id req) "")
        (default 0 (cp_payment_amount req))
        (Js.str_or (cp_payment_mode req) "Other") (getTime now) in
    match insert_payment fault payment db with
    | Next _ db' => (Payment201 payment, db')
    | _ => (Payment500, db)
    end.

(** A payment of 300 in cash, created ahead of [applyPayment]. *)
Definition advance_payment : CreatePaymentReq :=
  mkCreatePaymentReq (Some "2025-03-00001-NCR") (Some 300) (Some "Cash")
    (Some "NCR-B-LOC").

(** The [applyPayment] request that hands in a pre-created payment. *)
Definition hand_in (pid : string) (due : Z) : ApplyPaymentReq :=
  mkApplyPaymentReq "2025-03-00001-NCR" (Some due) (Some due) (Some "Cash")
    None false None (Some pid).


(** A run of the notifier: each input comes with the behaviour of
    [collection.watch] at that moment. *)
Definition run_notifier (inputs : list ((string -> bool) * Notifier.Input))
    (st : Notifier.State) : Notifier.State :=
  fold_left (fun acc wi => Notifier.step (fst wi) (snd wi) acc) inputs st.

(** The backoff of every stream lies between the floor and the cap, the
    delay of every pending restart between twice the floor and the cap. *)
Definition delays_bounded (st : Notifier.State) : Prop :=
  Forall (fun s => Notifier.FLOOR_DELAY <= Notifier.backoffDelay s
                   <= Notifier.CAP_DELAY) (Notifier.streams st) /\
  Forall (fun t => 2 * Notifier.FLOOR_DELAY <= Notifier.timer_delay t
                   <= Notifier.CAP_DELAY) (Notifier.timers st).

(** Every entry of [activeStreams] is an open stream, registered under
    its own event name. *)
Definition active_open (st : Notifier.State) : Prop :=
  forall ev sid,
    Notifier.activeStreams st !! ev = Some sid ->
    exists s, Notifier.streams st !! sid = Some s /\
              Notifier.closed s = false /\
              Notifier.event (Notifier.target s) = ev.

Definition always_throws : string -> bool := fun _ => true.

(** A notifier whose only pending restart is for the line-items stream,
    at position 5, after 2000 ms. *)
Definition waiting_restart : Notifier.State :=
  Notifier.mkState [] ∅
    [Notifier.mkTimer (Notifier.mkWatchTarget "line_items" "lineItemUpdated")
       (Some 5) 2000] [].

(** Stream [sid] is open for target [tg] and [activeStreams] does not
    know it. *)
Definition unregistered_open (sid : nat) (tg : Notifier.WatchTarget)
    (st : Notifier.State) : Prop :=
  (exists s, Notifier.streams st !! sid = Some s /\
             Notifier.closed s = false /\ Notifier.target s = tg) /\
  forall ev, Notifier.activeStreams st !! ev <> Some sid.

(** Start-up, an error on the line-items stream, then a reconnect: the
    restart timer of the failed stream is still pending while a fresh
    stream is registered. *)
Definition reconnected_before_restart : Notifier.State :=
  run_notifier
    [(never_throws, Notifier.StreamError 0); (never_throws, Notifier.Reconnected)]
    (Notifier.initSocket never_throws).

Module DatesCtl.

(** [models/Dates.ts]: the stage dates of a line item; every field but the
    id defaults to null ([None]). *)
Record Dates := mkDates {
  line_item_id : string;
  srm_date : option Z;
  rd_date : option Z;
  ibd_date : option Z;
  wh_date : option Z;
  rb_date : option Z;
  is_date : option Z;
  rpu_date : option Z;
  current_status : option Z
}.

(** [req.body] of the upsert: a field is [None] when it is undefined,
    [Some None] when it is null. *)
Record Body := mkBody {
  body_line_item_id : option string;
  body_srm_date : option (option Z);
  body_rd_date : option (option Z);
  body_ibd_date : option (option Z);
  body_wh_date : option (option Z);
  body_rb_date : option (option Z);
  body_is_date : option (option Z);
  body_rpu_date : option (option Z);
  body_current_status : option (option Z)
}.

Inductive DatesResponse :=
| Dates200 (datesDoc : Dates)
| Deleted200
| Dates400
| Dates404
| Dates500.

(** [...(x !== undefined && { x })] under [$set]: a defined field
    replaces the stored value, an undefined one leaves it. *)
Definition set_field {A} (x : option A) (stored : A) : A :=
  match x with
  | Some v => v
  | None => stored
  end.

Definition apply_set (body : Body) (d : Dates) : Dates :=
  mkDates (line_item_id d)
    (set_field (body_srm_date body) (srm_date d))
    (set_field (body_rd_date body) (rd_date d))
    (set_field (body_ibd_date body) (ibd_date d))
    (set_field (body_wh_date body) (wh_date d))
    (set_field (body_rb_date body) (rb_date d))
    (set_field (body_is_date body) (is_date d))
    (set_field (body_rpu_date body) (rpu_date d))
    (set_field (body_current_status body) (current_status d)).

(** The document an upsert inserts before [$set] is applied: the id of
    the filter and the defaults. *)
Definition blank (id : string) : Dates :=
  mkDates id None None None None None None None None.

(** [getDatesByLineItemId] *)
Definition getDatesByLineItemId (coll : list Dates) (id : string)
  : DatesResponse :=
  if String.eqb id "" then Dates400
  else
    match findOne (by_key line_item_id id) coll with
    | Some (_, datesDoc) => Dates200 datesDoc
    | None => Dates404
    end.

(** [upsertDatesByLineItemId]: [findOneAndUpdate(filter, {$set: update},
    {new: true, upsert: true})]; [fault] makes the storage layer throw. *)
Definition upsertDatesByLineItemId (coll : list Dates) (fault : bool)
    (body : Body) : DatesResponse * list Dates :=
  if negb (Js.truthy (body_line_item_id body)) then (Dates400, coll)
  else if fault then (Dates500, coll)
  else
    let id := Js.str_or (body_line_item_id body) "" in
    match findOne (by_key line_item_id id) coll with
    | Some (i, stored) =>
        let datesDoc := apply_set body stored in
        (Dates200 datesDoc, <[i := datesDoc]> coll)
    | None =>
        let datesDoc := apply_set body (blank id) in
        (Dates200 datesDoc, (coll ++ [datesDoc])%list)
    end.

(** [deleteDatesByLineItemId] *)
Definition deleteDatesByLineItemId (coll : list Dates) (id : string)
  : DatesResponse * list Dates :=
  if String.eqb id "" then (Dates400, coll)
  else
    let '(deletedCount, rest) := deleteOne (by_key line_item_id id) coll in
    if (deletedCount =? 0)%nat then (Dates404, coll)
    else (Deleted200, rest).

End DatesCtl.

(** The line item arrived at the hub on day 3; nothing else is said. *)
Definition hub_arrival : DatesCtl.Body :=
  DatesCtl.mkBody (Some "2025-03-00001-001-NCR") None None (Some (Some 3))
    None None None None None.

Definition dates_on_file : list DatesCtl.Dates :=
  [DatesCtl.mkDates "2025-03-00001-001-NCR" (Some 1) (Some 2) None None None
     None None (Some 2);
   DatesCtl.mkDates "2025-03-00001-002-NCR" (Some 1) None None None None
     None None (Some 1)].

(** * Properties *)

(** ** The primitives and the id generators on samples *)

Example padStart0_ex : Js.padStart0 5 (Js.String_of_N 1) = "00001".
Proof. reflexivity. Qed.

Example split_ex : Js.split "-" "2025-03-00001-VAL" = ["2025"; "03"; "00001"; "VAL"].
Proof. reflexivity. Qed.

Example split_empty_ex : Js.split "," "" = [""].
Proof. reflexivity. Qed.

Example trim_ex : Js.trim "  GCash " = "GCash".
Proof. reflexivity. Qed.

Example parseInt_ex : Js.parseInt "00012" = Some 12%N.
Proof. reflexivity. Qed.

Example generateTransactionId_ex :
  generateTransactionId march_2025 empty_store "VAL" = "2025-03-00001-VAL".
Proof. reflexivity. Qed.

Example generateLineItemId_ex :
  generateLineItemId "2025-03-00001-VAL" 0 = "2025-03-00001-001-VAL".
Proof. reflexivity. Qed.

Example generatePaymentId_ex :
  generatePaymentId
    (with_payments [mkPayment "PAY-7-NCR" "t" 5 "Cash" 0;
                    mkPayment "PAY-9-VAL" "t" 5 "Cash" 0;
                    mkPayment "PAY-3-NCR" "t" 5 "Cash" 0] empty_store) "NCR"
  = "PAY-8-NCR".
Proof. reflexivity. Qed.

Example generateCustomerId_ex :
  generateCustomerId
    (with_customers [mkCustomer "CUST-2-4" "a" None None None None 0 0]
       empty_store) 2 = "CUST-2-5".
Proof. reflexivity. Qed.

(** ** Identifier Allocator *)

Lemma str_or_same (s : string) : Js.str_or (Some s) "" = s.
Proof.
  unfold Js.str_or. destruct (String.eqb_spec s ""); congruence.
Qed.

Lemma strip_prefix_app (p q s : string) :
  Js.strip_prefix p s = None -> Js.strip_prefix (p ++ q) s = None.
Proof.
  revert s. induction p as [|a p IH]; intros s H; simpl in *.
  - discriminate.
  - destruct s as [|b s]; [reflexivity|].
    destruct (Ascii.eqb a b); [apply IH; exact H | reflexivity].
Qed.

(** An id outside a year-month's prefix never matches that month's
    pattern, whatever the branch. *)
Lemma trx_id_match_prefix (ym bc id : string) :
  Js.strip_prefix (ym ++ "-") id = None -> trx_id_match ym bc id = false.
Proof. unfold trx_id_match. intros ->. reflexivity. Qed.

Lemma filter_none {A} (f : A -> bool) (l : list A) :
  Forall (fun x => f x = false) l -> List.filter f l = [].
Proof.
  induction 1 as [|x l Hx _ IH]; simpl; [reflexivity|].
  rewrite Hx. exact IH.
Qed.

Lemma maxNum_loop (branch : string) (window : list Payment) (acc : N) :
  fold_left (maxNum_step branch) window acc
  = N.max acc (max_suffix (suffixes branch window)).
Proof.
  revert acc. induction window as [|p r IH]; intros acc; simpl.
  - lia.
  - rewrite IH. unfold maxNum_step. rewrite str_or_same.
    destruct (pay_id_match branch (payment_id p)) as [d|]; [|reflexivity].
    destruct (String.eqb_spec d "") as [->|Hd]; simpl.
    + reflexivity.
    + destruct (Js.parseInt d) as [n|]; [|reflexivity].
      simpl. destruct (N.ltb_spec acc n); lia.
Qed.

Lemma generatePaymentId_eq (db : Store) (branch_code : string) :
  generatePaymentId db branch_code
  = "PAY-" ++ Js.String_of_N
      (max_suffix (suffixes branch_code (latest_payments db branch_code)) + 1)
    ++ "-" ++ branch_code.
Proof.
  unfold generatePaymentId. rewrite str_or_same, maxNum_loop.
  rewrite N.max_r by lia. reflexivity.
Qed.



(** C5. With branch code VAL and no transaction of March 2025 in the store,
    [generateTransactionId] allocates exactly [2025-03-00001-VAL], and the
    id derived for its first line item (index 0) is exactly
    [2025-03-00001-001-VAL]. *)
Theorem identifier_formats_stable (now : Clock) (db : Store) :
  getFullYear now = 2025%N ->
  getMonth now = 2%N ->
  Forall (fun t => Js.strip_prefix "2025-03-" (transaction_id t) = None)
    (db_transactions db) ->
  generateTransactionId now db "VAL" = "2025-03-00001-VAL" /\
  generateLineItemId (generateTransactionId now db "VAL") 0
  = "2025-03-00001-001-VAL".
Proof.
  intros Hy Hm Hnone.
  assert (E : generateTransactionId now db "VAL" = "2025-03-00001-VAL").
  { unfold generateTransactionId, yearMonth_of. rewrite Hy, Hm.
    change (Js.String_of_N 2025 ++ "-" ++ Js.padStart0 2 (Js.String_of_N (2 + 1)))
      with "2025-03".
    rewrite filter_none; [reflexivity|].
    apply Forall_map. eapply Forall_impl; [exact Hnone|].
    intros t Ht. apply trx_id_match_prefix. exact Ht. }
  split; [exact E|]. rewrite E. reflexivity.
Qed.

Lemma identifier_formats_stable_witness :
  generateTransactionId march_2025 (with_transactions [february_txn] empty_store) "VAL"
  = "2025-03-00001-VAL" /\
  generateLineItemId
    (generateTransactionId march_2025 (with_transactions [february_txn] empty_store) "VAL") 0
  = "2025-03-00001-001-VAL".
Proof.
  apply (identifier_formats_stable march_2025
           (with_transactions [february_txn] empty_store)).
  - reflexivity.
  - reflexivity.
  - repeat constructor.
Defined.



(** ** Payment Ledger *)

(** The payment block never fails the call: it goes on with the
    transaction unchanged, or with an existing payment attached, or with a
    new payment stored and attached. *)
Lemma record_payment_cases (db : Store) (faults : ApplyPaymentFaults)
    (now : Clock) (req : ApplyPaymentReq) (t : Transaction) (sess : Store) :
  record_payment db faults now req t sess = Next t sess
  \/ (exists k p,
        Js.truthy (provided_payment_id req) = true /\
        findOne (by_key payment_id (Js.str_or (provided_payment_id req) ""))
          (db_payments sess) = Some (k, p) /\
        record_payment db faults now req t sess
        = Next (attach_payment (Js.str_or (provided_payment_id req) "") t) sess)
  \/ (exists p,
        Js.truthy (provided_payment_id req) = false /\
        payment_valid p = true /\
        fail_payment_save faults = false /\
        record_payment db faults now req t sess
        = Next (attach_payment (payment_id p) t)
            (with_payments (db_payments sess ++ [p]) sess)).
Proof.
  unfold record_payment, try_catch, bind, read, ret.
  destruct (Js.truthy (provided_payment_id req)) eqn:Hp.
  - destruct (findOne _ (db_payments sess)) as [[k p]|] eqn:Hf.
    + right; left. exists k, p. auto.
    + left. reflexivity.
  - destruct (0 <? Js.num_or (default 0 (dueNow req)) 0); [|left; reflexivity].
    unfold insert_payment.
    match goal with |- context [payment_valid ?p] => set (pay := p) end.
    destruct (payment_valid pay) eqn:Hv; simpl; [|left; reflexivity].
    destruct (fail_payment_save faults) eqn:Hfault; [left; reflexivity|].
    destruct (existsb _ _); [left; reflexivity|].
    right; right. exists pay. auto.
Qed.

Lemma record_payment_next (db : Store) (faults : ApplyPaymentFaults)
    (now : Clock) (req : ApplyPaymentReq) (t : Transaction) (sess : Store) :
  exists t5 sess1, record_payment db faults now req t sess = Next t5 sess1.
Proof.
  destruct (record_payment_cases db faults now req t sess)
    as [H | [(k & p & _ & _ & H) | (p & _ & _ & _ & H)]]; eauto.
Qed.

(** Steps 2 and 3 touch the line items and the customers only; they fail
    with 404 or by throwing. *)
Lemma release_line_item_cases (faults : ApplyPaymentFaults)
    (req : ApplyPaymentReq) (t : Transaction) (sess : Store) :
  (exists sess',
      release_line_item faults req t sess = Next tt sess' /\
      db_transactions sess' = db_transactions sess /\
      db_payments sess' = db_payments sess /\
      db_branches sess' = db_branches sess /\
      db_services sess' = db_services sess)
  \/ release_line_item faults req t sess = Return (Json404 "Line item not found")
  \/ (exists s, release_line_item faults req t sess = Throw s).
Proof.
  unfold release_line_item.
  destruct (markPickedUp req && Js.truthy (lineItemId req)).
  2:{ left. exists sess. repeat split. }
  unfold bind, read, save_line_item, save_customer. cbn beta.
  destruct (findOne _ (db_line_items sess)) as [[i li]|]; [|right; left; reflexivity].
  destruct (fail_line_item_save faults); [right; right; eexists; reflexivity|].
  unfold write. cbn [db_customers with_line_items].
  destruct (findOne _ (db_customers sess)) as [[j c]|].
  - destruct (fail_customer_save faults); [right; right; eexists; reflexivity|].
    left. eexists. split; [reflexivity|]. repeat split.
  - left. eexists. split; [reflexivity|]. repeat split.
Qed.

Lemma check_payment_status_cases (ps : option string) (t : Transaction)
    (sess : Store) :
  (exists errors, check_payment_status ps t sess = Return (Json400 errors))
  \/ check_payment_status ps t sess = Next (set_status_opt ps t) sess.
Proof.
  destruct ps as [ps|]; unfold check_payment_status; [|right; reflexivity].
  destruct (Js.includes VALID ps); [right; reflexivity|].
  left. eexists. reflexivity.
Qed.

(** Every call either leaves the committed store as it was and answers
    with an error, or runs the whole body and commits. *)
Lemma applyPayment_inv (db : Store) (faults : ApplyPaymentFaults)
    (now : Clock) (req : ApplyPaymentReq) (resp : Response) (db' : Store) :
  applyPayment db faults now req = (resp, db') ->
  (db' = db /\ forall t, resp <> Json200 t)
  \/ (exists i t t5 sess1,
        findOne (by_key transaction_id (params_transaction_id req))
          (db_transactions db) = Some (i, t) /\
        is_Some (dueNow req) /\
        record_payment db faults now req (before_payment req t) db
        = Next t5 sess1 /\
        fail_transaction_save faults = false /\
        fail_commit faults = false /\
        resp = Json200 (stamp_date_out (markPickedUp req) now t5) /\
        release_line_item faults req (stamp_date_out (markPickedUp req) now t5)
          (with_transactions
             (<[i := stamp_date_out (markPickedUp req) now t5]>
                (db_transactions sess1)) sess1)
        = Next tt db').
Proof.
  unfold applyPayment, in_session, applyPayment_body.
  destruct (String.eqb (params_transaction_id req) "").
  { simpl. intros [= <- <-]. left. split; [reflexivity|discriminate]. }
  destruct (dueNow req) as [due|] eqn:Hdue; simpl.
  2:{ intros [= <- <-]. left. split; [reflexivity|discriminate]. }
  destruct (Js.is_null (customerPaid req)); simpl.
  { intros [= <- <-]. left. split; [reflexivity|discriminate]. }
  unfold bind at 1, read.
  destruct (findOne _ (db_transactions db)) as [[i t]|] eqn:Hfind.
  2:{ simpl. intros [= <- <-]. left. split; [reflexivity|discriminate]. }
  unfold bind at 1.
  destruct (check_payment_status_cases (body_payment_status req)
              (add_payment (Some due) (bump_released (markPickedUp req) t)) db)
    as [[r Hr]|Hr]; rewrite Hr.
  { intros [= <- <-]. left. split; [reflexivity|discriminate]. }
  unfold bind at 1.
  fold (before_payment req t).
  assert (Hbp : append_mode (modeOfPayment req)
            (set_status_opt (body_payment_status req)
               (add_payment (Some due) (bump_released (markPickedUp req) t)))
          = before_payment req t).
  { unfold before_payment. rewrite Hdue. reflexivity. }
  rewrite Hbp.
  destruct (record_payment_next db faults now req (before_payment req t) db)
    as (t5 & sess1 & Hrec).
  rewrite Hrec.
  unfold bind at 1. unfold save_transaction.
  destruct (fail_transaction_save faults) eqn:Hft.
  { unfold throw. intros [= <- <-]. left. split; [reflexivity|discriminate]. }
  unfold write. unfold bind at 1.
  match goal with |- context [release_line_item ?f ?r ?t ?s] =>
    destruct (release_line_item_cases f r t s)
      as [(sess2 & Hrel & _) | [Hrel | (s' & Hrel)]]; rewrite Hrel end.
  2:{ intros [= <- <-]. left. split; [reflexivity|discriminate]. }
  2:{ intros [= <- <-]. left. split; [reflexivity|discriminate]. }
  unfold ret. destruct (fail_commit faults) eqn:Hfc.
  { intros [= <- <-]. left. split; [reflexivity|discriminate]. }
  intros [= <- <-]. right. exists i, t, t5, sess1.
  repeat split; try assumption; try reflexivity. eexists; reflexivity.
Qed.

(** What the fields of the transaction are before the payment block. *)
Lemma before_payment_fields (req : ApplyPaymentReq) (t : Transaction) :
  let t' := before_payment req t in
  transaction_id t' = transaction_id t /\
  no_pairs t' = no_pairs t /\
  total_amount t' = total_amount t /\
  cust_id t' = cust_id t /\
  date_out t' = date_out t /\
  payments t' = payments t /\
  no_released t' = no_released (bump_released (markPickedUp req) t) /\
  amount_paid t' = amount_paid (add_payment (dueNow req) t) /\
  payment_mode t' = payment_mode (append_mode (modeOfPayment req) t).
Proof.
  unfold before_payment, append_mode, add_payment, bump_released.
  destruct (markPickedUp req), (body_payment_status req), (modeOfPayment req);
    txn_simpl; split_ifs; txn_simpl; repeat split.
Qed.

Lemma attach_payment_fields (pid : string) (t : Transaction) :
  let t' := attach_payment pid t in
  transaction_id t' = transaction_id t /\
  no_pairs t' = no_pairs t /\
  total_amount t' = total_amount t /\
  cust_id t' = cust_id t /\
  date_out t' = date_out t /\
  no_released t' = no_released t /\
  amount_paid t' = amount_paid t /\
  payment_mode t' = payment_mode t.
Proof.
  unfold attach_payment. destruct (Js.includes (payments t) pid);
    txn_simpl; repeat split.
Qed.

Lemma stamp_date_out_fields (mark : bool) (now : Clock) (t : Transaction) :
  let t' := stamp_date_out mark now t in
  transaction_id t' = transaction_id t /\
  no_pairs t' = no_pairs t /\
  total_amount t' = total_amount t /\
  cust_id t' = cust_id t /\
  payments t' = payments t /\
  no_released t' = no_released t /\
  amount_paid t' = amount_paid t /\
  payment_mode t' = payment_mode t.
Proof.
  unfold stamp_date_out. split_ifs; txn_simpl; repeat split.
Qed.

Lemma stamp_date_out_eq (mark : bool) (now : Clock) (t u : Transaction) :
  no_pairs t = no_pairs u -> no_released t = no_released u ->
  date_out t = date_out u ->
  date_out (stamp_date_out mark now t) = date_out (stamp_date_out mark now u).
Proof.
  unfold stamp_date_out. intros -> -> E.
  split_ifs; txn_simpl; congruence.
Qed.

Lemma bump_released_fields (mark : bool) (t : Transaction) :
  no_pairs (bump_released mark t) = no_pairs t /\
  date_out (bump_released mark t) = date_out t.
Proof. unfold bump_released. destruct mark; txn_simpl; split; reflexivity. Qed.

(** The full account of a call: the store is untouched and the answer is an
    error, or the transaction found at position [i] is replaced by the
    answered one, the payments collection grows by at most one record, and
    the other transactions are untouched. *)
Lemma applyPayment_effect (db : Store) (faults : ApplyPaymentFaults)
    (now : Clock) (req : ApplyPaymentReq) (resp : Response) (db' : Store) :
  applyPayment db faults now req = (resp, db') ->
  (db' = db /\ forall t, resp <> Json200 t)
  \/ (exists i t t',
        findOne (by_key transaction_id (params_transaction_id req))
          (db_transactions db) = Some (i, t) /\
        resp = Json200 t' /\
        ledger_step now req t t' /\
        db_transactions db' = <[i := t']> (db_transactions db) /\
        (db_payments db' = db_payments db /\ payments t' = payments t
         \/ (exists k p,
               Js.truthy (provided_payment_id req) = true /\
               findOne (by_key payment_id (Js.str_or (provided_payment_id req) ""))
                 (db_payments db) = Some (k, p) /\
               db_payments db' = db_payments db /\
               payments t' = payments (attach_payment (payment_id p) t))
         \/ (exists p,
               Js.truthy (provided_payment_id req) = false /\
               payment_valid p = true /\
               fail_payment_save faults = false /\
               db_payments db' = (db_payments db ++ [p])%list /\
               payments t' = payments (attach_payment (payment_id p) t)))).
Proof.
  intros H. apply applyPayment_inv in H.
  destruct H as [H | (i & t & t5 & sess1 & Hfind & _ & Hrec & _ & _ & -> & Hrel)];
    [left; exact H | right].
  exists i, t, (stamp_date_out (markPickedUp req) now t5).
  split; [exact Hfind|]. split; [reflexivity|].
  destruct (release_line_item_cases faults req
              (stamp_date_out (markPickedUp req) now t5)
              (with_transactions
                 (<[i := stamp_date_out (markPickedUp req) now t5]>
                    (db_transactions sess1)) sess1))
    as [(s2 & E & Htx & Hpay & _) | [E | (s & E)]];
    rewrite E in Hrel; try discriminate.
  injection Hrel as <-. cbn [db_transactions db_payments with_transactions] in *.
  pose proof (before_payment_fields req t) as (B1 & B2 & B3 & B4 & B5 & B6 & B7 & B8 & B9).
  pose proof (stamp_date_out_fields (markPickedUp req) now t5)
    as (S1 & S2 & S3 & S4 & S5 & S6 & S7 & S8).
  assert (Hstep : forall u,
            transaction_id t5 = transaction_id u -> no_pairs t5 = no_pairs u ->
            total_amount t5 = total_amount u -> date_out t5 = date_out u ->
            no_released t5 = no_released u -> amount_paid t5 = amount_paid u ->
            payment_mode t5 = payment_mode u ->
            u = before_payment req t ->
            ledger_step now req t (stamp_date_out (markPickedUp req) now t5)).
  { intros u U1 U2 U3 U4 U5 U6 U7 ->.
    pose proof (bump_released_fields (markPickedUp req) t) as [P1 P2].
    constructor; try congruence.
    apply stamp_date_out_eq; congruence. }
  destruct (record_payment_cases db faults now req (before_payment req t) db)
    as [E1 | [(k & p & Ht & Hf & E1) | (p & Ht & Hv & Hnf & E1)]];
    rewrite E1 in Hrec; injection Hrec as <- <-.
  - split; [apply (Hstep (before_payment req t)); reflexivity|].
    split; [rewrite Htx; reflexivity|].
    left. split; [exact Hpay | congruence].
  - pose proof (attach_payment_fields (Js.str_or (provided_payment_id req) "")
                  (before_payment req t)) as (A1 & A2 & A3 & A4 & A5 & A6 & A7 & A8).
    split; [apply (Hstep (before_payment req t)); congruence|].
    split; [rewrite Htx; reflexivity|].
    right; left. exists k, p. repeat split; try assumption.
    assert (Hk : payment_id p = Js.str_or (provided_payment_id req) "").
    { clear -Hf. unfold findOne in Hf. revert Hf. generalize 0%nat.
      induction (db_payments db) as [|x l IH]; intros n Hf; simpl in Hf;
        [discriminate|].
      unfold by_key in Hf at 1.
      destruct (String.eqb_spec (payment_id x) (Js.str_or (provided_payment_id req) "")).
      - injection Hf as _ <-. assumption.
      - eapply IH. exact Hf. }
    rewrite Hk, S5. unfold attach_payment. rewrite B6.
    destruct (Js.includes (payments t) _); txn_simpl; congruence.
  - pose proof (attach_payment_fields (payment_id p)
                  (before_payment req t)) as (A1 & A2 & A3 & A4 & A5 & A6 & A7 & A8).
    split; [apply (Hstep (before_payment req t)); congruence|].
    split; [rewrite Htx; reflexivity|].
    right; right. exists p. repeat split; try assumption.
    rewrite S5. unfold attach_payment. rewrite B6.
    destruct (Js.includes (payments t) _); txn_simpl; congruence.
Qed.

Lemma findOne_from_spec {A} (f : A -> bool) (l : list A) (n i : nat) (x : A) :
  findOne_from f n l = Some (i, x) ->
  exists k, i = (n + k)%nat /\ l !! k = Some x /\ f x = true.
Proof.
  revert n. induction l as [|y l IH]; intros n H; simpl in H; [discriminate|].
  destruct (f y) eqn:Hy.
  - injection H as <- <-. exists 0%nat. repeat split; [lia|assumption].
  - destruct (IH _ H) as (k & -> & Hk & Hx).
    exists (S k). repeat split; [lia|assumption..].
Qed.

Lemma findOne_lookup {A} (f : A -> bool) (l : list A) (i : nat) (x : A) :
  findOne f l = Some (i, x) -> l !! i = Some x /\ f x = true.
Proof.
  intros H. apply findOne_from_spec in H as (k & -> & Hk & Hx). auto.
Qed.

Lemma findOne_none {A} (f : A -> bool) (l : list A) :
  findOne f l = None -> Forall (fun x => f x = false) l.
Proof.
  unfold findOne. generalize 0%nat.
  induction l as [|y l IH]; intros n H; simpl in H; constructor.
  - destruct (f y); [discriminate|reflexivity].
  - destruct (f y); [discriminate|]. eapply IH. exact H.
Qed.

(** *** Sequences of calls *)

Lemma num_or_0 (x : Z) : Js.num_or x 0 = x.
Proof. unfold Js.num_or. destruct (Z.eqb_spec x 0); congruence. Qed.

Lemma add_payment_paid (due : option Z) (t : Transaction) :
  amount_paid (add_payment due t)
  = Z.min (total_amount t) (amount_paid t + default 0 due).
Proof.
  unfold add_payment. txn_simpl. rewrite !num_or_0.
  destruct (Z.ltb_spec (total_amount t) (amount_paid t + default 0 due)); lia.
Qed.

(** A property of single transactions that every committed update keeps
    is kept by every call, committed or not. *)
Lemma apply_call_Forall (P : Transaction -> Prop) (db : Store) (c : Call) :
  (forall t t', P t -> ledger_step (call_now c) (call_req c) t t' -> P t') ->
  Forall P (db_transactions db) ->
  Forall P (db_transactions (apply_call db c)).
Proof.
  intros Hstep Hall. unfold apply_call.
  destruct (applyPayment db (call_faults c) (call_now c) (call_req c))
    as [resp db'] eqn:E.
  apply applyPayment_effect in E
    as [[-> _] | (i & t & t' & Hfind & _ & Hls & Htx & _)]; [exact Hall|].
  simpl. rewrite Htx. apply Forall_insert; [exact Hall|].
  apply findOne_lookup in Hfind as [Hi _].
  eapply Hstep; [|exact Hls].
  eapply Forall_lookup_1; eassumption.
Qed.

(** C1, counterexample.  A transaction with [total_amount = 1000] and
    nothing paid, after one call with [dueNow = -500], has
    [amount_paid = -500]; and [createServiceRequest] stores an
    [amount_paid] of 1500 against a total of 1000 as supplied. *)
Lemma amount_paid_range_counterexample :
  Forall paid_in_range (db_transactions demo_db) /\
  (exists t',
      db_transactions
        (snd (applyPayment demo_db no_faults march_2025 (pay (-500) None None false)))
      !! 0%nat = Some t' /\
      amount_paid t' = -500 /\ ~ paid_in_range t') /\
  (exists t',
      db_transactions
        (snd (createServiceRequest demo_branches no_intake_faults march_2025
                (demo_order 1000 1500 [demo_item "a"])))
      !! 0%nat = Some t' /\
      amount_paid t' = 1500 /\ total_amount t' = 1000 /\ ~ paid_in_range t').
Proof.
  split; [repeat constructor; vm_compute; discriminate|]. split.
  - eexists. split; [vm_compute; reflexivity|].
    split; [reflexivity|]. unfold paid_in_range. simpl. lia.
  - eexists. split; [vm_compute; reflexivity|].
    split; [reflexivity|]. split; [reflexivity|].
    unfold paid_in_range. simpl. lia.
Qed.

(** C1, as the code has it.  A successful [applyPayment] answers with
    [amount_paid <= total_amount], whatever [dueNow] and whatever
    [amount_paid] the transaction had; [amount_paid <= total_amount], once
    it holds for the stored transactions, holds after every sequence of
    calls; [0 <= amount_paid <= total_amount] is kept by every sequence of
    calls whose [dueNow] are not negative; and with [total_amount = 1000]
    and [0 <= amount_paid], a call with [dueNow = 1500] leaves
    [amount_paid = 1000]. *)
Theorem amount_paid_clamped :
  (forall db faults now req t' db',
      applyPayment db faults now req = (Json200 t', db') ->
      amount_paid t' <= total_amount t') /\
  (forall db calls,
      Forall paid_le_total (db_transactions db) ->
      Forall paid_le_total (db_transactions (run_calls db calls))) /\
  (forall db calls,
      Forall paid_in_range (db_transactions db) ->
      Forall (fun c => 0 <= default 0 (dueNow (call_req c))) calls ->
      Forall paid_in_range (db_transactions (run_calls db calls))) /\
  (forall db faults now req t' db' i t,
      applyPayment db faults now req = (Json200 t', db') ->
      findOne (by_key transaction_id (params_transaction_id req))
        (db_transactions db) = Some (i, t) ->
      total_amount t = 1000 -> 0 <= amount_paid t ->
      dueNow req = Some 1500 ->
      amount_paid t' = 1000 /\ db_transactions db' !! i = Some t').
Proof.
  repeat apply conj.
  - intros db faults now req t' db' H.
    apply applyPayment_effect in H
      as [[_ H] | (i & t & t'' & _ & [= <-] & Hls & _)]; [exfalso; exact (H _ eq_refl)|].
    rewrite (ls_paid _ _ _ _ Hls), (ls_total _ _ _ _ Hls), add_payment_paid. lia.
  - intros db calls. revert db.
    induction calls as [|c calls IH]; intros db H; simpl; [exact H|].
    apply IH, apply_call_Forall; [|exact H].
    intros t t' Ht Hls. unfold paid_le_total in *.
    rewrite (ls_paid _ _ _ _ Hls), (ls_total _ _ _ _ Hls), add_payment_paid. lia.
  - intros db calls. revert db.
    induction calls as [|c calls IH]; intros db H Hdue; simpl; [exact H|].
    inversion Hdue as [|c' calls' Hc Hrest]; subst.
    apply IH; [|exact Hrest]. apply apply_call_Forall; [|exact H].
    intros t t' Ht Hls. unfold paid_in_range in *.
    rewrite (ls_paid _ _ _ _ Hls), (ls_total _ _ _ _ Hls), add_payment_paid. lia.
  - intros db faults now req t' db' i t H Hfind Htot Hpaid Hdue.
    apply applyPayment_effect in H
      as [[_ H] | (i' & t0 & t'' & Hfind' & [= <-] & Hls & Htx & _)]; [exfalso; exact (H _ eq_refl)|].
    rewrite Hfind in Hfind'. injection Hfind' as <- <-.
    split.
    + rewrite (ls_paid _ _ _ _ Hls), add_payment_paid, Hdue, Htot. simpl. lia.
    + rewrite Htx. apply list_lookup_insert_eq.
      apply findOne_lookup in Hfind as [Hi _].
      eapply lookup_lt_Some. exact Hi.
Qed.

Lemma amount_paid_clamped_witness :
  amount_paid
    (set_amount_paid 1000 (set_payments ["PAY-1-NCR"] demo_txn)) = 1000 /\
  db_transactions
    (snd (applyPayment demo_db no_faults march_2025 (pay 1500 None None false)))
  !! 0%nat
  = Some (set_amount_paid 1000 (set_payments ["PAY-1-NCR"] demo_txn)).
Proof.
  apply (proj2 (proj2 (proj2 amount_paid_clamped))
           demo_db no_faults march_2025 (pay 1500 None None false)
           (set_amount_paid 1000 (set_payments ["PAY-1-NCR"] demo_txn))
           (snd (applyPayment demo_db no_faults march_2025
                   (pay 1500 None None false)))
           0%nat demo_txn).
  - vm_compute. reflexivity.
  - vm_compute. reflexivity.
  - reflexivity.
  - simpl. lia.
  - reflexivity.
Defined.

(** *** Atomicity *)

Lemma record_payment_session (db : Store) (faults : ApplyPaymentFaults)
    (now : Clock) (req : ApplyPaymentReq) (t t5 : Transaction)
    (sess sess1 : Store) :
  record_payment db faults now req t sess = Next t5 sess1 ->
  db_transactions sess1 = db_transactions sess /\
  db_line_items sess1 = db_line_items sess /\
  db_customers sess1 = db_customers sess /\
  cust_id t5 = cust_id t.
Proof.
  intros H.
  destruct (record_payment_cases db faults now req t sess)
    as [E | [(k & p & _ & _ & E) | (p & _ & _ & _ & E)]];
    rewrite E in H; injection H as <- <-; repeat split;
    apply attach_payment_fields.
Qed.






(** *** Releases *)









(** *** Payment modes *)

Lemma includes_In (l : list string) (x : string) :
  Js.includes l x = true <-> In x l.
Proof.
  unfold Js.includes. rewrite existsb_exists. split.
  - intros (y & Hy & E). apply String.eqb_eq in E. congruence.
  - intros H. exists x. split; [exact H|apply String.eqb_refl].
Qed.

Lemma split_nonempty (sep : ascii) (s : string) : Js.split sep s <> [].
Proof.
  destruct s as [|c r]; simpl; [discriminate|].
  destruct (Ascii.eqb c sep); [discriminate|].
  destruct (Js.split sep r); discriminate.
Qed.

Lemma split_app (sep : ascii) (a b : string) :
  Js.split sep (a ++ String sep b) = (Js.split sep a ++ Js.split sep b)%list.
Proof.
  induction a as [|c a IH]; simpl.
  - rewrite Ascii.eqb_refl. reflexivity.
  - destruct (Ascii.eqb c sep); [rewrite IH; reflexivity|].
    rewrite IH. pose proof (split_nonempty sep a).
    destruct (Js.split sep a); [contradiction|reflexivity].
Qed.

Lemma split_plain (sep : ascii) (s : string) :
  has_char sep s = false -> Js.split sep s = [s].
Proof.
  induction s as [|c r IH]; simpl; [reflexivity|].
  intros H. apply orb_false_iff in H as [Hc Hr].
  rewrite Hc, (IH Hr). reflexivity.
Qed.

(** What [append_mode] does for a plain mode. *)
Lemma append_mode_plain (mode : string) (t : Transaction) :
  plain_mode mode ->
  (payment_mode t = "" /\
   payment_mode (append_mode (Some mode) t) = mode /\
   modes (append_mode (Some mode) t) = [mode])
  \/ (payment_mode t <> "" /\ ~ In mode (modes t) /\
      payment_mode (append_mode (Some mode) t) = payment_mode t ++ "," ++ mode /\
      modes (append_mode (Some mode) t) = (modes t ++ [mode])%list)
  \/ (payment_mode t <> "" /\ In mode (modes t) /\
      append_mode (Some mode) t = t).
Proof.
  intros (Hne & Hcomma & Htrim). unfold append_mode.
  destruct (String.eqb_spec mode ""); [contradiction|].
  rewrite str_or_same.
  destruct (String.eqb_spec (payment_mode t) "") as [He|He].
  - left. split; [exact He|]. unfold modes. txn_simpl.
    rewrite (split_plain _ _ Hcomma). simpl. rewrite Htrim. auto.
  - right. fold (modes t).
    destruct (Js.includes (modes t) mode) eqn:Hin; simpl.
    + right. apply includes_In in Hin. auto.
    + left. split; [exact He|]. split.
      { intros H. apply includes_In in H. congruence. }
      unfold modes. txn_simpl. split; [reflexivity|].
      change (payment_mode t ++ "," ++ mode)
        with (payment_mode t ++ String "," mode).
      rewrite split_app, map_app, (split_plain _ _ Hcomma). simpl.
      rewrite Htrim. reflexivity.
Qed.

(** C7, counterexample.  The mode [" Cash"] is compared untrimmed with the
    trimmed entries: against [payment_mode = "Cash"] it is appended, and
    appended again by the next call although it is by then an entry of the
    comma-joined set under exact comparison; the update is not idempotent
    and the entry appears twice. *)
Lemma payment_mode_dedup_counterexample :
  exists t1 t2,
    db_transactions (run_calls demo_db [spaced_cash]) !! 0%nat = Some t1 /\
    db_transactions (run_calls demo_db [spaced_cash; spaced_cash]) !! 0%nat
    = Some t2 /\
    payment_mode t1 = "Cash, Cash" /\
    In " Cash" (Js.split "," (payment_mode t1)) /\
    payment_mode t2 = "Cash, Cash, Cash" /\
    payment_mode t2 <> payment_mode t1 /\
    ~ NoDup (Js.split "," (payment_mode t2)).
Proof.
  eexists. eexists.
  split; [vm_compute; reflexivity|]. split; [vm_compute; reflexivity|].
  split; [reflexivity|]. split; [simpl; auto|].
  split; [reflexivity|]. split; [discriminate|].
  simpl. intros H. apply NoDup_cons_1_2, NoDup_cons_1_1 in H. apply H.
  left.
Qed.

(** C7, as the code has it.  For a plain mode (not empty, free of commas
    and of surrounding white space, as the four valid modes are), a
    successful call changes [payment_mode] only when the mode is not among
    its trimmed entries, and then by setting it (when it was empty) or by
    appending [,mode]; a mode already among the entries leaves
    [payment_mode] unchanged; and entries that were pairwise distinct stay
    pairwise distinct. *)
Theorem payment_mode_append_once (db : Store) (faults : ApplyPaymentFaults)
    (now : Clock) (req : ApplyPaymentReq) (t' : Transaction) (db' : Store)
    (mode : string) :
  applyPayment db faults now req = (Json200 t', db') ->
  modeOfPayment req = Some mode ->
  plain_mode mode ->
  exists i t,
    findOne (by_key transaction_id (params_transaction_id req))
      (db_transactions db) = Some (i, t) /\
    (In mode (modes t) -> payment_mode t' = payment_mode t) /\
    (payment_mode t' <> payment_mode t ->
     ~ In mode (modes t) /\
     (payment_mode t = "" /\ payment_mode t' = mode \/
      payment_mode t' = payment_mode t ++ "," ++ mode)) /\
    (NoDup (modes t) -> NoDup (modes t')).
Proof.
  intros H Hmode Hplain.
  apply applyPayment_effect in H
    as [[_ H] | (i & t & t'' & Hfind & [= <-] & Hls & _)];
    [exfalso; exact (H _ eq_refl)|].
  exists i, t. split; [exact Hfind|].
  pose proof (ls_mode _ _ _ _ Hls) as Hm. rewrite Hmode in Hm.
  assert (Hmodes : modes t' = modes (append_mode (Some mode) t)).
  { unfold modes. rewrite Hm. reflexivity. }
  destruct (append_mode_plain mode t Hplain)
    as [(He & Hp & Hl) | [(He & Hnin & Hp & Hl) | (He & Hin & Hid)]].
  - assert (Hempty : modes t = [""]).
    { unfold modes. rewrite He. reflexivity. }
    assert (Hnin : ~ In mode (modes t)).
    { rewrite Hempty. intros [Hin|[]]. destruct Hplain as [Hne _]. congruence. }
    split; [intros Hin; contradiction|]. split.
    + intros _. split; [exact Hnin|]. left. split; congruence.
    + intros _. rewrite Hmodes, Hl. apply NoDup_singleton.
  - split; [intros Hin; contradiction|]. split.
    + intros _. split; [exact Hnin|]. right. congruence.
    + intros Hnd. rewrite Hmodes, Hl. apply NoDup_app. split; [exact Hnd|].
      split; [|apply NoDup_singleton].
      intros x Hx Hx'. apply list_elem_of_singleton in Hx' as ->.
      apply Hnin. apply list_elem_of_In. exact Hx.
  - rewrite Hid in Hm, Hmodes. split; [intros _; exact Hm|]. split.
    + intros Hne. contradiction.
    + intros Hnd. rewrite Hmodes. exact Hnd.
Qed.

Lemma payment_mode_append_once_witness :
  exists i t,
    findOne (by_key transaction_id "2025-03-00001-NCR")
      (db_transactions demo_db) = Some (i, t) /\
    (In "Cash" (modes t) -> "Cash" = payment_mode t) /\
    ("Cash" <> payment_mode t ->
     ~ In "Cash" (modes t) /\
     (payment_mode t = "" /\ "Cash" = "Cash" \/
      "Cash" = payment_mode t ++ "," ++ "Cash")) /\
    (NoDup (modes t) -> NoDup (modes demo_txn)).
Proof.
  apply (payment_mode_append_once demo_db no_faults march_2025
           (pay 0 (Some "Cash") None false) demo_txn demo_db "Cash").
  - vm_compute. reflexivity.
  - reflexivity.
  - split; [discriminate|]. split; reflexivity.
Defined.

(** *** A provided payment id that matches no Payment *)

Lemma record_payment_unknown (db : Store) (faults : ApplyPaymentFaults)
    (now : Clock) (req : ApplyPaymentReq) (t : Transaction) (sess : Store) :
  Js.truthy (provided_payment_id req) = true ->
  findOne (by_key payment_id (Js.str_or (provided_payment_id req) ""))
    (db_payments sess) = None ->
  record_payment db faults now req t sess = Next t sess.
Proof.
  intros Ht Hnone. unfold record_payment, try_catch, bind, read, ret.
  rewrite Ht, Hnone. reflexivity.
Qed.

Lemma release_line_item_ok (faults : ApplyPaymentFaults)
    (req : ApplyPaymentReq) (t : Transaction) (sess : Store) :
  fail_line_item_save faults = false ->
  fail_customer_save faults = false ->
  (markPickedUp req && Js.truthy (lineItemId req) = true ->
   findOne (by_key li_line_item_id (Js.str_or (lineItemId req) ""))
     (db_line_items sess) <> None) ->
  exists sess', release_line_item faults req t sess = Next tt sess'.
Proof.
  intros Hl Hc Hfound. unfold release_line_item.
  destruct (markPickedUp req && Js.truthy (lineItemId req)); [|eexists; reflexivity].
  unfold bind, read, save_line_item, save_customer. cbn beta.
  destruct (findOne _ (db_line_items sess)) as [[i li]|];
    [|exfalso; apply Hfound; reflexivity].
  rewrite Hl, Hc. unfold write. cbn [db_customers with_line_items].
  destruct (findOne _ (db_customers sess)) as [[j c]|]; eexists; reflexivity.
Qed.

(** C10. When [provided_payment_id] is given and matches no Payment, the
    call does not fail for it: provided the transaction exists, [dueNow]
    and [customerPaid] are given, [payment_status] is absent or valid, the
    line item of a requested pickup exists and the storage layer rejects
    nothing, the answer is 200 with the updated transaction; its
    [payments] list is the one it had, and the Payment collection is
    unchanged: no Payment is created for [dueNow]. *)
Theorem unknown_provided_payment_id (db : Store) (faults : ApplyPaymentFaults)
    (now : Clock) (req : ApplyPaymentReq) (i : nat) (t : Transaction) :
  Js.truthy (provided_payment_id req) = true ->
  findOne (by_key payment_id (Js.str_or (provided_payment_id req) ""))
    (db_payments db) = None ->
  params_transaction_id req <> "" ->
  is_Some (dueNow req) -> is_Some (customerPaid req) ->
  findOne (by_key transaction_id (params_transaction_id req))
    (db_transactions db) = Some (i, t) ->
  (forall ps, body_payment_status req = Some ps -> Js.includes VALID ps = true) ->
  (markPickedUp req && Js.truthy (lineItemId req) = true ->
   findOne (by_key li_line_item_id (Js.str_or (lineItemId req) ""))
     (db_line_items db) <> None) ->
  fail_transaction_save faults = false ->
  fail_line_item_save faults = false ->
  fail_customer_save faults = false ->
  fail_commit faults = false ->
  exists t' db',
    applyPayment db faults now req = (Json200 t', db') /\
    t' = stamp_date_out (markPickedUp req) now (before_payment req t) /\
    payments t' = payments t /\
    db_transactions db' !! i = Some t' /\
    db_payments db' = db_payments db.
Proof.
  intros Hprov Hnone Hid [due Hdue] [paid Hpaid] Hfind Hstatus Hli
         Hft Hfl Hfc Hfm.
  set (t6 := stamp_date_out (markPickedUp req) now (before_payment req t)).
  destruct (release_line_item_ok faults req t6
              (with_transactions (<[i := t6]> (db_transactions db)) db) Hfl Hfc Hli)
    as (db' & Hrel).
  exists t6, db'.
  assert (Hrun : applyPayment db faults now req = (Json200 t6, db')).
  { unfold applyPayment, in_session, applyPayment_body.
    destruct (String.eqb_spec (params_transaction_id req) ""); [contradiction|].
    rewrite Hdue, Hpaid. simpl.
    unfold bind at 1, read. rewrite Hfind.
    unfold bind at 1.
    destruct (check_payment_status_cases (body_payment_status req)
                (add_payment (Some due) (bump_released (markPickedUp req) t)) db)
      as [[errs Hr]|Hr].
    { exfalso. revert Hr. unfold check_payment_status.
      destruct (body_payment_status req) as [ps|] eqn:Hps; [|discriminate].
      rewrite (Hstatus ps eq_refl). discriminate. }
    rewrite Hr. unfold bind at 1.
    assert (Hbp : append_mode (modeOfPayment req)
              (set_status_opt (body_payment_status req)
                 (add_payment (Some due) (bump_released (markPickedUp req) t)))
            = before_payment req t).
    { unfold before_payment. rewrite Hdue. reflexivity. }
    rewrite Hbp, (record_payment_unknown db faults now req _ db Hprov Hnone).
    unfold bind at 1, save_transaction. rewrite Hft. unfold write.
    unfold bind at 1. fold t6. rewrite Hrel. unfold ret. rewrite Hfm.
    reflexivity. }
  split; [exact Hrun|]. split; [reflexivity|].
  pose proof (stamp_date_out_fields (markPickedUp req) now (before_payment req t))
    as (_ & _ & _ & _ & S5 & _).
  pose proof (before_payment_fields req t) as (_ & _ & _ & _ & _ & B6 & _).
  split; [unfold t6; congruence|].
  destruct (release_line_item_cases faults req t6
              (with_transactions (<[i := t6]> (db_transactions db)) db))
    as [(s & E & Htx & Hpay & _) | [E | (s & E)]];
    rewrite E in Hrel; try discriminate.
  injection Hrel as <-. cbn [db_transactions db_payments with_transactions] in *.
  split; [|exact Hpay].
  rewrite Htx. apply list_lookup_insert_eq.
  apply findOne_lookup in Hfind as [Hi _]. eapply lookup_lt_Some. exact Hi.
Qed.

Lemma unknown_provided_payment_id_witness :
  exists t' db',
    applyPayment demo_db no_faults march_2025 ghost_payment_req
    = (Json200 t', db') /\
    t' = stamp_date_out false march_2025 (before_payment ghost_payment_req demo_txn) /\
    payments t' = payments demo_txn /\
    db_transactions db' !! 0%nat = Some t' /\
    db_payments db' = db_payments demo_db.
Proof.
  apply (unknown_provided_payment_id demo_db no_faults march_2025
           ghost_payment_req 0 demo_txn).
  - reflexivity.
  - reflexivity.
  - discriminate.
  - eexists; reflexivity.
  - eexists; reflexivity.
  - reflexivity.
  - discriminate.
  - discriminate.
  - reflexivity.
  - reflexivity.
  - reflexivity.
  - reflexivity.
Defined.

(** ** Order Intake *)

(** The line-item loop stores every item, in order, or throws. *)
Lemma create_line_items_cases (faults : IntakeFaults) (now : Clock)
    (data : ServiceRequestInput) (transactionId : string) (customer : Customer)
    (items : list LineItemInput) (n : nat) (sess : Store) :
  match create_line_items faults now data transactionId customer n items sess with
  | Next created sess' =>
      sess' = with_line_items (db_line_items sess ++ created) sess /\
      length created = length items /\
      (forall k, (k < length items)%nat ->
                 fail_new_line_item faults (n + k) = false)
  | Return _ => False
  | Throw _ => True
  end.
Proof.
  revert n sess. induction items as [|item rest IH]; intros n sess; simpl.
  - unfold ret. rewrite app_nil_r.
    destruct sess; repeat split. intros k Hk. lia.
  - unfold bind, insert_line_item. cbn beta.
    destruct (fail_new_line_item faults n) eqn:Hf; [exact I|].
    destruct (existsb (by_key li_line_item_id _) (db_line_items sess));
      [exact I|].
    specialize (IH (S n) (with_line_items
                (db_line_items sess ++
                 [new_line_item now data transactionId customer n item]) sess)).
    destruct (create_line_items faults now data transactionId customer (S n) rest _)
      as [created sess'| r | s]; [|exact IH|exact I].
    destruct IH as (-> & Hlen & Hfaults). unfold ret. split.
    + cbn [db_line_items with_line_items]. rewrite <- app_assoc.
      destruct sess; reflexivity.
    + split; [simpl; congruence|].
      intros [|k] Hk; [rewrite Nat.add_0_r; exact Hf|].
      rewrite <- Nat.add_succ_comm. apply Hfaults. simpl in Hk. lia.
Qed.

(** The customer is found, or created and stored, or the insert throws. *)
Lemma resolve_customer_cases (db : Store) (faults : IntakeFaults)
    (data : ServiceRequestInput) (branch_number : N) (sess : Store) :
  match resolve_customer db faults data branch_number sess with
  | Next customer sess' =>
      customer ∈ db_customers sess' /\
      db_transactions sess' = db_transactions sess /\
      db_payments sess' = db_payments sess /\
      db_line_items sess' = db_line_items sess
  | Return _ => False
  | Throw _ => True
  end.
Proof.
  unfold resolve_customer, bind, read. cbn beta.
  destruct (findOne _ (db_customers sess)) as [[k c]|] eqn:Hfind.
  - unfold ret. apply findOne_lookup in Hfind as [Hk _].
    split; [eapply list_elem_of_lookup_2; exact Hk|]. auto.
  - unfold insert_customer.
    destruct (fail_new_customer faults); [exact I|].
    destruct (existsb (by_key c_cust_id _) (db_customers sess)); [exact I|].
    unfold ret. cbn [db_customers db_transactions db_payments db_line_items
                     with_customers].
    split; [apply elem_of_app; right; left|]. auto.
Qed.

(** The initial Payment is stored and attached when [amount_paid > 0];
    nothing happens otherwise; a rejected insert throws. *)
Lemma initial_payment_cases (db : Store) (faults : IntakeFaults) (now : Clock)
    (data : ServiceRequestInput) (bc : string) (t : Transaction)
    (sess : Store) :
  match initial_payment db faults now data bc t sess with
  | Next t' sess' =>
      (0 < default 0 (in_amount_paid data) /\
       fail_new_payment faults = false /\
       exists p,
         sess' = with_payments (db_payments sess ++ [p]) sess /\
         t' = set_payments [payment_id p] t /\
         payment_amount p = default 0 (in_amount_paid data) /\
         pay_transaction_id p = transaction_id t)
      \/ (default 0 (in_amount_paid data) <= 0 /\ sess' = sess /\ t' = t)
  | Return _ => False
  | Throw _ => True
  end.
Proof.
  unfold initial_payment.
  destruct (Z.ltb_spec 0 (default 0 (in_amount_paid data))) as [Hpaid|Hpaid].
  - unfold bind, insert_payment. cbn beta.
    destruct (negb (payment_valid _)); [exact I|].
    destruct (fail_new_payment faults); [exact I|].
    destruct (existsb (by_key payment_id _) (db_payments sess)); [exact I|].
    unfold ret. left. split; [exact Hpaid|]. split; [reflexivity|].
    eexists. repeat split.
  - unfold ret. right. auto.
Qed.

Lemma insert_transaction_cases (fault : bool) (t : Transaction) (sess : Store) :
  match insert_transaction fault t sess with
  | Next _ sess' =>
      fault = false /\
      sess' = with_transactions (db_transactions sess ++ [t]) sess
  | Return _ => False
  | Throw _ => True
  end.
Proof.
  unfold insert_transaction. destruct fault; [exact I|].
  destruct (existsb (by_key transaction_id _) (db_transactions sess));
    [exact I|]. auto.
Qed.

Lemma createServiceRequest_cases (db : Store) (faults : IntakeFaults)
    (now : Clock) (data : ServiceRequestInput) (resp : Response) (db' : Store) :
  createServiceRequest db faults now data = (resp, db') ->
  (exists customer lineItems transaction,
      resp = Json201 customer lineItems transaction /\
      order_stored data db' customer lineItems transaction /\
      no_fault_hit faults data)
  \/ (db' = db /\ not_created resp).
Proof.
  unfold createServiceRequest, in_session, createServiceRequest_body.
  assert (Hfail : forall r, not_created r ->
            (r, db) = (resp, db') ->
            (exists customer lineItems transaction,
                resp = Json201 customer lineItems transaction /\
                order_stored data db' customer lineItems transaction /\
                no_fault_hit faults data)
            \/ (db' = db /\ not_created resp)).
  { intros r Hr [= <- <-]. right. split; [reflexivity|exact Hr]. }
  destruct (validateServiceRequestInput data) as [|e es].
  2:{ apply Hfail. discriminate. }
  unfold bind at 1, read. cbn beta.
  destruct (findOne _ (db_branches db)) as [[kb branch]|].
  2:{ apply Hfail. discriminate. }
  unfold bind at 1. cbn beta.
  destruct (List.filter _ (unique [] _)) as [|bad bads].
  2:{ apply Hfail. discriminate. }
  unfold bind at 1.
  pose proof (resolve_customer_cases db faults data (branch_number branch) db)
    as Hcust.
  destruct (resolve_customer db faults data (branch_number branch) db)
    as [customer sess1 | r | s]; [|contradiction|apply Hfail; discriminate].
  destruct Hcust as (Hc & Hc_tx & Hc_pay & Hc_li).
  unfold bind at 1.
  match goal with
  | |- context [create_line_items ?f ?n ?d ?tid ?c 0%nat ?items ?sess] =>
      pose proof (create_line_items_cases f n d tid c items 0%nat sess) as Hloop;
      destruct (create_line_items f n d tid c 0%nat items sess)
        as [created sess2 | r | s]
  end; [|contradiction|apply Hfail; discriminate].
  destruct Hloop as (-> & Hlen & Hlf).
  unfold bind at 1.
  match goal with
  | |- context [initial_payment ?d ?f ?n ?da ?bc ?t ?sess] =>
      pose proof (initial_payment_cases d f n da bc t sess) as Hpay;
      destruct (initial_payment d f n da bc t sess) as [t2 sess3 | r | s]
  end; [|contradiction|apply Hfail; discriminate].
  unfold bind at 1.
  pose proof (insert_transaction_cases (fail_new_transaction faults) t2 sess3)
    as Htx.
  destruct (insert_transaction (fail_new_transaction faults) t2 sess3)
    as [[] sess4 | r | s]; [|contradiction|apply Hfail; discriminate].
  destruct Htx as (Hft & ->). unfold ret.
  destruct (fail_intake_commit faults) eqn:Hcommit; [apply Hfail; discriminate|].
  intros [= <- <-]. left. exists customer, created, t2.
  split; [reflexivity|].
  assert (Hfaults : (0 < default 0 (in_amount_paid data) ->
                     fail_new_payment faults = false) ->
                    no_fault_hit faults data).
  { intros Hp. repeat split; auto. }
  destruct Hpay as [(Hpaid & Hfp & p & -> & -> & Hamt & Hptx)
                   | (Hpaid & -> & ->)].
  - split; [|apply Hfaults; intros _; exact Hfp].
    constructor;
      cbn [db_customers db_line_items db_transactions db_payments
           with_transactions with_payments with_line_items]; txn_simpl.
    + exact Hc.
    + exact Hlen.
    + intros li Hli. apply elem_of_app. right. exact Hli.
    + apply elem_of_app. right. left.
    + reflexivity.
    + rewrite Hlen. reflexivity.
    + intros _. exists p. split; [apply elem_of_app; right; left|].
      split; [reflexivity|]. split; [exact Hamt|exact Hptx].
    + intros Hle. lia.
  - split; [|apply Hfaults; intros Hp; lia].
    constructor;
      cbn [db_customers db_line_items db_transactions db_payments
           with_transactions with_payments with_line_items]; txn_simpl.
    + exact Hc.
    + exact Hlen.
    + intros li Hli. apply elem_of_app. right. exact Hli.
    + apply elem_of_app. right. left.
    + reflexivity.
    + rewrite Hlen. reflexivity.
    + intros Hp. lia.
    + intros _. reflexivity.
Qed.

(** C4. [createServiceRequest] is atomic.  After the call either the
    answer is 201 and the customer, all N line items, the transaction and
    (when [amount_paid > 0]) the initial Payment are in the store, or the
    store is exactly the one before the call; and a write rejected
    anywhere in the sequence -- any line item, the Payment, the
    transaction, the commit -- leaves the store as it was. *)
Theorem createServiceRequest_atomic (db : Store) (faults : IntakeFaults)
    (now : Clock) (data : ServiceRequestInput) (resp : Response) (db' : Store) :
  createServiceRequest db faults now data = (resp, db') ->
  ((exists customer lineItems transaction,
       resp = Json201 customer lineItems transaction /\
       order_stored data db' customer lineItems transaction)
   \/ (db' = db /\ not_created resp)) /\
  ((exists k, (k < length (in_lineItems data))%nat /\
              fail_new_line_item faults k = true) ->
   db' = db /\ not_created resp) /\
  (0 < default 0 (in_amount_paid data) -> fail_new_payment faults = true ->
   db' = db /\ not_created resp) /\
  (fail_new_transaction faults = true -> db' = db /\ not_created resp) /\
  (fail_intake_commit faults = true -> db' = db /\ not_created resp).
Proof.
  intros H. apply createServiceRequest_cases in H.
  destruct H as [(c & lis & t & -> & Hstored & Hlf & Hfp & Hft & Hfc) | Hsame].
  - split; [left; eauto|]. split; [|split; [|split]].
    + intros (k & Hk & Hf). rewrite (Hlf k Hk) in Hf. discriminate.
    + intros Hpaid Hf. rewrite (Hfp Hpaid) in Hf. discriminate.
    + intros Hf. congruence.
    + intros Hf. congruence.
  - split; [right; exact Hsame|]. repeat split; intros; apply Hsame.
Qed.

Lemma createServiceRequest_atomic_witness :
  snd (createServiceRequest demo_branches fails_after_third march_2025 four_pairs)
  = demo_branches.
Proof.
  pose proof (createServiceRequest_atomic demo_branches fails_after_third
                march_2025 four_pairs
                (fst (createServiceRequest demo_branches fails_after_third
                        march_2025 four_pairs))
                (snd (createServiceRequest demo_branches fails_after_third
                        march_2025 four_pairs))
                (surjective_pairing _)) as (_ & Hli & _).
  apply Hli. exists 3%nat. split; [simpl; lia|reflexivity].
Defined.

Example createServiceRequest_commits :
  exists c lis t db',
    createServiceRequest demo_branches no_intake_faults march_2025 four_pairs
    = (Json201 c lis t, db') /\
    length (db_line_items db') = 4%nat /\
    transaction_id t = "2025-03-00001-NCR" /\
    payments t = ["PAY-1-NCR"].
Proof.
  do 4 eexists. split; [vm_compute; reflexivity|].
  repeat split.
Qed.

(** ** PUT /transactions/:transaction_id *)

Lemma strip_restricted_lookup (body : gmap string Patch.Json) (f : string) :
  Patch.strip_restricted body !! f
  = if bool_decide (f ∈ Patch.restrictedFields) then None else body !! f.
Proof.
  unfold Patch.strip_restricted. simpl.
  destruct (bool_decide_reflect (f ∈ Patch.restrictedFields)) as [Hin|Hnin].
  - unfold Patch.restrictedFields in Hin.
    rewrite !lookup_delete.
    repeat (case_decide; [reflexivity|]).
    exfalso. rewrite !elem_of_cons, elem_of_nil in Hin. intuition congruence.
  - rewrite !lookup_delete_ne; [reflexivity|..];
      intros <-; apply Hnin; unfold Patch.restrictedFields;
      rewrite !elem_of_cons; auto 10.
Qed.

(** The fields of the patched document: a restricted field keeps its
    value, any other field takes the supplied value when there is one. *)
Lemma assign_stripped_lookup (d body : gmap string Patch.Json) (f : string) :
  Patch.assign d (Patch.strip_restricted body) !! f
  = if bool_decide (f ∈ Patch.restrictedFields) then d !! f
    else match body !! f with
         | Some v => Some v
         | None => d !! f
         end.
Proof.
  unfold Patch.assign. rewrite lookup_union, strip_restricted_lookup.
  case_bool_decide.
  - destruct (d !! f); reflexivity.
  - destruct (body !! f), (d !! f); reflexivity.
Qed.



Example updateTransaction_patches :
  exists d',
    Patch.updateTransaction [stored_doc] false 1800 "2025-03-00001-VAL"
      hostile_body = (Patch.Patch200 d', [d']) /\
    d' !! "transaction_id" = Some (Patch.JStr "2025-03-00001-VAL") /\
    d' !! "__v" = Some (Patch.JNum 0) /\
    d' !! "amount_paid" = Some (Patch.JNum 250).
Proof.
  eexists. split; [vm_compute; reflexivity|].
  split; [|split]; vm_compute; reflexivity.
Qed.

(** ** Change Notifier *)
Section NotifierProofs.
Import Notifier.

Lemma close_stream_length (sid : nat) (st : State) :
  length (streams (close_stream sid st)) = length (streams st).
Proof.
  unfold close_stream. destruct (streams st !! sid); [|reflexivity].
  simpl. apply length_insert.
Qed.

Lemma close_stream_active (sid : nat) (st : State) :
  activeStreams (close_stream sid st) = activeStreams st.
Proof. unfold close_stream. destruct (streams st !! sid); reflexivity. Qed.

Lemma close_stream_other (sid k : nat) (st : State) :
  sid <> k -> streams (close_stream sid st) !! k = streams st !! k.
Proof.
  intros Hne. unfold close_stream. destruct (streams st !! sid); [|reflexivity].
  simpl. apply list_lookup_insert_ne. exact Hne.
Qed.

Lemma close_stream_closed (sid : nat) (st : State) (s : Stream) :
  streams st !! sid = Some s ->
  streams (close_stream sid st) !! sid
  = Some (mkStream (target s) (resumeAfter s) (currentToken s)
            (backoffDelay s) true).
Proof.
  intros H. unfold close_stream. rewrite H. simpl.
  apply list_lookup_insert_eq. eapply lookup_lt_Some. exact H.
Qed.

(** A delivered event: the position is recorded, the backoff is back at
    its floor, the event is broadcast. *)
Lemma on_change_spec (sid : nat) (token : Z) (st : State) (s : Stream) :
  streams st !! sid = Some s -> closed s = false ->
  streams (on_change sid token st) !! sid
  = Some (mkStream (target s) (resumeAfter s) (Some token) FLOOR_DELAY false) /\
  emitted (on_change sid token st)
  = (emitted st ++ [(event (target s), token)])%list /\
  activeStreams (on_change sid token st) = activeStreams st.
Proof.
  intros H Hopen. unfold on_change. rewrite H, Hopen. simpl.
  split; [|auto]. apply list_lookup_insert_eq. eapply lookup_lt_Some. exact H.
Qed.

(** An error or a close of the active stream: it is closed and forgotten,
    and a restart is scheduled after twice the last backoff, capped, from
    the last recorded position. *)
Lemma scheduleRestart_spec (sid : nat) (st : State) (s : Stream) :
  streams st !! sid = Some s ->
  activeStreams st !! event (target s) = Some sid ->
  let st' := scheduleRestart sid st in
  activeStreams st' = delete (event (target s)) (activeStreams st) /\
  streams st' !! sid
  = Some (mkStream (target s) (resumeAfter s) (currentToken s)
            (backoffDelay s) true) /\
  timers st'
  = (timers st ++
     [mkTimer (target s) (currentToken s)
        (Z.min (backoffDelay s * 2) CAP_DELAY)])%list.
Proof.
  intros H Hact. unfold scheduleRestart. rewrite H.
  rewrite bool_decide_eq_true_2 by exact Hact.
  unfold add_timer, set_active. cbn [streams activeStreams timers].
  rewrite close_stream_active. cbn [streams activeStreams timers].
  split; [reflexivity|]. split; [|unfold close_stream; cbn [streams];
                                  rewrite H; reflexivity].
  apply (close_stream_closed sid
           (mkState (streams st) (delete (event (target s)) (activeStreams st))
              (timers st) (emitted st)) s).
  exact H.
Qed.

(** A stale error or close (the stream is not the active one of its
    target) does nothing. *)
Lemma scheduleRestart_stale (sid : nat) (st : State) (s : Stream) :
  streams st !! sid = Some s ->
  activeStreams st !! event (target s) <> Some sid ->
  scheduleRestart sid st = st.
Proof.
  intros H Hact. unfold scheduleRestart. rewrite H.
  rewrite bool_decide_eq_false_2 by exact Hact. reflexivity.
Qed.




(** On disconnect every active stream is closed and [activeStreams]
    emptied. *)
Lemma on_disconnected_spec (st : State) :
  activeStreams (on_disconnected st) = ∅ /\
  timers (on_disconnected st) = timers st /\
  (forall ev sid s,
      activeStreams st !! ev = Some sid -> streams st !! sid = Some s ->
      exists s', streams (on_disconnected st) !! sid = Some s' /\
                 closed s' = true /\ target s' = target s).
Proof.
  unfold on_disconnected. cbn [activeStreams timers streams set_active].
  set (f := fun (_ : string) (sid : nat) (acc : State) => close_stream sid acc).
  assert (H : (fun acc (m : gmap string nat) =>
            timers acc = timers st /\
            forall sid s, streams st !! sid = Some s ->
              exists s', streams acc !! sid = Some s' /\
                         target s' = target s /\
                         ((closed s = true \/ exists ev, m !! ev = Some sid) ->
                          closed s' = true))
            (map_fold f st (activeStreams st)) (activeStreams st)).
  { apply (map_fold_weak_ind
             (fun acc (m : gmap string nat) =>
                timers acc = timers st /\
                forall sid s, streams st !! sid = Some s ->
                  exists s', streams acc !! sid = Some s' /\
                             target s' = target s /\
                             ((closed s = true \/ exists ev, m !! ev = Some sid) ->
                              closed s' = true))).
    - split; [reflexivity|]. intros sid s Hs. exists s.
      split; [exact Hs|]. split; [reflexivity|].
      intros [Hc | (ev & Hev)]; [exact Hc|].
      rewrite lookup_empty in Hev. discriminate.
    - intros ev sid0 m acc Hfresh [Htim IH]. unfold f. split.
      { unfold close_stream. destruct (streams acc !! sid0); exact Htim. }
      intros sid s Hs. destruct (IH sid s Hs) as (s' & Hs' & Htg & Hcl).
      destruct (decide (sid0 = sid)) as [->|Hne].
      + eexists. split; [apply close_stream_closed; exact Hs'|].
        split; [exact Htg|]. reflexivity.
      + exists s'. split; [rewrite close_stream_other by exact Hne; exact Hs'|].
        split; [exact Htg|].
        intros [Hc | (ev' & Hev')]; [apply Hcl; left; exact Hc|].
        apply Hcl. right. exists ev'.
        rewrite lookup_insert in Hev'. case_decide; [congruence|exact Hev']. }
  destruct H as [Htim H]. split; [reflexivity|]. split; [exact Htim|].
  intros ev sid s Hev Hs. destruct (H sid s Hs) as (s' & Hs' & Htg & Hcl).
  exists s'. split; [exact Hs'|]. split; [|exact Htg].
  apply Hcl. right. exists ev. exact Hev.
Qed.

Lemma watchTarget_bound (wt : string -> bool) (tg : WatchTarget)
    (token : option Z) (delay : Z) (st : State) :
  handles_bound st -> handles_bound (watchTarget wt tg token delay st).
Proof.
  intros Hwf ev sid. unfold watchTarget.
  destruct (wt (collectionName tg)); cbn [activeStreams streams add_timer].
  - apply Hwf.
  - rewrite length_app, lookup_insert. simpl.
    case_decide; [intros [= <-]; lia|].
    intros Hd. apply Hwf in Hd. lia.
Qed.

Lemma reopen_bound (wt : string -> bool) (st : State) (tg : WatchTarget) :
  handles_bound st -> handles_bound (reopen wt st tg).
Proof.
  intros Hwf. unfold reopen. apply watchTarget_bound.
  intros ev sid. cbn [activeStreams streams set_active].
  intros Hd. apply lookup_delete_Some in Hd as [_ Hd].
  destruct (activeStreams st !! event tg) as [old|].
  - rewrite close_stream_active in Hd. rewrite close_stream_length.
    exact (Hwf _ _ Hd).
  - exact (Hwf _ _ Hd).
Qed.

(** [handles_bound] holds at start-up and after every input. *)
Lemma step_handles_bound (wt : string -> bool) (i : Input) (st : State) :
  handles_bound st -> handles_bound (step wt i st).
Proof.
  intros Hwf. destruct i as [sid token|sid|sid|k| |]; simpl.
  - unfold on_change. destruct (streams st !! sid) as [s|]; [|exact Hwf].
    destruct (closed s); [exact Hwf|].
    intros ev sid'. cbn [activeStreams streams]. rewrite length_insert.
    apply Hwf.
  - unfold scheduleRestart. destruct (streams st !! sid) as [s|]; [|exact Hwf].
    case_bool_decide; [|exact Hwf].
    intros ev sid'. cbn [activeStreams streams add_timer].
    rewrite close_stream_active, close_stream_length.
    cbn [activeStreams streams set_active].
    intros Hd. apply lookup_delete_Some in Hd as [_ Hd]. exact (Hwf _ _ Hd).
  - unfold scheduleRestart. destruct (streams st !! sid) as [s|]; [|exact Hwf].
    case_bool_decide; [|exact Hwf].
    intros ev sid'. cbn [activeStreams streams add_timer].
    rewrite close_stream_active, close_stream_length.
    cbn [activeStreams streams set_active].
    intros Hd. apply lookup_delete_Some in Hd as [_ Hd]. exact (Hwf _ _ Hd).
  - destruct (timers st !! k) as [t|]; [|exact Hwf].
    apply watchTarget_bound. exact Hwf.
  - intros ev sid Hd. destruct (on_disconnected_spec st) as [E _].
    rewrite E, lookup_empty in Hd. discriminate.
  - unfold openAllStreams. revert st Hwf.
    induction WATCH_TARGETS as [|tg rest IH]; intros st Hwf; simpl;
      [exact Hwf|].
    apply IH, reopen_bound, Hwf.
Qed.


End NotifierProofs.

Example notifier_run :
  Notifier.timers after_error
  = [Notifier.mkTimer (Notifier.mkWatchTarget "line_items" "lineItemUpdated")
       (Some 5) 2000] /\
  Notifier.activeStreams after_restart !! "lineItemUpdated" = Some 3%nat /\
  Notifier.streams after_restart !! 3%nat
  = Some (Notifier.mkStream
            (Notifier.mkWatchTarget "line_items" "lineItemUpdated")
            (Some 5) (Some 5) 2000 false).
Proof. vm_compute. auto. Qed.


(** * Further properties of the code *)

(** ** Decimal printing and parsing *)

Lemma append_empty (s : string) : s ++ "" = s.
Proof.
  induction s as [|a s IH]; [reflexivity|].
  change (String a (s ++ "") = String a s). congruence.
Qed.

Lemma digits_value_uint (d : Decimal.uint) (acc : positive) :
  Js.digits_value (Npos acc) (NilEmpty.string_of_uint d)
  = Npos (Pos.of_uint_acc d acc).
Proof.
  revert acc. induction d; intros acc; simpl; [reflexivity|..];
    rewrite <- IHd; f_equal; unfold Js.digit_val; simpl; lia.
Qed.

Lemma digits_value_of_uint (d : Decimal.uint) :
  Js.digits_value 0%N (NilEmpty.string_of_uint d) = Pos.of_uint d.
Proof.
  induction d; simpl; try exact IHd; try reflexivity;
    apply (digits_value_uint d).
Qed.


Lemma string_of_N_head (n : N) :
  exists c s, Js.String_of_N n = String c s /\ Js.is_digit c = true.
Proof.
  unfold Js.String_of_N, NilZero.string_of_uint.
  destruct (N.to_uint n); simpl; eauto.
Qed.

Lemma is_digit_not_ws (c : ascii) :
  Js.is_digit c = true -> Js.is_ws c = false /\ c <> "+"%char.
Proof.
  destruct c as [[] [] [] [] [] [] [] []]; intros H;
    try discriminate H; split; first [reflexivity | discriminate].
Qed.

Lemma string_of_N_uint (n : N) :
  Js.String_of_N n = NilEmpty.string_of_uint (N.to_uint n).
Proof.
  unfold Js.String_of_N, NilZero.string_of_uint.
  destruct n as [|p]; [reflexivity|].
  pose proof (DecimalPos.Unsigned.to_uint_nonnil p) as H.
  simpl. destruct (Pos.to_uint p); [contradiction|reflexivity..].
Qed.


Lemma has_char_append (c : ascii) (a b : string) :
  has_char c (a ++ b) = has_char c a || has_char c b.
Proof.
  induction a as [|x a IH]; [reflexivity|].
  change (has_char c (String x (a ++ b)) = has_char c (String x a) || has_char c b).
  simpl. rewrite IH. apply orb_assoc.
Qed.

Lemma has_char_uint (d : Decimal.uint) :
  has_char "-" (NilEmpty.string_of_uint d) = false.
Proof. induction d; simpl; auto. Qed.

Lemma has_char_String_of_N (n : N) : has_char "-" (Js.String_of_N n) = false.
Proof. rewrite string_of_N_uint. apply has_char_uint. Qed.

Lemma has_char_repeat_zero (k : nat) :
  has_char "-" (Js.repeat_char "0" k) = false.
Proof. induction k; simpl; auto. Qed.

Lemma has_char_padStart0 (w : nat) (s : string) :
  has_char "-" s = false -> has_char "-" (Js.padStart0 w s) = false.
Proof.
  intros H. unfold Js.padStart0.
  rewrite has_char_append, has_char_repeat_zero, H. reflexivity.
Qed.

Lemma append_assoc (a b c : string) : (a ++ b) ++ c = a ++ (b ++ c).
Proof.
  induction a as [|x a IH]; [reflexivity|].
  change (String x ((a ++ b) ++ c) = String x (a ++ (b ++ c))). congruence.
Qed.

(** [split] undone by [join]. *)
Lemma join_split (sep : ascii) (s : string) :
  Js.join (String sep "") (Js.split sep s) = s.
Proof.
  unfold Js.join. induction s as [|c r IH]; [reflexivity|].
  simpl. destruct (Ascii.eqb_spec c sep) as [->|Hne].
  - pose proof (split_nonempty sep r) as Hn.
    destruct (Js.split sep r) as [|h t] eqn:E; [contradiction|].
    change (String.concat (String sep "") ("" :: h :: t))
      with ("" ++ String sep "" ++ String.concat (String sep "") (h :: t)).
    rewrite IH. reflexivity.
  - pose proof (split_nonempty sep r) as Hn.
    destruct (Js.split sep r) as [|h t] eqn:E; [contradiction|].
    destruct t as [|h' t'].
    + simpl in *. congruence.
    + change (String.concat (String sep "") (String c h :: h' :: t'))
        with (String c h ++ String sep "" ++ String.concat (String sep "") (h' :: t')).
      change (String.concat (String sep "") (h :: h' :: t'))
        with (h ++ String sep "" ++ String.concat (String sep "") (h' :: t')) in IH.
      rewrite <- IH. reflexivity.
Qed.

Lemma split_cons_plain (sep : ascii) (a b : string) :
  has_char sep a = false ->
  Js.split sep (a ++ String sep b) = a :: Js.split sep b.
Proof. intros H. rewrite split_app, (split_plain _ _ H). reflexivity. Qed.

(** The line-item id is the transaction id with the item number put in
    front of the branch code, whatever the branch code. *)
Lemma generateLineItemId_shape (year month trx bc : string) (i : nat) :
  has_char "-" year = false -> has_char "-" month = false ->
  has_char "-" trx = false ->
  generateLineItemId (year ++ "-" ++ month ++ "-" ++ trx ++ "-" ++ bc) i
  = year ++ "-" ++ month ++ "-" ++ trx ++ "-" ++
    Js.padStart0 3 (Js.String_of_N (N.of_nat i + 1)) ++ "-" ++ bc.
Proof.
  intros Hy Hm Ht. unfold generateLineItemId.
  change (year ++ "-" ++ month ++ "-" ++ trx ++ "-" ++ bc)
    with (year ++ String "-" (month ++ String "-" (trx ++ String "-" bc))).
  rewrite (split_cons_plain _ _ _ Hy), (split_cons_plain _ _ _ Hm),
          (split_cons_plain _ _ _ Ht).
  change (drop 3 (year :: month :: trx :: Js.split "-" bc))
    with (Js.split "-" bc).
  rewrite (join_split "-" bc). reflexivity.
Qed.

Lemma span_digits_all (d rest : string) :
  all_digits d = true ->
  Js.span_digits (d ++ rest)
  = (d ++ fst (Js.span_digits rest), snd (Js.span_digits rest)).
Proof.
  induction d as [|c d IH]; intros H.
  - change ("" ++ rest) with rest. destruct (Js.span_digits rest); reflexivity.
  - simpl in H. apply andb_true_iff in H as [Hc Hd].
    change (String c d ++ rest) with (String c (d ++ rest)).
    simpl. rewrite Hc, (IH Hd). reflexivity.
Qed.

Lemma parseInt_digits (d rest : string) :
  d <> "" -> all_digits d = true -> fst (Js.span_digits rest) = "" ->
  Js.parseInt (d ++ rest) = Some (Js.digits_value 0%N d).
Proof.
  intros Hne Hd Hrest. destruct d as [|c d]; [contradiction|].
  pose proof Hd as Hd'. simpl in Hd'. apply andb_true_iff in Hd' as [Hc _].
  destruct (is_digit_not_ws c Hc) as [Hws Hplus].
  unfold Js.parseInt.
  change (String c d ++ rest) with (String c (d ++ rest)).
  assert (Htrim : Js.trimStart (String c (d ++ rest)) = String c (d ++ rest)).
  { simpl. rewrite Hws. reflexivity. }
  rewrite Htrim.
  assert (Hsign : match String c (d ++ rest) with
                  | String "+" r => r
                  | r => r
                  end = String c (d ++ rest)).
  { destruct c as [[] [] [] [] [] [] [] []]; try reflexivity.
    exfalso. apply Hplus. reflexivity. }
  rewrite Hsign.
  change (String c (d ++ rest)) with (String c d ++ rest).
  rewrite (span_digits_all _ _ Hd), Hrest. cbn [fst].
  rewrite append_empty. reflexivity.
Qed.

Lemma all_digits_uint (d : Decimal.uint) :
  all_digits (NilEmpty.string_of_uint d) = true.
Proof. induction d; simpl; auto. Qed.

Lemma all_digits_String_of_N (n : N) : all_digits (Js.String_of_N n) = true.
Proof. rewrite string_of_N_uint. apply all_digits_uint. Qed.

Lemma all_digits_append (a b : string) :
  all_digits a = true -> all_digits b = true -> all_digits (a ++ b) = true.
Proof.
  induction a as [|c a IH]; intros Ha Hb; [exact Hb|].
  simpl in Ha. apply andb_true_iff in Ha as [Hc Ha].
  change (all_digits (String c (a ++ b)) = true). simpl.
  rewrite Hc, (IH Ha Hb). reflexivity.
Qed.

Lemma all_digits_zeros (k : nat) : all_digits (Js.repeat_char "0" k) = true.
Proof. induction k; simpl; auto. Qed.

Lemma digits_value_zeros (k : nat) (s : string) :
  Js.digits_value 0%N (Js.repeat_char "0" k ++ s) = Js.digits_value 0%N s.
Proof.
  induction k as [|k IH]; [reflexivity|].
  change (Js.repeat_char "0" (S k) ++ s)
    with (String "0" (Js.repeat_char "0" k ++ s)).
  simpl. exact IH.
Qed.

Lemma digits_value_String_of_N (n : N) :
  Js.digits_value 0%N (Js.String_of_N n) = n.
Proof.
  rewrite string_of_N_uint, digits_value_of_uint.
  apply DecimalN.Unsigned.of_to.
Qed.

Lemma String_of_N_nonempty (n : N) : Js.String_of_N n <> "".
Proof. destruct (string_of_N_head n) as (c & s & E & _). congruence. Qed.

(** [parseInt] reads back a zero-padded number. *)
Lemma parseInt_padStart0 (w : nat) (n : N) (rest : string) :
  fst (Js.span_digits rest) = "" ->
  Js.parseInt (Js.padStart0 w (Js.String_of_N n) ++ rest) = Some n.
Proof.
  intros Hrest. unfold Js.padStart0.
  rewrite parseInt_digits; [| | |exact Hrest].
  - rewrite digits_value_zeros, digits_value_String_of_N. reflexivity.
  - destruct (Js.repeat_char "0" _); [apply String_of_N_nonempty|discriminate].
  - apply all_digits_append; [apply all_digits_zeros|apply all_digits_String_of_N].
Qed.

Lemma append_inv_head (a b c : string) : a ++ b = a ++ c -> b = c.
Proof.
  induction a as [|x a IH]; intros H; [exact H|].
  change (String x (a ++ b) = String x (a ++ c)) in H.
  injection H as H. exact (IH H).
Qed.

Lemma has_char_yearMonth (now : Clock) :
  exists year month,
    yearMonth_of now = year ++ "-" ++ month /\
    has_char "-" year = false /\ has_char "-" month = false.
Proof.
  eexists. eexists. split; [reflexivity|]. split.
  - apply has_char_String_of_N.
  - apply has_char_padStart0, has_char_String_of_N.
Qed.

(** X1. The id of a line item is the id of its transaction with the
    zero-padded item number put in front of the branch code, for every
    clock, store and branch code -- also a branch code with hyphens. *)
Theorem line_item_id_extends_transaction_id (now : Clock) (db : Store)
    (branch_code : string) (lineIndex : nat) :
  exists seq,
    generateTransactionId now db branch_code
    = yearMonth_of now ++ "-" ++ seq ++ "-" ++ branch_code /\
    generateLineItemId (generateTransactionId now db branch_code) lineIndex
    = yearMonth_of now ++ "-" ++ seq ++ "-" ++
      Js.padStart0 3 (Js.String_of_N (N.of_nat lineIndex + 1)) ++ "-" ++
      branch_code.
Proof.
  unfold generateTransactionId.
  match goal with |- context [Js.padStart0 5 ?x] => set (num := x) end.
  exists (Js.padStart0 5 num). split; [reflexivity|].
  destruct (has_char_yearMonth now) as (year & month & -> & Hy & Hm).
  assert (Hseq : has_char "-" (Js.padStart0 5 num) = false).
  { apply has_char_padStart0. unfold num.
    destruct (option_map _ _); [apply has_char_String_of_N|reflexivity]. }
  rewrite !append_assoc.
  apply (generateLineItemId_shape year month (Js.padStart0 5 num)
           branch_code lineIndex Hy Hm Hseq).
Qed.

Lemma generateLineItemId_inj (transactionId : string) (i j : nat) :
  generateLineItemId transactionId i = generateLineItemId transactionId j ->
  i = j.
Proof.
  unfold generateLineItemId. intros H.
  do 6 apply append_inv_head in H.
  apply (f_equal Js.parseInt) in H.
  rewrite !parseInt_padStart0 in H by reflexivity.
  injection H as H. lia.
Qed.

(** X2. For every transaction id, distinct line indexes give distinct
    line-item ids. *)
Theorem line_item_ids_distinct (transactionId : string) (i j : nat) :
  i <> j ->
  generateLineItemId transactionId i <> generateLineItemId transactionId j.
Proof.
  intros Hne H. apply Hne. exact (generateLineItemId_inj _ _ _ H).
Qed.

Lemma line_item_ids_distinct_witness :
  generateLineItemId "2025-03-00001-SM-VAL" 0
  <> generateLineItemId "2025-03-00001-SM-VAL" 1.
Proof.
  apply (line_item_ids_distinct "2025-03-00001-SM-VAL" 0 1). lia.
Defined.

(** *** Payment ids *)









(** ** Order Intake: validation *)

Lemma guard_nil (b : bool) (msg : string) :
  (if b then [msg] else []) = [] <-> b = false.
Proof. destruct b; split; intros H; congruence. Qed.

Lemma flat_mapi_nil {A} (f : nat -> A -> list string) (P : A -> Prop)
    (l : list A) (i : nat) :
  (forall k x, f k x = [] <-> P x) ->
  flat_mapi f i l = [] <-> Forall P l.
Proof.
  intros Hf. revert i. induction l as [|y l IH]; intros i; simpl.
  - split; [constructor|reflexivity].
  - rewrite app_nil, Hf, (IH (S i)). split.
    + intros [Hy Hl]. constructor; assumption.
    + intros H. inversion H; subst. split; assumption.
Qed.

Lemma not_includes_In (l : list string) (x : string) :
  negb (Js.includes l x) = false <-> In x l.
Proof. rewrite negb_false_iff. apply includes_In. Qed.

Lemma eqb_empty_false (s : string) : String.eqb s "" = false <-> s <> "".
Proof. destruct (String.eqb_spec s ""); split; congruence. Qed.

Lemma validate_service_nil (index svcIndex : nat) (svc : ServiceInput) :
  validate_service index svcIndex svc = [] <-> service_ok svc.
Proof.
  unfold validate_service, service_ok.
  rewrite app_nil, guard_nil, eqb_empty_false.
  apply and_iff_compat_l.
  destruct (in_quantity svc) as [q|].
  - rewrite guard_nil, Z.ltb_ge. split.
    + intros H. exists q. auto.
    + intros (q' & [= <-] & H). exact H.
  - split; [discriminate|]. intros (q & H & _). discriminate.
Qed.

Lemma validate_line_item_nil (index : nat) (item : LineItemInput) :
  validate_line_item index item = [] <-> line_item_ok item.
Proof.
  unfold validate_line_item, line_item_ok.
  rewrite !app_nil, !guard_nil, not_includes_In, eqb_empty_false.
  apply and_iff_compat_l, and_iff_compat_l.
  assert (Hsvc :
    match in_services item with
    | [] => ["lineItems[" ++ idx index ++ "].services is required and cannot be empty"]
    | _ :: _ => flat_mapi (validate_service index) 0 (in_services item)
    end = [] <->
    in_services item <> [] /\ Forall service_ok (in_services item)).
  { destruct (in_services item) as [|s0 r] eqn:E.
    - split; [discriminate|]. intros [H _]. contradiction.
    - rewrite (flat_mapi_nil _ service_ok); [|apply validate_service_nil].
      split; [intros H; split; [discriminate|exact H]|intros [_ H]; exact H]. }
  assert (Hloc :
    Js.truthy (in_current_location item) &&
    negb (Js.includes CURRENT_LOCATION_ENUM
            (Js.str_or (in_current_location item) "")) = false <->
    (forall loc, in_current_location item = Some loc -> loc <> "" ->
                 In loc CURRENT_LOCATION_ENUM)).
  { destruct (in_current_location item) as [loc|];
      unfold Js.truthy, Js.str_or.
    - destruct (String.eqb_spec loc "") as [->|Hne]; cbn [negb andb].
      + split; [|reflexivity]. intros _ l [= <-] H. contradiction.
      + rewrite not_includes_In. split.
        * intros H l [= <-] _. exact H.
        * intros H. apply (H loc eq_refl Hne).
    - split; [|reflexivity]. intros _ l H. discriminate. }
  destruct (in_services item) eqn:E; rewrite Hsvc, Hloc; tauto.
Qed.

Lemma validateServiceRequestInput_nil (data : ServiceRequestInput) :
  validateServiceRequestInput data = [] <-> request_ok data.
Proof.
  unfold validateServiceRequestInput, request_ok.
  rewrite !app_nil, !guard_nil, !eqb_empty_false, !not_includes_In.
  assert (Hitems :
    match in_lineItems data with
    | [] => ["At least one line item is required"]
    | _ :: _ => flat_mapi validate_line_item 0 (in_lineItems data)
    end = [] <->
    in_lineItems data <> [] /\ Forall line_item_ok (in_lineItems data)).
  { destruct (in_lineItems data) as [|i0 r] eqn:E.
    - split; [discriminate|]. intros [H _]. contradiction.
    - rewrite (flat_mapi_nil _ line_item_ok); [|apply validate_line_item_nil].
      split; [intros H; split; [discriminate|exact H]|intros [_ H]; exact H]. }
  assert (Hnull : forall o : option Z, Js.is_null o = false <-> is_Some o).
  { intros [z|]; simpl; split; intros H; try discriminate; eauto.
    destruct H as [? H]. discriminate. }
  rewrite !Hnull.
  destruct (in_lineItems data) eqn:E; rewrite Hitems; tauto.
Qed.

(** X5. [validateServiceRequestInput] returns no error exactly for the
    well-formed orders ([request_ok]); any other order is answered with
    400, whatever the store and the clock, and nothing is written. *)
Theorem validation_accepts_exactly_well_formed (data : ServiceRequestInput) :
  (validateServiceRequestInput data = [] <-> request_ok data) /\
  (~ request_ok data ->
   forall db faults now,
     exists errors,
       createServiceRequest db faults now data = (Json400 errors, db)).
Proof.
  split; [apply validateServiceRequestInput_nil|].
  intros Hbad db faults now.
  unfold createServiceRequest, in_session, createServiceRequest_body.
  destruct (validateServiceRequestInput data) as [|e es] eqn:E.
  - exfalso. apply Hbad, validateServiceRequestInput_nil. exact E.
  - eexists. reflexivity.
Qed.

Lemma validation_accepts_exactly_well_formed_witness :
  exists errors,
    createServiceRequest demo_branches no_intake_faults march_2025 no_items_order
    = (Json400 errors, demo_branches).
Proof.
  apply (proj2 (validation_accepts_exactly_well_formed no_items_order)).
  intros (_ & _ & _ & _ & _ & _ & _ & _ & H & _). apply H. reflexivity.
Defined.

(** ** Order Intake: reference checks *)

Lemma unique_spec (l seen : list string) :
  NoDup (unique seen l) /\
  forall x, In x (unique seen l) <-> In x l /\ ~ In x seen.
Proof.
  revert seen. induction l as [|y l IH]; intros seen; simpl.
  - split; [constructor|]. intros x. tauto.
  - destruct (Js.includes seen y) eqn:Hy.
    + apply includes_In in Hy. destruct (IH seen) as [Hnd Hin].
      split; [exact Hnd|]. intros x. rewrite Hin. split.
      * intros [H1 H2]. auto.
      * intros [[<-|H1] H2]; [contradiction|auto].
    + assert (Hy' : ~ In y seen).
      { intros H. apply includes_In in H. congruence. }
      destruct (IH (y :: seen)) as [Hnd Hin]. split.
      * constructor; [|exact Hnd].
        rewrite list_elem_of_In, Hin. simpl. tauto.
      * intros x. simpl. rewrite Hin. simpl. split.
        -- intros [<-|[H1 H2]]; [auto|]. split; [auto|]. tauto.
        -- intros [[<-|H1] H2]; [auto|].
           destruct (string_dec y x) as [->|Hne]; [auto|]. right. tauto.
Qed.

(** X6. An order that passes validation but names an unknown branch is
    answered 400 "Branch not found"; one that names service ids missing
    from the catalogue is answered 400 with a message that lists each
    missing id exactly once.  Nothing is written in either case. *)
Theorem unknown_references_refused (db : Store) (faults : IntakeFaults)
    (now : Clock) (data : ServiceRequestInput) :
  request_ok data ->
  (findOne (by_key b_branch_id (in_branch_id data)) (db_branches db) = None ->
   createServiceRequest db faults now data
   = (Json400 ["Branch not found"], db)) /\
  (findOne (by_key b_branch_id (in_branch_id data)) (db_branches db) <> None ->
   (exists id, In id (requested_service_ids data) /\ ~ In id (db_services db)) ->
   exists invalidIds,
     createServiceRequest db faults now data
     = (Json400 ["Invalid service_id(s): " ++ Js.join ", " invalidIds], db) /\
     NoDup invalidIds /\
     forall id, In id invalidIds <->
                In id (requested_service_ids data) /\ ~ In id (db_services db)).
Proof.
  intros Hok. apply validateServiceRequestInput_nil in Hok.
  unfold createServiceRequest, in_session, createServiceRequest_body.
  rewrite Hok.
  split.
  - unfold bind at 1, read. cbn beta. intros ->. reflexivity.
  - intros Hbranch (bad & Hbad1 & Hbad2).
    unfold bind at 1, read. cbn beta.
    destruct (findOne _ (db_branches db)) as [[k branch]|]; [|contradiction].
    unfold bind at 1. cbn beta.
    fold (requested_service_ids data).
    set (uniq := unique [] (requested_service_ids data)).
    set (invalid := List.filter
           (fun id => negb (Js.includes
              (List.filter (Js.includes uniq) (db_services db)) id)) uniq).
    destruct (unique_spec (requested_service_ids data) []) as [Hnd Hin].
    fold uniq in Hnd, Hin.
    assert (Hinv : forall id, In id invalid <->
              In id (requested_service_ids data) /\ ~ In id (db_services db)).
    { intros id. unfold invalid. rewrite filter_In, Hin, negb_true_iff.
      split.
      - intros [[H1 _] H2]. split; [exact H1|]. intros H3.
        assert (Js.includes (List.filter (Js.includes uniq) (db_services db)) id = true).
        { apply includes_In, filter_In. split; [exact H3|].
          apply includes_In, Hin. auto. }
        congruence.
      - intros [H1 H2]. split; [auto|].
        destruct (Js.includes _ id) eqn:E; [|reflexivity].
        apply includes_In, filter_In in E as [E _]. contradiction. }
    destruct invalid as [|i0 rest] eqn:Einv.
    + exfalso. apply (proj2 (Hinv bad)). auto.
    + exists (i0 :: rest). split; [reflexivity|]. split; [|exact Hinv].
      rewrite <- Einv. unfold invalid.
      apply NoDup_ListNoDup, List.NoDup_filter, NoDup_ListNoDup. exact Hnd.
Qed.

Lemma unknown_service_order_ok : request_ok unknown_service_order.
Proof.
  unfold request_ok, unknown_service_order, demo_order. cbn.
  assert (Hs : forall id q, id <> "" -> 1 <= q ->
                            service_ok (mkServiceInput id (Some q))).
  { intros id q Hid Hq. split; [exact Hid|]. exists q. auto. }
  split; [discriminate|]. split; [discriminate|]. split; [discriminate|].
  split; [eexists; reflexivity|]. split; [eexists; reflexivity|].
  split; [eexists; reflexivity|].
  split; [vm_compute; tauto|]. split; [vm_compute; tauto|].
  split; [discriminate|].
  constructor; [|constructor].
  unfold line_item_ok. cbn.
  split; [vm_compute; tauto|]. split; [discriminate|]. split; [discriminate|].
  split; [|intros loc H; discriminate].
  repeat constructor; apply Hs; (discriminate || lia).
Qed.

Lemma unknown_references_refused_witness :
  exists invalidIds,
    createServiceRequest demo_branches no_intake_faults march_2025
      unknown_service_order
    = (Json400 ["Invalid service_id(s): " ++ Js.join ", " invalidIds],
       demo_branches) /\
    NoDup invalidIds /\
    forall id, In id invalidIds <->
               In id (requested_service_ids unknown_service_order) /\
               ~ In id (db_services demo_branches).
Proof.
  apply (proj2 (unknown_references_refused demo_branches no_intake_faults
                  march_2025 unknown_service_order unknown_service_order_ok)).
  - discriminate.
  - exists "SVC-9". split; [simpl; auto|].
    simpl. intros [H|[]]. discriminate.
Defined.

(** ** Order Intake: the documents of a committed order *)

Lemma create_line_items_docs (faults : IntakeFaults) (now : Clock)
    (data : ServiceRequestInput) (tid : string) (customer : Customer)
    (items : list LineItemInput) (n : nat) (sess : Store) :
  forall created sess',
    create_line_items faults now data tid customer n items sess
    = Next created sess' ->
    created = line_item_docs now data tid customer n items.
Proof.
  revert n sess. induction items as [|item rest IH]; intros n sess created sess'.
  - simpl. unfold ret. intros [= <- <-]. reflexivity.
  - simpl. unfold bind, insert_line_item. cbn beta.
    destruct (fail_new_line_item faults n); [discriminate|].
    destruct (existsb (by_key li_line_item_id _) (db_line_items sess));
      [discriminate|].
    specialize (IH (S n) (with_line_items
                (db_line_items sess ++
                 [new_line_item now data tid customer n item]) sess)).
    destruct (create_line_items faults now data tid customer (S n) rest _)
      as [cr s2| r | s]; [|discriminate..].
    unfold ret. intros [= <- <-]. f_equal. eapply IH. reflexivity.
Qed.

(** The customer step, exactly. *)
Lemma resolve_customer_exact (db : Store) (faults : IntakeFaults)
    (data : ServiceRequestInput) (bn : N) (sess : Store) (c : Customer)
    (sess' : Store) :
  resolve_customer db faults data bn sess = Next c sess' ->
  (exists j, findOne (same_customer data) (db_customers sess) = Some (j, c) /\
             sess' = sess)
  \/ (findOne (same_customer data) (db_customers sess) = None /\
      c = new_customer db data bn /\
      existsb (by_key c_cust_id (c_cust_id c)) (db_customers sess) = false /\
      sess' = with_customers (db_customers sess ++ [c]) sess).
Proof.
  unfold resolve_customer, bind, read. cbn beta.
  fold (same_customer data).
  change (fun c0 : Customer =>
            String.eqb (cust_name c0) (in_cust_name data) &&
            bool_decide (cust_bdate c0 = or_null (in_cust_bdate data)))
    with (same_customer data).
  destruct (findOne (same_customer data) (db_customers sess)) as [[j c0]|].
  - unfold ret. intros [= <- <-]. left. eauto.
  - unfold insert_customer. fold (new_customer db data bn).
    destruct (fail_new_customer faults); [discriminate|].
    destruct (existsb (by_key c_cust_id _) (db_customers sess)) eqn:Ex;
      [discriminate|].
    unfold ret. intros [= <- <-]. right. auto.
Qed.

(** A committed order, exactly: every document written and the store
    afterwards. *)
Lemma createServiceRequest_success (db : Store) (faults : IntakeFaults)
    (now : Clock) (data : ServiceRequestInput) (c : Customer)
    (lis : list LineItem) (t : Transaction) (db' : Store) :
  createServiceRequest db faults now data = (Json201 c lis t, db') ->
  exists k branch,
    findOne (by_key b_branch_id (in_branch_id data)) (db_branches db)
    = Some (k, branch) /\
    let tid := generateTransactionId now db (branch_code branch) in
    let t0 := order_transaction now data tid c lis in
    lis = line_item_docs now data tid c 0 (in_lineItems data) /\
    ((exists j, findOne (same_customer data) (db_customers db) = Some (j, c) /\
                db_customers db' = db_customers db)
     \/ (findOne (same_customer data) (db_customers db) = None /\
         c = new_customer db data (branch_number branch) /\
         existsb (by_key c_cust_id (c_cust_id c)) (db_customers db) = false /\
         db_customers db' = (db_customers db ++ [c])%list)) /\
    db_line_items db' = (db_line_items db ++ lis)%list /\
    ((0 < default 0 (in_amount_paid data) /\
      t = set_payments [generatePaymentId db (branch_code branch)] t0 /\
      db_payments db'
      = (db_payments db ++ [order_payment db now data (branch_code branch) tid])%list)
     \/ (default 0 (in_amount_paid data) <= 0 /\ t = t0 /\
         db_payments db' = db_payments db)) /\
    db_transactions db' = (db_transactions db ++ [t])%list /\
    db_branches db' = db_branches db /\
    db_services db' = db_services db.
Proof.
  unfold createServiceRequest, in_session, createServiceRequest_body.
  destruct (validateServiceRequestInput data) as [|e es]; [|discriminate].
  unfold bind at 1, read. cbn beta.
  destruct (findOne _ (db_branches db)) as [[kb branch]|]; [|discriminate].
  unfold bind at 1. cbn beta.
  destruct (List.filter _ (unique [] _)) as [|bad bads]; [|discriminate].
  unfold bind at 1.
  pose proof (resolve_customer_exact db faults data (branch_number branch) db)
    as Hcust.
  pose proof (resolve_customer_cases db faults data (branch_number branch) db)
    as Hcust'.
  destruct (resolve_customer db faults data (branch_number branch) db)
    as [customer sess1 | r | s]; [|contradiction|discriminate].
  specialize (Hcust _ _ eq_refl). clear Hcust'.
  unfold bind at 1.
  match goal with
  | |- context [create_line_items ?f ?n ?d ?tid ?c 0%nat ?items ?sess] =>
      pose proof (create_line_items_cases f n d tid c items 0%nat sess) as Hloop;
      pose proof (create_line_items_docs f n d tid c items 0%nat sess) as Hdocs;
      destruct (create_line_items f n d tid c 0%nat items sess)
        as [created sess2 | r | s]
  end; [|contradiction|discriminate].
  destruct Hloop as (-> & _ & _). specialize (Hdocs _ _ eq_refl).
  unfold bind at 1.
  match goal with
  | |- context [initial_payment ?d ?f ?n ?da ?bc ?t ?sess] =>
      fold (order_transaction now data
              (generateTransactionId now db (branch_code branch)) customer created);
      assert (Hpay : forall t2 sess3,
                 initial_payment d f n da bc
                   (order_transaction now data
                      (generateTransactionId now db (branch_code branch))
                      customer created) sess = Next t2 sess3 ->
                 (0 < default 0 (in_amount_paid data) /\
                  t2 = set_payments [generatePaymentId db bc]
                         (order_transaction now data
                            (generateTransactionId now db (branch_code branch))
                            customer created) /\
                  sess3 = with_payments
                            (db_payments sess ++
                             [order_payment db now data bc
                                (generateTransactionId now db (branch_code branch))])
                            sess)
                 \/ (default 0 (in_amount_paid data) <= 0 /\
                     t2 = order_transaction now data
                            (generateTransactionId now db (branch_code branch))
                            customer created /\
                     sess3 = sess))
  end.
  { intros t2 sess3. unfold initial_payment.
    destruct (Z.ltb_spec 0 (default 0 (in_amount_paid data))) as [Hp|Hp].
    - unfold bind, insert_payment. cbn beta.
      destruct (negb (payment_valid _)); [discriminate|].
      destruct (fail_new_payment faults); [discriminate|].
      destruct (existsb (by_key payment_id _) (db_payments _)); [discriminate|].
      unfold ret. cbn beta. intros [= <- <-]. left. split; [exact Hp|].
      split; reflexivity.
    - unfold ret. cbn beta. intros [= <- <-]. right. auto. }
  match goal with
  | |- context [initial_payment ?d ?f ?n ?da ?bc ?t ?sess] =>
      pose proof (initial_payment_cases d f n da bc t sess) as Hpay'
  end.
  destruct (initial_payment db faults now data (branch_code branch) _ _)
    as [t2 sess3 | r | s]; [|contradiction|discriminate].
  specialize (Hpay _ _ eq_refl). clear Hpay'.
  unfold bind at 1.
  pose proof (insert_transaction_cases (fail_new_transaction faults) t2 sess3)
    as Htx.
  destruct (insert_transaction (fail_new_transaction faults) t2 sess3)
    as [[] sess4 | r | s]; [|contradiction|discriminate].
  destruct Htx as (_ & ->). unfold ret.
  destruct (fail_intake_commit faults); [discriminate|].
  intros [= <- <- <- <-]. exists kb, branch. split; [reflexivity|].
  cbn zeta. split; [exact Hdocs|].
  destruct Hcust as [(j & Hj & ->) | (Hnone & Hc & Hex & ->)];
    destruct Hpay as [(Hp & -> & ->) | (Hp & -> & ->)];
    (split; [first [left; exists j; split; [exact Hj|reflexivity]
                   | right; split; [exact Hnone|]; split; [exact Hc|];
                     split; [exact Hex|reflexivity]]|]);
    (split; [reflexivity|]);
    (split; [first [left; split; [exact Hp|]; split; reflexivity
                   | right; split; [exact Hp|]; split; reflexivity]|]);
    repeat split.
Qed.

Lemma line_item_docs_lookup (now : Clock) (data : ServiceRequestInput)
    (tid : string) (c : Customer) (items : list LineItemInput) :
  forall (n k : nat),
    line_item_docs now data tid c n items !! k
    = new_line_item now data tid c (n + k) <$> items !! k.
Proof.
  induction items as [|item rest IH]; intros n k; [reflexivity|].
  destruct k as [|k]; simpl.
  - rewrite Nat.add_0_r. reflexivity.
  - rewrite IH. replace (S n + k)%nat with (n + S k)%nat by lia. reflexivity.
Qed.

Lemma line_item_docs_length (now : Clock) (data : ServiceRequestInput)
    (tid : string) (c : Customer) (items : list LineItemInput) (n : nat) :
  length (line_item_docs now data tid c n items) = length items.
Proof.
  revert n. induction items as [|item rest IH]; intros n; simpl;
    [reflexivity|]. rewrite IH. reflexivity.
Qed.

Lemma transaction_id_set_payments (ps : list string) (t : Transaction) :
  transaction_id (set_payments ps t) = transaction_id t.
Proof. destruct t; reflexivity. Qed.

(** X7. The documents of a committed order refer to one another: line
    item [k] carries the id derived from the transaction id and [k], the
    transaction's id and the customer's id, and starts as Queued; the
    transaction lists these ids in order, without a repetition, counts
    them in [no_pairs], names the customer, has no [date_out] and stores
    [payment_status] as it was sent. *)
Theorem order_documents_cross_referenced (db : Store) (faults : IntakeFaults)
    (now : Clock) (data : ServiceRequestInput) (c : Customer)
    (lis : list LineItem) (t : Transaction) (db' : Store) :
  createServiceRequest db faults now data = (Json201 c lis t, db') ->
  (forall k li, lis !! k = Some li ->
     li_line_item_id li = generateLineItemId (transaction_id t) k /\
     li_transaction_id li = transaction_id t /\
     li_cust_id li = c_cust_id c /\
     current_status li = "Queued") /\
  line_item_id t = map li_line_item_id lis /\
  NoDup (line_item_id t) /\
  no_pairs t = Z.of_nat (length lis) /\
  length lis = length (in_lineItems data) /\
  cust_id t = c_cust_id c /\
  date_out t = None /\
  payment_status t = in_payment_status data.
Proof.
  intros H. apply createServiceRequest_success in H.
  destruct H as (kb & branch & _ & Hlis & _ & _ & Hpay & _).
  cbn zeta in Hlis, Hpay.
  set (tid := generateTransactionId now db (branch_code branch)) in *.
  assert (Htid : transaction_id t = tid).
  { destruct Hpay as [(_ & -> & _) | (_ & -> & _)]; reflexivity. }
  assert (Hdoc : forall k li, lis !! k = Some li ->
            exists item, li = new_line_item now data tid c k item).
  { intros k li Hk. rewrite Hlis, line_item_docs_lookup in Hk.
    destruct (in_lineItems data !! k) as [item|]; [|discriminate].
    injection Hk as <-. exists item. reflexivity. }
  assert (Hfields :
            line_item_id t = map li_line_item_id lis /\
            no_pairs t = Z.of_nat (length lis) /\
            cust_id t = c_cust_id c /\ date_out t = None /\
            payment_status t = in_payment_status data).
  { destruct Hpay as [(_ & -> & _) | (_ & -> & _)]; repeat split. }
  destruct Hfields as (Hids & Hpairs & Hcust & Hout & Hstatus).
  split; [|split; [exact Hids|split; [|split; [exact Hpairs|split;
    [|split; [exact Hcust|split; [exact Hout|exact Hstatus]]]]]]].
  - intros k li Hk. destruct (Hdoc k li Hk) as (item & ->).
    rewrite Htid. repeat split.
  - rewrite Hids. apply NoDup_alt.
    intros i j x Hi Hj.
    rewrite list_lookup_fmap in Hi, Hj.
    destruct (lis !! i) as [li|] eqn:Ei; [|discriminate].
    destruct (lis !! j) as [lj|] eqn:Ej; [|discriminate].
    destruct (Hdoc i li Ei) as (item_i & ->).
    destruct (Hdoc j lj Ej) as (item_j & ->).
    injection Hi as <-. injection Hj as Hj.
    symmetry in Hj. exact (generateLineItemId_inj tid i j Hj).
  - rewrite Hlis. apply line_item_docs_length.
Qed.

Lemma order_documents_cross_referenced_witness :
  exists c lis t db',
    createServiceRequest demo_branches no_intake_faults march_2025 four_pairs
    = (Json201 c lis t, db') /\
    NoDup (line_item_id t) /\ no_pairs t = 4 /\ date_out t = None.
Proof.
  do 4 eexists. split; [vm_compute; reflexivity|].
  match goal with
  | |- NoDup (line_item_id ?t) /\ _ =>
      pose proof (order_documents_cross_referenced demo_branches
                    no_intake_faults march_2025 four_pairs _ _ t _
                    ltac:(vm_compute; reflexivity))
        as (_ & _ & Hnd & Hpairs & _ & _ & Hout & _)
  end.
  split; [exact Hnd|]. split; [exact Hpairs|exact Hout].
Defined.

(** X8. A committed order only appends: its line items and its transaction
    are added after the documents already stored, a Payment document is
    added exactly when [amount_paid] is positive (with the next payment id
    of the branch, the amount and the mode as sent), at most the order's
    customer is added, and no stored document, branch or service is
    changed or removed. *)
Theorem order_appends_documents (db : Store) (faults : IntakeFaults)
    (now : Clock) (data : ServiceRequestInput) (c : Customer)
    (lis : list LineItem) (t : Transaction) (db' : Store) :
  createServiceRequest db faults now data = (Json201 c lis t, db') ->
  exists k branch,
    findOne (by_key b_branch_id (in_branch_id data)) (db_branches db)
    = Some (k, branch) /\
    db_line_items db' = (db_line_items db ++ lis)%list /\
    db_transactions db' = (db_transactions db ++ [t])%list /\
    db_payments db'
    = (db_payments db ++
       if 0 <? default 0 (in_amount_paid data)
       then [order_payment db now data (branch_code branch) (transaction_id t)]
       else [])%list /\
    payments t
    = (if 0 <? default 0 (in_amount_paid data)
       then [generatePaymentId db (branch_code branch)] else []) /\
    (db_customers db' = db_customers db \/
     db_customers db' = (db_customers db ++ [c])%list) /\
    db_branches db' = db_branches db /\
    db_services db' = db_services db.
Proof.
  intros H. apply createServiceRequest_success in H.
  destruct H as (kb & branch & Hb & _ & Hc & Hli & Hpay & Htx & Hbr & Hsv).
  cbn zeta in Hpay.
  exists kb, branch. split; [exact Hb|]. split; [exact Hli|].
  split; [exact Htx|].
  assert (Hcust : db_customers db' = db_customers db \/
                  db_customers db' = (db_customers db ++ [c])%list).
  { destruct Hc as [(j & _ & Hc) | (_ & _ & _ & Hc)]; auto. }
  destruct Hpay as [(Hp & -> & ->) | (Hp & -> & ->)].
  - apply Z.ltb_lt in Hp. rewrite Hp. repeat split; auto.
  - apply Z.ltb_ge in Hp. rewrite Hp, app_nil_r. repeat split; auto.
Qed.

Lemma order_appends_documents_witness :
  exists c lis t db',
    createServiceRequest demo_branches no_intake_faults march_2025 four_pairs
    = (Json201 c lis t, db') /\
    db_line_items db' = lis /\ db_transactions db' = [t] /\
    db_branches db' = db_branches demo_branches.
Proof.
  do 4 eexists. split; [vm_compute; reflexivity|].
  match goal with
  | |- db_line_items ?d = ?l /\ db_transactions _ = [?t] /\ _ =>
      pose proof (order_appends_documents demo_branches
                    no_intake_faults march_2025 four_pairs _ l t d
                    ltac:(vm_compute; reflexivity))
        as (k & branch & _ & Hli & Htx & _ & _ & _ & Hbr & _)
  end.
  split; [exact Hli|]. split; [exact Htx|exact Hbr].
Defined.



(** ** GET and DELETE /transactions/:transaction_id *)

Lemma findOne_from_app {A} (f : A -> bool) (l1 l2 : list A) (i : nat) :
  findOne_from f i (l1 ++ l2)
  = match findOne_from f i l1 with
    | Some r => Some r
    | None => findOne_from f (i + length l1) l2
    end.
Proof.
  revert i. induction l1 as [|x l1 IH]; intros i; simpl.
  - rewrite Nat.add_0_r. reflexivity.
  - destruct (f x); [reflexivity|]. rewrite IH.
    replace (S i + length l1)%nat with (i + S (length l1))%nat by lia.
    reflexivity.
Qed.

Lemma findOne_from_existsb {A} (f : A -> bool) (l : list A) (i : nat) :
  existsb f l = false -> findOne_from f i l = None.
Proof.
  revert i. induction l as [|x l IH]; intros i; simpl; [reflexivity|].
  destruct (f x); [discriminate|]. apply IH.
Qed.

Lemma existsb_findOne_from {A} (f : A -> bool) (l : list A) (i : nat) :
  findOne_from f i l = None -> existsb f l = false.
Proof.
  revert i. induction l as [|x l IH]; intros i; simpl; [reflexivity|].
  destruct (f x); [discriminate|]. apply IH.
Qed.

Lemma deleteOne_absent {A} (f : A -> bool) (l : list A) :
  existsb f l = false -> deleteOne f l = (0%nat, l).
Proof.
  induction l as [|x l IH]; simpl; [reflexivity|].
  destruct (f x); [discriminate|]. intros H. rewrite (IH H). reflexivity.
Qed.

Lemma deleteOne_app_last {A} (f : A -> bool) (l : list A) (x : A) :
  existsb f l = false -> f x = true ->
  deleteOne f (l ++ [x]) = (1%nat, l).
Proof.
  intros Hl Hx. induction l as [|y l IH]; simpl.
  - rewrite Hx. reflexivity.
  - simpl in Hl. destruct (f y); [discriminate|]. rewrite (IH Hl).
    reflexivity.
Qed.

Lemma create_line_items_fresh (faults : IntakeFaults) (now : Clock)
    (data : ServiceRequestInput) (tid : string) (customer : Customer)
    (items : list LineItemInput) :
  forall (n : nat) (sess : Store) created sess',
    create_line_items faults now data tid customer n items sess
    = Next created sess' ->
    forall li, In li created ->
      existsb (by_key li_line_item_id (li_line_item_id li)) (db_line_items sess)
      = false.
Proof.
  induction items as [|item rest IH]; intros n sess created sess'.
  - simpl. unfold ret. intros [= <- <-] li [].
  - simpl. unfold bind, insert_line_item. cbn beta.
    destruct (fail_new_line_item faults n); [discriminate|].
    destruct (existsb (by_key li_line_item_id _) (db_line_items sess)) eqn:Ex;
      [discriminate|].
    specialize (IH (S n) (with_line_items
                (db_line_items sess ++
                 [new_line_item now data tid customer n item]) sess)).
    destruct (create_line_items faults now data tid customer (S n) rest _)
      as [cr s2| r | s]; [|discriminate..].
    unfold ret. intros [= <- <-] li [<- | Hin]; [exact Ex|].
    specialize (IH _ _ eq_refl li Hin). simpl in IH.
    rewrite existsb_app in IH. apply orb_false_iff in IH. apply IH.
Qed.

(** What a committed order passed on its way: the validator, and the
    unique indexes of the line-item and transaction collections. *)
Lemma createServiceRequest_checks (db : Store) (faults : IntakeFaults)
    (now : Clock) (data : ServiceRequestInput) (c : Customer)
    (lis : list LineItem) (t : Transaction) (db' : Store) :
  createServiceRequest db faults now data = (Json201 c lis t, db') ->
  validateServiceRequestInput data = [] /\
  (forall li, In li lis ->
     existsb (by_key li_line_item_id (li_line_item_id li)) (db_line_items db)
     = false) /\
  existsb (by_key transaction_id (transaction_id t)) (db_transactions db)
  = false.
Proof.
  unfold createServiceRequest, in_session, createServiceRequest_body.
  destruct (validateServiceRequestInput data) as [|e es]; [|discriminate].
  unfold bind at 1, read. cbn beta.
  destruct (findOne _ (db_branches db)) as [[kb branch]|]; [|discriminate].
  unfold bind at 1. cbn beta.
  destruct (List.filter _ (unique [] _)) as [|bad bads]; [|discriminate].
  unfold bind at 1.
  pose proof (resolve_customer_exact db faults data (branch_number branch) db)
    as Hcust.
  pose proof (resolve_customer_cases db faults data (branch_number branch) db)
    as Hcust'.
  destruct (resolve_customer db faults data (branch_number branch) db)
    as [customer sess1 | r | s]; [|contradiction|discriminate].
  specialize (Hcust _ _ eq_refl). clear Hcust'.
  unfold bind at 1.
  match goal with
  | |- context [create_line_items ?f ?n ?d ?tid ?c 0%nat ?items ?sess] =>
      pose proof (create_line_items_cases f n d tid c items 0%nat sess) as Hloop;
      pose proof (create_line_items_fresh f n d tid c items 0%nat sess) as Hfresh;
      destruct (create_line_items f n d tid c 0%nat items sess)
        as [created sess2 | r | s]
  end; [|contradiction|discriminate].
  destruct Hloop as (-> & _ & _). specialize (Hfresh _ _ eq_refl).
  unfold bind at 1.
  match goal with
  | |- context [initial_payment ?d ?f ?n ?da ?bc ?t ?sess] =>
      pose proof (initial_payment_cases d f n da bc t sess) as Hpay
  end.
  destruct (initial_payment db faults now data (branch_code branch) _ _)
    as [t2 sess3 | r | s]; [|contradiction|discriminate].
  unfold bind at 1. unfold insert_transaction.
  destruct (fail_new_transaction faults); [discriminate|].
  destruct (existsb (by_key transaction_id (transaction_id t2))
              (db_transactions sess3)) eqn:Ex; [discriminate|].
  unfold ret. cbn beta.
  destruct (fail_intake_commit faults); [discriminate|].
  intros [= <- <- <- <-]. split; [reflexivity|]. split.
  - intros li Hin. specialize (Hfresh li Hin).
    destruct Hcust as [(j & _ & ->) | (_ & _ & _ & ->)]; exact Hfresh.
  - destruct Hpay as [(_ & _ & p & -> & _) | (_ & -> & _)];
      destruct Hcust as [(j & _ & ->) | (_ & _ & _ & ->)]; exact Ex.
Qed.

Lemma generateTransactionId_nonempty (now : Clock) (db : Store) (bc : string) :
  generateTransactionId now db bc <> "".
Proof.
  unfold generateTransactionId, yearMonth_of.
  destruct (Js.String_of_N (getFullYear now)) eqn:E.
  - exfalso. exact (String_of_N_nonempty _ E).
  - discriminate.
Qed.

Lemma filter_app_list {A} (f : A -> bool) (l1 l2 : list A) :
  List.filter f (l1 ++ l2) = (List.filter f l1 ++ List.filter f l2)%list.
Proof.
  induction l1 as [|x l1 IH]; simpl; [reflexivity|].
  destruct (f x); simpl; rewrite IH; reflexivity.
Qed.

Lemma filter_all {A} (f : A -> bool) (l : list A) :
  (forall x, In x l -> f x = true) -> List.filter f l = l.
Proof.
  induction l as [|x l IH]; simpl; intros H; [reflexivity|].
  rewrite (H x (or_introl eq_refl)), IH; [reflexivity|].
  intros y Hy. apply H. right. exact Hy.
Qed.

Lemma findOne_from_unique {A} (key : A -> string) (l : list A) (i j : nat)
    (x : A) :
  NoDup (map key l) -> l !! j = Some x ->
  findOne_from (by_key key (key x)) i l = Some ((i + j)%nat, x).
Proof.
  revert i j. induction l as [|y l IH]; intros i j Hnd Hj; [discriminate|].
  simpl in Hnd. apply NoDup_cons in Hnd as [Hy Hnd].
  destruct j as [|j]; simpl in Hj.
  - injection Hj as ->. simpl. unfold by_key at 1.
    rewrite String.eqb_refl, Nat.add_0_r. reflexivity.
  - simpl. unfold by_key at 1.
    destruct (String.eqb_spec (key y) (key x)) as [E|_].
    + exfalso. apply Hy. rewrite E. apply list_elem_of_fmap_2.
      eapply list_elem_of_lookup_2. exact Hj.
    + rewrite (IH (S i) j Hnd Hj).
      replace (S i + j)%nat with (i + S j)%nat by lia. reflexivity.
Qed.

(** X10. Reading a committed order back: [getTransactionById] on the id
    of the created transaction answers that transaction, the order's
    customer, and the created line items in order -- after any older line
    items that already named this transaction id. *)
Theorem order_read_back (db : Store) (faults : IntakeFaults) (now : Clock)
    (data : ServiceRequestInput) (c : Customer) (lis : list LineItem)
    (t : Transaction) (db' : Store) :
  NoDup (map c_cust_id (db_customers db)) ->
  createServiceRequest db faults now data = (Json201 c lis t, db') ->
  getTransactionById db' (transaction_id t)
  = Get200 t (Some c)
      (List.filter (by_key li_transaction_id (transaction_id t))
         (db_line_items db) ++ lis).
Proof.
  intros Hnd H.
  pose proof (createServiceRequest_checks _ _ _ _ _ _ _ _ H) as (_ & _ & Hfresh).
  pose proof (createServiceRequest_success _ _ _ _ _ _ _ _ H)
    as (kb & branch & _ & Hlis & Hc & Hli & Hpay & Htx & _).
  cbn zeta in Hlis, Hpay.
  set (tid := generateTransactionId now db (branch_code branch)) in *.
  assert (Htid : transaction_id t = tid).
  { destruct Hpay as [(_ & -> & _) | (_ & -> & _)]; reflexivity. }
  assert (Hcid : cust_id t = c_cust_id c).
  { destruct Hpay as [(_ & -> & _) | (_ & -> & _)]; reflexivity. }
  unfold getTransactionById.
  destruct (String.eqb_spec (transaction_id t) "") as [E|_].
  { exfalso. rewrite Htid in E. exact (generateTransactionId_nonempty _ _ _ E). }
  unfold findOne. rewrite Htx, findOne_from_app.
  rewrite (findOne_from_existsb _ _ 0 Hfresh). simpl.
  unfold by_key at 1. rewrite String.eqb_refl. cbn zeta.
  f_equal.
  - rewrite Hcid.
    destruct Hc as [(j & Hj & ->) | (Hnone & Hnew & Hcheck & ->)].
    + apply findOne_lookup in Hj as [Hj _].
      rewrite (findOne_from_unique c_cust_id _ 0 j c Hnd Hj). reflexivity.
    + rewrite findOne_from_app.
      rewrite (findOne_from_existsb _ _ 0 Hcheck). simpl.
      unfold by_key. rewrite String.eqb_refl. reflexivity.
  - rewrite Hli, filter_app_list. f_equal.
    apply filter_all. intros li Hin. rewrite Hlis in Hin.
    apply list_elem_of_In, list_elem_of_lookup in Hin as [k Hk].
    rewrite line_item_docs_lookup in Hk.
    destruct (in_lineItems data !! k); [|discriminate]. injection Hk as <-.
    unfold by_key. simpl. rewrite Htid. apply String.eqb_refl.
Qed.

Lemma order_read_back_witness :
  exists c lis t db',
    createServiceRequest demo_branches no_intake_faults march_2025 four_pairs
    = (Json201 c lis t, db') /\
    getTransactionById db' "2025-03-00001-NCR" = Get200 t (Some c) lis.
Proof.
  do 4 eexists. split; [vm_compute; reflexivity|].
  match goal with
  | |- getTransactionById ?d _ = Get200 ?t (Some ?c) ?l =>
      exact (order_read_back demo_branches no_intake_faults march_2025
               four_pairs c l t d ltac:(constructor)
               ltac:(vm_compute; reflexivity))
  end.
Defined.

(** Deleting leaves everything but the transaction collection alone. *)
Lemma deleteOne_spec {A} (f : A -> bool) (l : list A) :
  (existsb f l = false /\ deleteOne f l = (0%nat, l)) \/
  (exists l1 x l2, l = (l1 ++ x :: l2)%list /\ existsb f l1 = false /\
                   f x = true /\ deleteOne f l = (1%nat, (l1 ++ l2)%list)).
Proof.
  induction l as [|y l IH]; simpl.
  - left. auto.
  - destruct (f y) eqn:Ey.
    + right. exists [], y, l. repeat split; auto.
    + destruct IH as [(Hex & ->) | (l1 & x & l2 & -> & Hl1 & Hx & ->)].
      * left. auto.
      * right. exists (y :: l1), x, l2. simpl. rewrite Ey. repeat split; auto.
Qed.


Lemma generateTransactionId_ext (now now' : Clock) (db db' : Store)
    (bc : string) :
  yearMonth_of now' = yearMonth_of now ->
  db_transactions db' = db_transactions db ->
  generateTransactionId now' db' bc = generateTransactionId now db bc.
Proof.
  intros Hym Htx. unfold generateTransactionId. rewrite Hym, Htx. reflexivity.
Qed.

(** X12. Deleting the newest transaction of a branch frees its number but
    not its line items: [deleteTransaction] on a just-created order
    succeeds and leaves the order's line items stored; from then on every
    order for the same branch in the same month is refused and writes
    nothing, because its first line item would get an id that is still in
    use. *)
Theorem deleted_order_blocks_next_order (db : Store) (faults : IntakeFaults)
    (now : Clock) (data : ServiceRequestInput) (c : Customer)
    (lis : list LineItem) (t : Transaction) (db1 : Store) :
  createServiceRequest db faults now data = (Json201 c lis t, db1) ->
  exists db2,
    deleteTransaction db1 (transaction_id t) = (Delete200, db2) /\
    db_transactions db2 = db_transactions db /\
    db_line_items db2 = (db_line_items db ++ lis)%list /\
    forall faults' now' data',
      yearMonth_of now' = yearMonth_of now ->
      in_branch_id data' = in_branch_id data ->
      not_created (fst (createServiceRequest db2 faults' now' data')) /\
      snd (createServiceRequest db2 faults' now' data') = db2.
Proof.
  intros H.
  pose proof (createServiceRequest_checks _ _ _ _ _ _ _ _ H)
    as (Hvalid & _ & Hfresh).
  pose proof (createServiceRequest_success _ _ _ _ _ _ _ _ H)
    as (kb & branch & Hb & Hlis & _ & Hli & Hpay & Htx & Hbr & _).
  cbn zeta in Hlis, Hpay.
  set (tid := generateTransactionId now db (branch_code branch)) in *.
  assert (Htid : transaction_id t = tid).
  { destruct Hpay as [(_ & -> & _) | (_ & -> & _)]; reflexivity. }
  exists (with_transactions (db_transactions db) db1).
  split; [|split; [reflexivity|split; [exact Hli|]]].
  { unfold deleteTransaction.
    destruct (String.eqb_spec (transaction_id t) "") as [E|_].
    { exfalso. rewrite Htid in E.
      exact (generateTransactionId_nonempty _ _ _ E). }
    rewrite Htx, (deleteOne_app_last _ _ _ Hfresh); [reflexivity|].
    unfold by_key. apply String.eqb_refl. }
  intros faults' now' data' Hym Hbid.
  set (db2 := with_transactions (db_transactions db) db1).
  destruct (createServiceRequest db2 faults' now' data') as [resp db3] eqn:Hrun.
  destruct (createServiceRequest_cases _ _ _ _ _ _ Hrun)
    as [(c' & lis' & t' & -> & _) | (-> & Hnot)]; [|split; [exact Hnot|reflexivity]].
  exfalso.
  pose proof (createServiceRequest_checks _ _ _ _ _ _ _ _ Hrun)
    as (Hvalid' & Hfresh' & _).
  pose proof (createServiceRequest_success _ _ _ _ _ _ _ _ Hrun)
    as (kb' & branch' & Hb' & Hlis' & _).
  cbn zeta in Hlis'.
  assert (Hsame : branch' = branch).
  { change (db_branches db2) with (db_branches db1) in Hb'.
    rewrite Hbr, Hbid, Hb in Hb'. congruence. }
  subst branch'.
  rewrite (generateTransactionId_ext now now' db db2 _ Hym eq_refl) in Hlis'.
  fold tid in Hlis'.
  apply validateServiceRequestInput_nil in Hvalid as Hok.
  apply validateServiceRequestInput_nil in Hvalid' as Hok'.
  destruct Hok as (_ & _ & _ & _ & _ & _ & _ & _ & Hne & _).
  destruct Hok' as (_ & _ & _ & _ & _ & _ & _ & _ & Hne' & _).
  destruct (in_lineItems data) as [|item rest]; [contradiction|].
  destruct (in_lineItems data') as [|item' rest']; [contradiction|].
  simpl in Hlis, Hlis'.
  specialize (Hfresh' (new_line_item now' data' tid c' 0 item')).
  rewrite Hlis' in Hfresh'. specialize (Hfresh' (or_introl eq_refl)).
  change (db_line_items db2) with (db_line_items db1) in Hfresh'.
  rewrite Hli, Hlis, existsb_app in Hfresh'.
  apply orb_false_iff in Hfresh' as [_ Hfresh'].
  simpl in Hfresh'. unfold by_key at 1 in Hfresh'. simpl in Hfresh'.
  rewrite String.eqb_refl in Hfresh'. discriminate.
Qed.


Lemma deleted_order_blocks_next_order_witness :
  exists c lis t db1,
    createServiceRequest demo_branches no_intake_faults march_2025 four_pairs
    = (Json201 c lis t, db1) /\
    exists db2,
      deleteTransaction db1 (transaction_id t) = (Delete200, db2) /\
      not_created
        (fst (createServiceRequest db2 no_intake_faults march_2025 four_pairs)).
Proof.
  do 4 eexists. split; [vm_compute; reflexivity|].
  match goal with
  | |- exists db2, deleteTransaction ?d (transaction_id ?t) = _ /\ _ =>
      destruct (deleted_order_blocks_next_order demo_branches no_intake_faults
                  march_2025 four_pairs _ _ t d ltac:(vm_compute; reflexivity))
        as (db2 & Hd & _ & _ & Hnext)
  end.
  exists db2. split; [exact Hd|].
  exact (proj1 (Hnext no_intake_faults march_2025 four_pairs eq_refl eq_refl)).
Defined.

(** ** Payment Ledger: the Payment record and the pickup *)

Lemma record_payment_exact (db : Store) (faults : ApplyPaymentFaults)
    (now : Clock) (req : ApplyPaymentReq) (t : Transaction) (sess : Store) :
  record_payment db faults now req t sess
  = if Js.truthy (provided_payment_id req) then
      match findOne (by_key payment_id (Js.str_or (provided_payment_id req) ""))
              (db_payments sess) with
      | Some _ =>
          Next (attach_payment (Js.str_or (provided_payment_id req) "") t) sess
      | None => Next t sess
      end
    else
      let p :=
        mkPayment (generatePaymentId db (branch_code_of sess t))
          (transaction_id t) (Js.num_or (default 0 (dueNow req)) 0)
          (Js.str_or (modeOfPayment req) "Other") (getTime now) in
      if (0 <? Js.num_or (default 0 (dueNow req)) 0) && payment_valid p &&
         negb (fail_payment_save faults) &&
         negb (existsb (by_key payment_id (payment_id p)) (db_payments sess))
      then Next (attach_payment (payment_id p) t)
             (with_payments (db_payments sess ++ [p]) sess)
      else Next t sess.
Proof.
  unfold record_payment, try_catch, bind, read, ret.
  destruct (Js.truthy (provided_payment_id req)).
  - destruct (findOne _ (db_payments sess)) as [[k p]|]; reflexivity.
  - cbn zeta.
    destruct (0 <? Js.num_or (default 0 (dueNow req)) 0); [|reflexivity].
    unfold insert_payment.
    match goal with |- context [payment_valid ?p] => set (pay := p) end.
    destruct (payment_valid pay); simpl; [|reflexivity].
    destruct (fail_payment_save faults); [reflexivity|].
    destruct (existsb _ _); reflexivity.
Qed.

Lemma release_line_item_exact (faults : ApplyPaymentFaults)
    (req : ApplyPaymentReq) (t : Transaction) (sess sess' : Store) :
  release_line_item faults req t sess = Next tt sess' ->
  db_transactions sess' = db_transactions sess /\
  db_payments sess' = db_payments sess /\
  db_branches sess' = db_branches sess /\
  db_services sess' = db_services sess /\
  if markPickedUp req && Js.truthy (lineItemId req) then
    exists k li,
      findOne (by_key li_line_item_id (Js.str_or (lineItemId req) ""))
        (db_line_items sess) = Some (k, li) /\
      db_line_items sess'
      = <[k := set_current_status "Picked Up" li]> (db_line_items sess) /\
      match findOne (by_key c_cust_id (cust_id t)) (db_customers sess) with
      | Some (j, customer) =>
          db_customers sess' = <[j := charged t customer]> (db_customers sess)
      | None => db_customers sess' = db_customers sess
      end
  else db_line_items sess' = db_line_items sess /\
       db_customers sess' = db_customers sess.
Proof.
  unfold release_line_item.
  destruct (markPickedUp req && Js.truthy (lineItemId req)).
  - unfold bind, read. cbn beta.
    destruct (findOne _ (db_line_items sess)) as [[k li]|]; [|discriminate].
    unfold save_line_item.
    destruct (fail_line_item_save faults); [discriminate|].
    unfold write. cbn beta iota.
    change (db_customers (with_line_items _ sess)) with (db_customers sess).
    destruct (findOne _ (db_customers sess)) as [[j customer]|].
    + unfold save_customer. destruct (fail_customer_save faults); [discriminate|].
      unfold write. intros [= <-]. repeat split. exists k, li. repeat split.
    + unfold ret. intros [= <-]. repeat split. exists k, li. repeat split.
  - unfold ret. intros [= <-]. repeat split.
Qed.

Lemma before_payment_branch_id (req : ApplyPaymentReq) (t : Transaction) :
  branch_id (before_payment req t) = branch_id t.
Proof.
  unfold before_payment, append_mode, add_payment, bump_released.
  destruct (markPickedUp req), (body_payment_status req), (modeOfPayment req);
    txn_simpl; split_ifs; txn_simpl; reflexivity.
Qed.

Lemma branch_code_of_ext (sess db : Store) (t4 t : Transaction) :
  db_branches sess = db_branches db -> branch_id t4 = branch_id t ->
  branch_code_of sess t4 = branch_code_of db t.
Proof. intros Hb Ht. unfold branch_code_of. rewrite Hb, Ht. reflexivity. Qed.

(** A call answered with 200, exactly: the transaction it found, the
    payment block's result and the pickup's result. *)
Lemma applyPayment_ok (db : Store) (faults : ApplyPaymentFaults)
    (now : Clock) (req : ApplyPaymentReq) (t' : Transaction) (db' : Store) :
  applyPayment db faults now req = (Json200 t', db') ->
  exists i t t5 sess1,
    findOne (by_key transaction_id (params_transaction_id req))
      (db_transactions db) = Some (i, t) /\
    record_payment db faults now req (before_payment req t) db
    = Next t5 sess1 /\
    t' = stamp_date_out (markPickedUp req) now t5 /\
    release_line_item faults req t'
      (with_transactions (<[i := t']> (db_transactions sess1)) sess1)
    = Next tt db'.
Proof.
  intros H. apply applyPayment_inv in H
    as [(_ & Hne) | (i & t & t5 & sess1 & Hf & _ & Hrec & _ & _ & Hresp & Hrel)].
  - exfalso. exact (Hne t' eq_refl).
  - injection Hresp as ->. exists i, t, t5, sess1. auto.
Qed.

(** X13. A pickup (markPickedUp with a lineItemId) that is answered with
    200 sets the status of the first line item with that id to Picked Up
    -- the item is found by its id alone -- and adds 1 to the customer's
    total_services and the transaction's whole total_amount to the
    customer's total_expenditure; when the transaction's customer is not
    stored no customer is changed.  A call that is no pickup leaves the
    line items and the customers as they were. *)
Theorem pickup_marks_item_and_charges_customer (db : Store)
    (faults : ApplyPaymentFaults) (now : Clock) (req : ApplyPaymentReq)
    (t' : Transaction) (db' : Store) :
  applyPayment db faults now req = (Json200 t', db') ->
  exists i t,
    findOne (by_key transaction_id (params_transaction_id req))
      (db_transactions db) = Some (i, t) /\
    if markPickedUp req && Js.truthy (lineItemId req) then
      exists k li,
        findOne (by_key li_line_item_id (Js.str_or (lineItemId req) ""))
          (db_line_items db) = Some (k, li) /\
        db_line_items db'
        = <[k := set_current_status "Picked Up" li]> (db_line_items db) /\
        match findOne (by_key c_cust_id (cust_id t)) (db_customers db) with
        | Some (j, customer) =>
            db_customers db' = <[j := charged t customer]> (db_customers db)
        | None => db_customers db' = db_customers db
        end
    else db_line_items db' = db_line_items db /\
         db_customers db' = db_customers db.
Proof.
  intros H. apply applyPayment_ok in H
    as (i & t & t5 & sess1 & Hf & Hrec & -> & Hrel).
  exists i, t. split; [exact Hf|].
  pose proof (record_payment_session _ _ _ _ _ _ _ _ Hrec)
    as (_ & Hli & Hcu & Hcid).
  assert (Htot : total_amount t5 = total_amount t).
  { destruct (before_payment_fields req t) as (_ & _ & Htot & _).
    destruct (record_payment_cases db faults now req (before_payment req t) db)
      as [E | [(k & p & _ & _ & E) | (p & _ & _ & _ & E)]];
      rewrite E in Hrec; injection Hrec as <- _; [exact Htot|..];
      match goal with
      | |- total_amount (attach_payment ?id ?x) = _ =>
          destruct (attach_payment_fields id x) as (_ & _ & -> & _); exact Htot
      end. }
  apply release_line_item_exact in Hrel as (_ & _ & _ & _ & Hrel).
  destruct (markPickedUp req && Js.truthy (lineItemId req)).
  - destruct Hrel as (k & li & Hk & Hitems & Hcust).
    change (db_line_items (with_transactions _ sess1))
      with (db_line_items sess1) in Hk, Hitems.
    change (db_customers (with_transactions _ sess1))
      with (db_customers sess1) in Hcust.
    rewrite Hli in Hk, Hitems. rewrite Hcu in Hcust.
    exists k, li. split; [exact Hk|]. split; [exact Hitems|].
    destruct (stamp_date_out_fields (markPickedUp req) now t5)
      as (_ & _ & Htot' & Hcid' & _).
    destruct (before_payment_fields req t) as (_ & _ & _ & Hcid0 & _).
    cbn zeta in Htot', Hcid', Hcid0.
    rewrite Hcid', Hcid, Hcid0 in Hcust.
    destruct (findOne _ (db_customers db)) as [[j customer]|]; [|exact Hcust].
    unfold charged in *. rewrite Htot', Htot in Hcust. exact Hcust.
  - destruct Hrel as (Hitems & Hcust).
    change (db_line_items (with_transactions _ sess1))
      with (db_line_items sess1) in Hitems.
    change (db_customers (with_transactions _ sess1))
      with (db_customers sess1) in Hcust.
    rewrite Hitems, Hcust, Hli, Hcu. auto.
Qed.

Lemma pickup_marks_item_and_charges_customer_witness :
  exists t' db',
    applyPayment demo_db no_faults march_2025 first_pair_pickup
    = (Json200 t', db') /\
    map current_status (db_line_items db') = ["Picked Up"; "Queued"] /\
    map total_expenditure (db_customers db') = [1000].
Proof.
  do 2 eexists. split; [vm_compute; reflexivity|].
  match goal with
  | |- map current_status (db_line_items ?d) = _ /\ _ =>
      pose proof (pickup_marks_item_and_charges_customer demo_db no_faults
                    march_2025 first_pair_pickup _ d
                    ltac:(vm_compute; reflexivity)) as (i & t & Hf & Hpick)
  end.
  injection Hf as <- <-.
  change (markPickedUp first_pair_pickup &&
          Js.truthy (lineItemId first_pair_pickup)) with true in Hpick.
  cbv iota in Hpick.
  destruct Hpick as (k & li & Hk & Hitems & Hcust).
  injection Hk as <- <-.
  split; [rewrite Hitems; reflexivity|].
  change (findOne (by_key c_cust_id (cust_id demo_txn)) (db_customers demo_db))
    with (Some (0%nat, mkCustomer "CUST-1-1" "Ana" None None None None 0 0))
    in Hcust.
  cbv iota beta in Hcust. rewrite Hcust. reflexivity.
Defined.

(** X14. Where a call without [provided_payment_id] is answered with 200,
    the Payment collection gains the document built from the request --
    the next payment id of the transaction's branch, the transaction id,
    the whole [dueNow] (also when [amount_paid] was clamped), the mode or
    Other -- exactly when [dueNow] is positive, the document passes the
    schema and the insert goes through; the id is then on the
    transaction's payments list.  Otherwise neither changes. *)
Theorem ledger_payment_recorded (db : Store) (faults : ApplyPaymentFaults)
    (now : Clock) (req : ApplyPaymentReq) (t' : Transaction) (db' : Store) :
  Js.truthy (provided_payment_id req) = false ->
  applyPayment db faults now req = (Json200 t', db') ->
  exists i t,
    findOne (by_key transaction_id (params_transaction_id req))
      (db_transactions db) = Some (i, t) /\
    if ledger_payment_stored db faults now req t then
      db_payments db' = (db_payments db ++ [ledger_payment db now req t])%list /\
      payments t'
      = payments (attach_payment (payment_id (ledger_payment db now req t)) t)
    else db_payments db' = db_payments db /\ payments t' = payments t.
Proof.
  intros Hprov H. apply applyPayment_ok in H
    as (i & t & t5 & sess1 & Hf & Hrec & -> & Hrel).
  exists i, t. split; [exact Hf|].
  apply release_line_item_exact in Hrel as (_ & Hpay & _).
  change (db_payments (with_transactions _ sess1)) with (db_payments sess1)
    in Hpay.
  rewrite Hpay.
  destruct (stamp_date_out_fields (markPickedUp req) now t5)
    as (_ & _ & _ & _ & -> & _).
  rewrite record_payment_exact, Hprov in Hrec. cbn zeta in Hrec.
  destruct (before_payment_fields req t) as (Hid & _ & _ & _ & _ & Hps & _).
  cbn zeta in Hid, Hps.
  rewrite (branch_code_of_ext db db _ t eq_refl (before_payment_branch_id req t)),
    Hid in Hrec.
  fold (ledger_payment db now req t) in Hrec.
  fold (ledger_payment_stored db faults now req t) in Hrec.
  destruct (ledger_payment_stored db faults now req t).
  - injection Hrec as <- <-. split; [reflexivity|].
    unfold attach_payment. rewrite Hps.
    destruct (Js.includes (payments t) _); txn_simpl; [exact Hps|reflexivity].
  - injection Hrec as <- <-. split; [reflexivity|exact Hps].
Qed.

Lemma ledger_payment_recorded_witness :
  exists t' db',
    applyPayment demo_db no_faults march_2025 (pay 1500 (Some "Cash") None false)
    = (Json200 t', db') /\
    amount_paid t' = 1000 /\
    db_payments db'
    = [mkPayment "PAY-1-NCR" "2025-03-00001-NCR" 1500 "Cash" 0].
Proof.
  do 2 eexists. split; [vm_compute; reflexivity|].
  split; [reflexivity|].
  match goal with
  | |- db_payments ?d = _ =>
      pose proof (ledger_payment_recorded demo_db no_faults march_2025
                    (pay 1500 (Some "Cash") None false) _ d eq_refl
                    ltac:(vm_compute; reflexivity)) as (i & t & Hf & Hpay)
  end.
  injection Hf as <- <-.
  change (ledger_payment_stored demo_db no_faults march_2025
            (pay 1500 (Some "Cash") None false) demo_txn) with true in Hpay.
  cbv iota in Hpay. destruct Hpay as [Hpay _]. rewrite Hpay. reflexivity.
Defined.

(** X15. The payments list of a transaction never gets an id twice: if
    the lists of all stored transactions are free of repetitions, they are
    so after any sequence of [applyPayment] calls, whatever the calls
    request and whichever of them fail. *)
Theorem payments_stay_distinct (db : Store) (calls : list Call) :
  Forall (fun t => NoDup (payments t)) (db_transactions db) ->
  Forall (fun t => NoDup (payments t)) (db_transactions (run_calls db calls)).
Proof.
  revert db. induction calls as [|c calls IH]; intros db Hall; [exact Hall|].
  simpl. apply IH. unfold apply_call.
  destruct (applyPayment db (call_faults c) (call_now c) (call_req c))
    as [resp db'] eqn:E.
  apply applyPayment_effect in E
    as [[-> _] | (i & t & t' & Hfind & _ & _ & Htx & Hpay)]; [exact Hall|].
  simpl. rewrite Htx. apply Forall_insert; [exact Hall|].
  apply findOne_lookup in Hfind as [Hi _].
  assert (Ht : NoDup (payments t)).
  { eapply (Forall_lookup_1 _ _ _ _ Hall). exact Hi. }
  assert (Hattach : forall id, NoDup (payments (attach_payment id t))).
  { intros id. unfold attach_payment.
    destruct (Js.includes (payments t) id) eqn:Hin; [exact Ht|].
    txn_simpl. apply NoDup_app. split; [exact Ht|]. split.
    - intros x Hx Hx'. apply list_elem_of_singleton in Hx' as ->.
      apply list_elem_of_In, includes_In in Hx. congruence.
    - apply NoDup_singleton. }
  destruct Hpay as [(_ & ->) | [(k & p & _ & _ & _ & ->) | (p & _ & _ & _ & _ & ->)]];
    auto.
Qed.

Lemma payments_stay_distinct_witness :
  Forall (fun t => NoDup (payments t))
    (db_transactions
       (run_calls demo_db
          [mkCall no_faults march_2025 (pay 400 (Some "Cash") None false);
           mkCall no_faults march_2025 (pay 400 (Some "GCash") None false)])).
Proof.
  apply (payments_stay_distinct demo_db).
  constructor; [apply NoDup_nil_2|constructor].
Defined.

(** X16. What [applyPayment] refuses, in the order it checks: an empty
    transaction id and a missing [dueNow] or [customerPaid] with 400, an
    unknown transaction with 404, a [payment_status] outside NP, PARTIAL,
    PAID with 400, and -- after the transaction was already saved in the
    session -- a pickup of an unknown line item with 404.  In each case
    the store is left as it was: for the last one also the Payment record
    and the transaction update of the same call are dropped. *)
Theorem applyPayment_refusals (db : Store) (faults : ApplyPaymentFaults)
    (now : Clock) (req : ApplyPaymentReq) :
  (params_transaction_id req = "" ->
   applyPayment db faults now req = (Json400 ["transaction_id required"], db)) /\
  (params_transaction_id req <> "" ->
   dueNow req = None \/ customerPaid req = None ->
   applyPayment db faults now req
   = (Json400 ["dueNow and customerPaid are required"], db)) /\
  (params_transaction_id req <> "" ->
   is_Some (dueNow req) -> is_Some (customerPaid req) ->
   (findOne (by_key transaction_id (params_transaction_id req))
      (db_transactions db) = None ->
    applyPayment db faults now req = (Json404 "Transaction not found", db)) /\
   (findOne (by_key transaction_id (params_transaction_id req))
      (db_transactions db) <> None ->
    (forall ps, body_payment_status req = Some ps -> ~ In ps VALID ->
       applyPayment db faults now req
       = (Json400 ["Invalid payment_status. Must be one of NP, PARTIAL, PAID"],
          db)) /\
    ((forall ps, body_payment_status req = Some ps -> In ps VALID) ->
     fail_transaction_save faults = false ->
     markPickedUp req = true -> Js.truthy (lineItemId req) = true ->
     findOne (by_key li_line_item_id (Js.str_or (lineItemId req) ""))
       (db_line_items db) = None ->
     applyPayment db faults now req = (Json404 "Line item not found", db)))).
Proof.
  unfold applyPayment, in_session, applyPayment_body.
  split; [intros ->; reflexivity|].
  split.
  { intros Hid Hnull. apply String.eqb_neq in Hid. rewrite Hid.
    destruct Hnull as [-> | ->]; [reflexivity|].
    rewrite orb_true_r. reflexivity. }
  intros Hid [due Hdue] [paid Hpaid]. apply String.eqb_neq in Hid.
  rewrite Hid, Hdue, Hpaid. cbn [Js.is_null orb].
  split; [unfold bind at 1, read; cbn beta; intros ->; reflexivity|].
  intros Hfound.
  destruct (findOne _ (db_transactions db)) as [[i t]|] eqn:Hf; [|contradiction].
  split.
  - intros ps Hps Hbad. unfold bind at 1, read. cbn beta. rewrite Hf.
    unfold bind at 1. rewrite Hps.
    unfold check_payment_status.
    destruct (Js.includes VALID ps) eqn:Hin; [|reflexivity].
    apply includes_In in Hin. contradiction.
  - intros Hvalid Hsave Hmark Htruthy Hnone.
    unfold bind at 1, read. cbn beta. rewrite Hf.
    unfold bind at 1.
    destruct (check_payment_status_cases (body_payment_status req)
                (add_payment (Some due) (bump_released (markPickedUp req) t)) db)
      as [(errors & Hc) | Hc].
    { exfalso. revert Hc. unfold check_payment_status.
      destruct (body_payment_status req) as [ps|]; [|discriminate].
      specialize (Hvalid ps eq_refl). apply includes_In in Hvalid.
      rewrite Hvalid. discriminate. }
    rewrite Hc. unfold bind at 1.
    match goal with
    | |- context [record_payment db faults now req ?x db] =>
        destruct (record_payment_next db faults now req x db) as (t5 & sess1 & Hrec);
        pose proof (record_payment_session _ _ _ _ _ _ _ _ Hrec) as (_ & Hli & _);
        rewrite Hrec
    end.
    unfold bind at 1, save_transaction. rewrite Hsave.
    unfold write. cbn beta iota.
    unfold bind at 1, release_line_item. rewrite Hmark, Htruthy.
    cbn [andb]. unfold bind at 1, read. cbn beta.
    change (db_line_items (with_transactions _ sess1)) with (db_line_items sess1).
    rewrite Hli, Hnone. reflexivity.
Qed.

Lemma applyPayment_refusals_witness :
  applyPayment demo_db no_faults march_2025 unknown_item_pickup
  = (Json404 "Line item not found", demo_db).
Proof.
  pose proof (applyPayment_refusals demo_db no_faults march_2025
                unknown_item_pickup) as (_ & _ & H).
  specialize (H ltac:(discriminate) ltac:(eexists; reflexivity)
                ltac:(eexists; reflexivity)).
  destruct H as (_ & H). specialize (H ltac:(discriminate)).
  destruct H as (_ & H).
  apply H; try reflexivity. intros ps Hps. discriminate.
Defined.

(** X17. [applyPayment] never touches a branch, a service or another
    transaction: whatever the call and its outcome, the branches and
    services are those of before, the transaction ids are the same in the
    same order, every transaction with an id other than the requested one
    is unchanged, and the Payment collection keeps all its documents and
    gains at most one. *)
Theorem applyPayment_frame (db : Store) (faults : ApplyPaymentFaults)
    (now : Clock) (req : ApplyPaymentReq) (resp : Response) (db' : Store) :
  applyPayment db faults now req = (resp, db') ->
  db_branches db' = db_branches db /\
  db_services db' = db_services db /\
  map transaction_id (db_transactions db')
  = map transaction_id (db_transactions db) /\
  (forall j t, db_transactions db !! j = Some t ->
               transaction_id t <> params_transaction_id req ->
               db_transactions db' !! j = Some t) /\
  (db_payments db' = db_payments db \/
   exists p, db_payments db' = (db_payments db ++ [p])%list) /\
  length (db_line_items db') = length (db_line_items db) /\
  length (db_customers db') = length (db_customers db).
Proof.
  intros H.
  destruct resp as [t'| | | |];
    try (apply applyPayment_inv in H as [(-> & _) | (i & t & t5 & s1 & _ & _ & _
                                            & _ & _ & Hresp & _)];
         [repeat split; auto | discriminate]).
  apply applyPayment_ok in H as (i & t & t5 & sess1 & Hf & Hrec & -> & Hrel).
  set (t' := stamp_date_out (markPickedUp req) now t5) in *.
  pose proof (record_payment_session _ _ _ _ _ _ _ _ Hrec)
    as (Htx & Hli & Hcu & _).
  assert (Hid5 : transaction_id t' = transaction_id t).
  { unfold t'.
    destruct (stamp_date_out_fields (markPickedUp req) now t5) as (-> & _).
    destruct (before_payment_fields req t) as (Hid & _). cbn zeta in Hid.
    destruct (record_payment_cases db faults now req (before_payment req t) db)
      as [E | [(k & p & _ & _ & E) | (p & _ & _ & _ & E)]];
      rewrite E in Hrec; injection Hrec as <- _; [exact Hid|..];
      match goal with
      | |- transaction_id (attach_payment ?id ?x) = _ =>
          destruct (attach_payment_fields id x) as (-> & _); exact Hid
      end. }
  assert (Hrest : db_branches sess1 = db_branches db /\
                  db_services sess1 = db_services db /\
                  (db_payments sess1 = db_payments db \/
                   exists p, db_payments sess1 = (db_payments db ++ [p])%list)).
  { rewrite record_payment_exact in Hrec.
    destruct (Js.truthy (provided_payment_id req)).
    - destruct (findOne _ (db_payments db)); injection Hrec as _ <-; auto.
    - cbn zeta in Hrec.
      match type of Hrec with (if ?c then _ else _) = _ => destruct c end;
        injection Hrec as _ <-; [|auto].
      split; [reflexivity|]. split; [reflexivity|]. right. eexists. reflexivity. }
  destruct Hrest as (Hbr & Hsv & Hpay).
  apply findOne_lookup in Hf as [Hi Hkey].
  unfold by_key in Hkey. apply String.eqb_eq in Hkey.
  apply release_line_item_exact in Hrel as (Htx' & Hpay' & Hbr' & Hsv' & Hrel).
  change (db_transactions (with_transactions ?l _)) with l in Htx'.
  change (db_payments (with_transactions _ sess1)) with (db_payments sess1) in Hpay'.
  change (db_branches (with_transactions _ sess1)) with (db_branches sess1) in Hbr'.
  change (db_services (with_transactions _ sess1)) with (db_services sess1) in Hsv'.
  change (db_line_items (with_transactions _ sess1)) with (db_line_items sess1) in Hrel.
  change (db_customers (with_transactions _ sess1)) with (db_customers sess1) in Hrel.
  rewrite Htx in Htx'. rewrite Hli, Hcu in Hrel.
  split; [congruence|]. split; [congruence|].
  split; [|split; [|split; [rewrite Hpay'; exact Hpay|]]].
  - rewrite Htx'. rewrite list_fmap_insert, Hid5.
    apply list_insert_id. rewrite list_lookup_fmap, Hi. reflexivity.
  - intros j tj Hj Hne. rewrite Htx'.
    rewrite list_lookup_insert_ne; [exact Hj|].
    intros <-. rewrite Hi in Hj. injection Hj as <-. congruence.
  - destruct (markPickedUp req && Js.truthy (lineItemId req)).
    + destruct Hrel as (k & li & _ & -> & Hc). rewrite length_insert.
      split; [reflexivity|].
      destruct (findOne _ (db_customers db)) as [[j cu]|]; rewrite Hc;
        [apply length_insert|reflexivity].
    + destruct Hrel as (-> & ->). auto.
Qed.

Lemma applyPayment_frame_witness :
  db_branches (snd (applyPayment demo_db no_faults march_2025 first_pair_pickup))
  = db_branches demo_db /\
  map transaction_id
    (db_transactions
       (snd (applyPayment demo_db no_faults march_2025 first_pair_pickup)))
  = ["2025-03-00001-NCR"].
Proof.
  pose proof (applyPayment_frame demo_db no_faults march_2025 first_pair_pickup
                (fst (applyPayment demo_db no_faults march_2025 first_pair_pickup))
                (snd (applyPayment demo_db no_faults march_2025 first_pair_pickup))
                (surjective_pairing _)) as (Hbr & _ & Hids & _).
  split; [exact Hbr|exact Hids].
Defined.

(** ** Payments controller ([controllers/paymentController.ts]) *)

Lemma createPayment_created (db : Store) (fault : bool) (now : Clock)
    (req : CreatePaymentReq) (p : Payment) (db' : Store) :
  createPayment db fault now req = (Payment201 p, db') ->
  db' = with_payments (db_payments db ++ [p]) db /\
  payment_valid p = true /\
  existsb (by_key payment_id (payment_id p)) (db_payments db) = false /\
  pay_transaction_id p = Js.str_or (cp_transaction_id req) "" /\
  payment_amount p = default 0 (cp_payment_amount req) /\
  pay_mode p = Js.str_or (cp_payment_mode req) "Other" /\
  exists branchCode, payment_id p = generatePaymentId db branchCode.
Proof.
  unfold createPayment.
  destruct (negb (Js.truthy (cp_transaction_id req))); [discriminate|].
  destruct (Js.is_null (cp_payment_amount req) || _); [discriminate|].
  cbn zeta. unfold insert_payment.
  match goal with |- context [payment_valid ?x] => set (pay := x) end.
  destruct (payment_valid pay) eqn:Hv; [|discriminate]. cbn [negb].
  destruct fault; [discriminate|].
  destruct (existsb _ (db_payments db)) eqn:Ex; [discriminate|].
  intros [= <- <-]. repeat split; auto. eexists. reflexivity.
Qed.

Lemma generatePaymentId_nonempty (db : Store) (bc : string) :
  generatePaymentId db bc <> "".
Proof. rewrite generatePaymentId_eq. discriminate. Qed.

(** X18. [createPayment] only ever adds one Payment document: it answers
    201 with a document that passed the schema (positive amount, a mode
    of the enum, an id no stored payment has) appended to the collection,
    and otherwise changes nothing.  It never looks at or changes a
    transaction: the payment is on no transaction's payments list, and the
    transaction id it names need not exist. *)
Theorem createPayment_adds_one_document (db : Store) (fault : bool)
    (now : Clock) (req : CreatePaymentReq) (resp : PaymentResponse)
    (db' : Store) :
  createPayment db fault now req = (resp, db') ->
  db_transactions db' = db_transactions db /\
  db_line_items db' = db_line_items db /\
  db_customers db' = db_customers db /\
  match resp with
  | Payment201 p =>
      db_payments db' = (db_payments db ++ [p])%list /\
      Some (pay_transaction_id p) = cp_transaction_id req /\
      Some (payment_amount p) = cp_payment_amount req /\
      0 < payment_amount p /\
      pay_mode p = Js.str_or (cp_payment_mode req) "Other" /\
      In (pay_mode p) PAYMENT_MODES /\
      ~ In (payment_id p) (map payment_id (db_payments db))
  | _ => db' = db
  end.
Proof.
  intros H. destruct resp as [p|e|].
  - pose proof (createPayment_created _ _ _ _ _ _ H)
      as (-> & Hv & Hex & Htid & Hamt & Hmode & _).
    repeat split; auto.
    + rewrite Htid. revert H. unfold createPayment, Js.truthy, Js.str_or.
      destruct (cp_transaction_id req) as [s|]; [|discriminate].
      destruct (String.eqb s ""); simpl; [discriminate|reflexivity].
    + rewrite Hamt. revert H. unfold createPayment.
      destruct (negb _); [discriminate|].
      destruct (cp_payment_amount req); [reflexivity|discriminate].
    + unfold payment_valid in Hv. apply andb_prop in Hv as [Hv _].
      apply andb_prop in Hv as [_ Hv]. apply Z.ltb_lt. exact Hv.
    + unfold payment_valid in Hv. apply andb_prop in Hv as [_ Hv].
      apply includes_In. exact Hv.
    + intros Hin. apply in_map_iff in Hin as (q & Hq & Hin).
      assert (existsb (by_key payment_id (payment_id p)) (db_payments db) = true)
        as Htrue; [|congruence].
      apply existsb_exists. exists q. split; [exact Hin|].
      unfold by_key. rewrite Hq. apply String.eqb_refl.
  - revert H. unfold createPayment.
    destruct (negb _); [intros [= _ <-]; auto|].
    destruct (_ || _); [intros [= _ <-]; auto|].
    cbn zeta. destruct (insert_payment _ _ _); intros [= <-]; auto.
  - revert H. unfold createPayment.
    destruct (negb _); [discriminate|].
    destruct (_ || _); [discriminate|].
    cbn zeta. destruct (insert_payment _ _ _); intros [= <-]; auto.
Qed.

Lemma createPayment_adds_one_document_witness :
  db_transactions (snd (createPayment demo_db false march_2025 advance_payment))
  = db_transactions demo_db.
Proof.
  exact (proj1 (createPayment_adds_one_document demo_db false march_2025
                  advance_payment
                  (fst (createPayment demo_db false march_2025 advance_payment))
                  (snd (createPayment demo_db false march_2025 advance_payment))
                  (surjective_pairing _))).
Defined.

(** X19. A payment created by [createPayment] and then handed to
    [applyPayment] as [provided_payment_id] is attached and not
    duplicated: after a 200 the Payment collection is the old one plus
    that single document, and the id is on the transaction's payments
    list once.  The amount added to [amount_paid] is the [dueNow] of the
    second request; the payment's own amount and transaction id are not
    consulted. *)
Theorem created_payment_attached_once (db db1 db2 : Store) (fault : bool)
    (now now' : Clock) (creq : CreatePaymentReq) (p : Payment)
    (faults : ApplyPaymentFaults) (req : ApplyPaymentReq) (t' : Transaction) :
  createPayment db fault now creq = (Payment201 p, db1) ->
  provided_payment_id req = Some (payment_id p) ->
  applyPayment db1 faults now' req = (Json200 t', db2) ->
  exists i t,
    findOne (by_key transaction_id (params_transaction_id req))
      (db_transactions db) = Some (i, t) /\
    db_payments db2 = (db_payments db ++ [p])%list /\
    payments t' = payments (attach_payment (payment_id p) t) /\
    In (payment_id p) (payments t') /\
    amount_paid t' = amount_paid (add_payment (dueNow req) t).
Proof.
  intros Hc Hprov H.
  apply createPayment_created in Hc as (-> & _ & _ & _ & _ & _ & bc & Hid).
  apply applyPayment_ok in H as (i & t & t5 & sess1 & Hf & Hrec & -> & Hrel).
  change (db_transactions (with_payments _ db)) with (db_transactions db) in Hf.
  exists i, t. split; [exact Hf|].
  apply release_line_item_exact in Hrel as (_ & Hpay & _).
  change (db_payments (with_transactions _ sess1)) with (db_payments sess1)
    in Hpay.
  rewrite record_payment_exact, Hprov in Hrec.
  assert (Htruthy : Js.truthy (Some (payment_id p)) = true).
  { simpl. rewrite Hid.
    destruct (String.eqb_spec (generatePaymentId db bc) "") as [E|_];
      [exfalso; exact (generatePaymentId_nonempty _ _ E)|reflexivity]. }
  rewrite Htruthy in Hrec.
  assert (Hstr : Js.str_or (Some (payment_id p)) "" = payment_id p).
  { unfold Js.str_or. simpl in Htruthy.
    destruct (String.eqb (payment_id p) ""); [discriminate|reflexivity]. }
  rewrite Hstr in Hrec.
  change (db_payments (with_payments ?l db)) with l in Hrec.
  assert (Hfound : findOne (by_key payment_id (payment_id p))
                     (db_payments db ++ [p]) <> None).
  { unfold findOne. rewrite findOne_from_app.
    destruct (findOne_from _ 0 (db_payments db)); [discriminate|].
    simpl. unfold by_key. rewrite String.eqb_refl. discriminate. }
  destruct (findOne _ (db_payments db ++ [p])) as [[k q]|]; [|contradiction].
  injection Hrec as <- <-.
  split; [rewrite Hpay; reflexivity|].
  destruct (stamp_date_out_fields (markPickedUp req) now'
              (attach_payment (payment_id p) (before_payment req t)))
    as (_ & _ & _ & _ & Hps & _ & Hamt & _).
  cbn zeta in Hps, Hamt. rewrite Hps, Hamt.
  destruct (attach_payment_fields (payment_id p) (before_payment req t))
    as (_ & _ & _ & _ & _ & _ & -> & _).
  destruct (before_payment_fields req t)
    as (_ & _ & _ & _ & _ & Hps0 & _ & Hamt0 & _).
  cbn zeta in Hps0, Hamt0.
  assert (Hlist : payments (attach_payment (payment_id p) (before_payment req t))
                  = payments (attach_payment (payment_id p) t)).
  { unfold attach_payment. rewrite Hps0.
    destruct (Js.includes (payments t) (payment_id p)); txn_simpl;
      [exact Hps0|reflexivity]. }
  rewrite Hlist. split; [reflexivity|]. split; [|exact Hamt0].
  unfold attach_payment.
  destruct (Js.includes (payments t) (payment_id p)) eqn:Hin.
  - apply includes_In. exact Hin.
  - txn_simpl. apply in_or_app. right. left. reflexivity.
Qed.

Lemma created_payment_attached_once_witness :
  exists p db1 t' db2,
    createPayment demo_db false march_2025 advance_payment = (Payment201 p, db1) /\
    applyPayment db1 no_faults march_2025 (hand_in "PAY-1-NCR" 300)
    = (Json200 t', db2) /\
    db_payments db2 = [p] /\ In "PAY-1-NCR" (payments t').
Proof.
  do 4 eexists. split; [vm_compute; reflexivity|].
  split; [vm_compute; reflexivity|].
  match goal with
  | |- db_payments ?d2 = [?p] /\ In _ (payments ?t') =>
      pose proof (created_payment_attached_once demo_db _ d2 false
                    march_2025 march_2025 advance_payment p no_faults
                    (hand_in "PAY-1-NCR" 300) t'
                    ltac:(vm_compute; reflexivity) eq_refl
                    ltac:(vm_compute; reflexivity))
        as (i & t & _ & Hpay & _ & Hin & _)
  end.
  split; [exact Hpay|exact Hin].
Defined.

(** ** PUT /transactions/:transaction_id: the status guard and repetition *)

Lemma touch_lookup (now : Z) (d : gmap string Patch.Json) (f : string) :
  Patch.touch now d !! f
  = if bool_decide (f = "updatedAt") then Some (Patch.JNum now) else d !! f.
Proof.
  unfold Patch.touch. case_bool_decide as E.
  - subst f. apply lookup_insert_eq.
  - apply lookup_insert_ne. congruence.
Qed.

Lemma updateTransaction_ok (coll : list (gmap string Patch.Json))
    (fail_save : bool) (now : Z) (tid : string)
    (body d' : gmap string Patch.Json) (coll' : list (gmap string Patch.Json)) :
  Patch.updateTransaction coll fail_save now tid body = (Patch.Patch200 d', coll') ->
  exists i d,
    findOne (Patch.has_id tid) coll = Some (i, d) /\
    Patch.truthy (Patch.strip_restricted body !! "payment_status") &&
    negb (Patch.is_status (Patch.strip_restricted body !! "payment_status"))
    = false /\
    d' = Patch.touch now (Patch.assign d (Patch.strip_restricted body)) /\
    coll' = <[i := d']> coll.
Proof.
  unfold Patch.updateTransaction.
  destruct (String.eqb tid ""); [discriminate|].
  destruct (findOne (Patch.has_id tid) coll) as [[i d]|]; [|discriminate].
  destruct (_ && _) eqn:Hguard; [discriminate|].
  destruct fail_save; [discriminate|].
  intros [= <- <-]. exists i, d. auto.
Qed.



Lemma has_id_touch_assign (tid : string) (now : Z)
    (d body : gmap string Patch.Json) :
  Patch.has_id tid
    (Patch.touch now (Patch.assign d (Patch.strip_restricted body)))
  = Patch.has_id tid d.
Proof.
  unfold Patch.has_id. rewrite touch_lookup, assign_stripped_lookup.
  reflexivity.
Qed.

Lemma findOne_from_insert_same {A} (f : A -> bool) (l : list A) (n i : nat)
    (x y : A) :
  findOne_from f n l = Some ((n + i)%nat, x) -> f y = true ->
  findOne_from f n (<[i := y]> l) = Some ((n + i)%nat, y).
Proof.
  revert n i. induction l as [|z l IH]; intros n i H Hy; [discriminate|].
  simpl in H. destruct (f z) eqn:Ez.
  - injection H as Hn <-. assert (i = 0)%nat as -> by lia.
    simpl. rewrite Hy, Nat.add_0_r. reflexivity.
  - destruct i as [|i].
    + exfalso. apply findOne_from_spec in H as (k & Hk & _). lia.
    + simpl. rewrite Ez.
      replace (n + S i)%nat with (S n + i)%nat in * by lia.
      apply IH; assumption.
Qed.

(** X21. [updateTransaction] is idempotent: sending a body that was
    answered with 200 once more, at the same time stamp, is answered with
    the same document and leaves the collection as the first call left
    it. *)
Theorem updateTransaction_idempotent (coll : list (gmap string Patch.Json))
    (now : Z) (tid : string) (body d' : gmap string Patch.Json)
    (coll' : list (gmap string Patch.Json)) :
  Patch.updateTransaction coll false now tid body = (Patch.Patch200 d', coll') ->
  Patch.updateTransaction coll' false now tid body = (Patch.Patch200 d', coll').
Proof.
  intros H. pose proof (updateTransaction_ok _ _ _ _ _ _ _ H)
    as (i & d & Hf & Hguard & Hd' & Hcoll).
  assert (Hid : String.eqb tid "" = false).
  { revert H. unfold Patch.updateTransaction.
    destruct (String.eqb tid ""); [discriminate|reflexivity]. }
  unfold Patch.updateTransaction. rewrite Hid.
  assert (Hf' : findOne (Patch.has_id tid) coll' = Some (i, d')).
  { rewrite Hcoll. unfold findOne in *.
    apply (findOne_from_insert_same _ coll 0 i d d' Hf).
    rewrite Hd', has_id_touch_assign.
    apply findOne_from_spec in Hf as (k & _ & _ & Hx). exact Hx. }
  rewrite Hf', Hguard.
  assert (Hsame : Patch.touch now (Patch.assign d' (Patch.strip_restricted body))
                  = d').
  { apply map_eq. intros f.
    rewrite touch_lookup, assign_stripped_lookup.
    rewrite Hd' at 2. rewrite touch_lookup.
    case_bool_decide as Eu; [reflexivity|].
    rewrite Hd', touch_lookup, assign_stripped_lookup.
    rewrite (bool_decide_eq_false_2 _ Eu).
    case_bool_decide; [reflexivity|].
    destruct (body !! f); reflexivity. }
  rewrite Hsame. f_equal. rewrite Hcoll. apply list_insert_insert_eq.
Qed.

Lemma updateTransaction_idempotent_witness :
  exists d' coll',
    Patch.updateTransaction [stored_doc] false 1800 "2025-03-00001-VAL"
      hostile_body = (Patch.Patch200 d', coll') /\
    Patch.updateTransaction coll' false 1800 "2025-03-00001-VAL" hostile_body
    = (Patch.Patch200 d', coll').
Proof.
  do 2 eexists. split; [vm_compute; reflexivity|].
  apply (updateTransaction_idempotent [stored_doc] 1800 "2025-03-00001-VAL"
           hostile_body).
  vm_compute. reflexivity.
Defined.

(** ** Change Notifier: invariants of every run *)

Section NotifierInvariants.
Import Notifier.

Lemma close_stream_delays (sid : nat) (st : State) :
  delays_bounded st -> delays_bounded (close_stream sid st).
Proof.
  intros [Hs Ht]. unfold close_stream.
  destruct (streams st !! sid) as [s|] eqn:E; [|split; assumption].
  split; [|exact Ht]. cbn [streams].
  apply Forall_insert; [exact Hs|]. cbn [backoffDelay].
  exact (Forall_lookup_1 _ _ _ _ Hs E).
Qed.

Lemma watchTarget_delays (wt : string -> bool) (tg : WatchTarget)
    (token : option Z) (delay : Z) (st : State) :
  FLOOR_DELAY <= delay <= CAP_DELAY ->
  delays_bounded st -> delays_bounded (watchTarget wt tg token delay st).
Proof.
  unfold FLOOR_DELAY, CAP_DELAY. intros Hd [Hs Ht]. unfold watchTarget.
  destruct (wt (collectionName tg)).
  - split; [exact Hs|]. cbn [timers add_timer].
    apply Forall_app. split; [exact Ht|]. constructor; [|constructor].
    cbn [timer_delay]. unfold FLOOR_DELAY, CAP_DELAY. lia.
  - split; [|exact Ht]. cbn [streams].
    apply Forall_app. split; [exact Hs|]. constructor; [|constructor].
    cbn [backoffDelay]. unfold FLOOR_DELAY, CAP_DELAY. lia.
Qed.

Lemma reopen_delays (wt : string -> bool) (st : State) (tg : WatchTarget) :
  delays_bounded st -> delays_bounded (reopen wt st tg).
Proof.
  intros H. unfold reopen. apply watchTarget_delays.
  - unfold FLOOR_DELAY, CAP_DELAY. lia.
  - assert (H1 : delays_bounded
                   match activeStreams st !! event tg with
                   | Some sid => close_stream sid st
                   | None => st
                   end).
    { destruct (activeStreams st !! event tg);
        [apply close_stream_delays|]; exact H. }
    destruct H1 as [Hs Ht]. split; assumption.
Qed.

Lemma step_delays (wt : string -> bool) (i : Input) (st : State) :
  delays_bounded st -> delays_bounded (step wt i st).
Proof.
  intros H.
  assert (Hrestart : forall sid, delays_bounded (scheduleRestart sid st)).
  { intros sid. unfold scheduleRestart.
    destruct (streams st !! sid) as [s|] eqn:E; [|exact H].
    case_bool_decide; [|exact H].
    destruct H as [Hs Ht].
    pose proof (Forall_lookup_1 _ _ _ _ Hs E) as Hb. cbv beta in Hb.
    destruct (close_stream_delays sid
                (set_active (delete (event (target s)) (activeStreams st)) st))
      as [Hs' Ht']; [split; assumption|].
    split; [exact Hs'|]. cbn [timers add_timer].
    apply Forall_app. split; [exact Ht'|]. constructor; [|constructor].
    cbn [timer_delay]. unfold FLOOR_DELAY, CAP_DELAY in *. lia. }
  destruct i as [sid token|sid|sid|k| |]; simpl; [|apply Hrestart..| | |].
  - unfold on_change. destruct (streams st !! sid) as [s|]; [|exact H].
    destruct (closed s); [exact H|]. destruct H as [Hs Ht].
    split; [|exact Ht]. cbn [streams]. apply Forall_insert; [exact Hs|].
    cbn [backoffDelay]. unfold FLOOR_DELAY, CAP_DELAY. lia.
  - destruct (timers st !! k) as [t|] eqn:E; [|exact H].
    destruct H as [Hs Ht].
    pose proof (Forall_lookup_1 _ _ _ _ Ht E) as Hd. cbv beta in Hd.
    apply watchTarget_delays.
    + unfold FLOOR_DELAY, CAP_DELAY in *. lia.
    + split; [exact Hs|]. cbn [timers]. apply Forall_delete. exact Ht.
  - unfold on_disconnected.
    assert (Hfold : delays_bounded
              (map_fold (fun (_ : string) sid acc => close_stream sid acc) st
                 (activeStreams st))).
    { apply (map_fold_weak_ind (fun acc (_ : gmap string nat) =>
                                  delays_bounded acc)); [exact H|].
      intros ev sid m acc _ IH. apply close_stream_delays. exact IH. }
    destruct Hfold as [Hs Ht]. split; assumption.
  - unfold openAllStreams. clear Hrestart. revert st H.
    induction WATCH_TARGETS as [|tg rest IH]; intros st H; simpl; [exact H|].
    apply IH, reopen_delays, H.
Qed.

(** X22. In every run of the notifier from start-up -- whatever is
    delivered, and whether or not [watch] throws along the way -- the
    backoff of every stream stays within 1000..30000 ms and every
    scheduled restart waits between 2000 and 30000 ms. *)
Theorem notifier_delays_bounded (wt0 : string -> bool)
    (inputs : list ((string -> bool) * Input)) :
  delays_bounded (run_notifier inputs (initSocket wt0)).
Proof.
  assert (Hinit : delays_bounded (initSocket wt0)).
  { apply (step_delays wt0 Reconnected init). split; constructor. }
  revert Hinit. generalize (initSocket wt0).
  induction inputs as [|[wt i] inputs IH]; intros st H; [exact H|].
  simpl. apply IH, step_delays, H.
Qed.

End NotifierInvariants.

Section NotifierRegistry.
Import Notifier.

Lemma watchTarget_active_open (wt : string -> bool) (tg : WatchTarget)
    (token : option Z) (delay : Z) (st : State) :
  active_open st -> active_open (watchTarget wt tg token delay st).
Proof.
  intros H ev sid. unfold watchTarget.
  destruct (wt (collectionName tg)); cbn [activeStreams streams add_timer].
  - apply H.
  - rewrite lookup_insert. case_decide as E.
    + intros [= <-]. eexists. split.
      * rewrite lookup_app_r by lia. rewrite Nat.sub_diag. reflexivity.
      * split; [reflexivity|exact E].
    + intros Hd. destruct (H _ _ Hd) as (s & Hs & Hc & He).
      exists s. split; [|split; assumption].
      rewrite lookup_app_l; [exact Hs|]. eapply lookup_lt_Some. exact Hs.
Qed.

(** Forgetting an event's entry and closing its stream keeps the rest of
    the registry intact. *)
Lemma forget_active_open (st : State) (ev0 : string) :
  active_open st ->
  active_open
    (set_active (delete ev0 (activeStreams
                   match activeStreams st !! ev0 with
                   | Some sid => close_stream sid st
                   | None => st
                   end))
       match activeStreams st !! ev0 with
       | Some sid => close_stream sid st
       | None => st
       end).
Proof.
  intros H ev sid. cbn [activeStreams streams set_active].
  intros Hd. apply lookup_delete_Some in Hd as [Hne Hd].
  destruct (activeStreams st !! ev0) as [old|] eqn:Eold.
  - rewrite close_stream_active in Hd.
    destruct (H _ _ Hd) as (s & Hs & Hc & He).
    exists s. split; [|split; assumption].
    rewrite close_stream_other; [exact Hs|].
    intros ->. destruct (H _ _ Eold) as (s0 & Hs0 & _ & He0).
    rewrite Hs in Hs0. injection Hs0 as <-. congruence.
  - exact (H _ _ Hd).
Qed.

Lemma reopen_active_open (wt : string -> bool) (st : State) (tg : WatchTarget) :
  active_open st -> active_open (reopen wt st tg).
Proof.
  intros H. unfold reopen. apply watchTarget_active_open.
  apply forget_active_open. exact H.
Qed.

Lemma scheduleRestart_active_open (sid : nat) (st : State) :
  active_open st -> active_open (scheduleRestart sid st).
Proof.
  intros H. unfold scheduleRestart.
  destruct (streams st !! sid) as [s|] eqn:Es; [|exact H].
  case_bool_decide as Eact; [|exact H].
  intros ev sid'. cbn [activeStreams streams add_timer].
  rewrite close_stream_active. cbn [activeStreams set_active].
  intros Hd. apply lookup_delete_Some in Hd as [Hne Hd].
  destruct (H _ _ Hd) as (s' & Hs' & Hc & He).
  exists s'. split; [|split; assumption].
  rewrite close_stream_other; [exact Hs'|].
  intros <-. cbn [streams set_active] in *. congruence.
Qed.

Lemma step_active_open (wt : string -> bool) (i : Input) (st : State) :
  active_open st -> active_open (step wt i st).
Proof.
  intros H.
  destruct i as [sid token|sid|sid|k| |]; simpl;
    [|apply scheduleRestart_active_open; exact H..| | |].
  - unfold on_change. destruct (streams st !! sid) as [s|] eqn:Es; [|exact H].
    destruct (closed s) eqn:Ec; [exact H|].
    intros ev sid' Hd. cbn [activeStreams streams] in *.
    destruct (H _ _ Hd) as (s' & Hs' & Hc & He).
    destruct (decide (sid = sid')) as [<-|Hne].
    + eexists. split.
      * apply list_lookup_insert_eq. eapply lookup_lt_Some. exact Es.
      * split; [reflexivity|]. cbn [target]. congruence.
    + exists s'. split; [|split; assumption].
      rewrite list_lookup_insert_ne; [exact Hs'|exact Hne].
  - destruct (timers st !! k) as [t|]; [|exact H].
    apply watchTarget_active_open. exact H.
  - intros ev sid Hd. destruct (on_disconnected_spec st) as [E _].
    rewrite E, lookup_empty in Hd. discriminate.
  - unfold openAllStreams. revert st H.
    induction WATCH_TARGETS as [|tg rest IH]; intros st H; simpl; [exact H|].
    apply IH, reopen_active_open, H.
Qed.

Lemma initSocket_active_open (wt0 : string -> bool) :
  active_open (initSocket wt0).
Proof.
  apply (step_active_open wt0 Reconnected init).
  intros ev sid Hd. cbn in Hd. rewrite lookup_empty in Hd. discriminate.
Qed.

Lemma run_active_open (inputs : list ((string -> bool) * Input)) (st : State) :
  active_open st -> active_open (run_notifier inputs st).
Proof.
  revert st. induction inputs as [|[wt i] inputs IH]; intros st H; [exact H|].
  simpl. apply IH, step_active_open, H.
Qed.

(** X23. In every run of the notifier from start-up, every stream
    registered in [activeStreams] is an opened stream that has not been
    closed, and it is registered under the event name of its own
    target. *)
Theorem notifier_registry_open (wt0 : string -> bool)
    (inputs : list ((string -> bool) * Input)) :
  active_open (run_notifier inputs (initSocket wt0)).
Proof. apply run_active_open, initSocket_active_open. Qed.

(** X24. A failure is answered by one restart: an error or a close that
    arrives for a stream after its restart was scheduled -- the close
    that follows an error, or any event of a stream that was replaced --
    changes nothing. *)
Theorem restart_scheduled_once (wt wt' : string -> bool) (sid : nat)
    (i j : Input) (st : State) :
  i = StreamError sid \/ i = StreamClose sid ->
  j = StreamError sid \/ j = StreamClose sid ->
  step wt' j (step wt i st) = step wt i st.
Proof.
  intros Hi Hj.
  assert (Ei : step wt i st = scheduleRestart sid st).
  { destruct Hi as [-> | ->]; reflexivity. }
  assert (Ej : forall x, step wt' j x = scheduleRestart sid x).
  { intros x. destruct Hj as [-> | ->]; reflexivity. }
  rewrite Ej, Ei. clear.
  destruct (streams st !! sid) as [s|] eqn:Es.
  - destruct (decide (activeStreams st !! event (target s) = Some sid))
      as [Eact|Eact].
    + destruct (scheduleRestart_spec sid st s Es Eact) as (Ha & Hs & _).
      eapply scheduleRestart_stale; [exact Hs|].
      cbn [target]. rewrite Ha, lookup_delete_eq. discriminate.
    + rewrite (scheduleRestart_stale sid st s Es Eact).
      apply (scheduleRestart_stale sid st s Es Eact).
  - unfold scheduleRestart. rewrite Es.
    unfold scheduleRestart. rewrite Es. reflexivity.
Qed.

End NotifierRegistry.

Lemma restart_scheduled_once_witness :
  Notifier.step never_throws (Notifier.StreamClose 0)
    (Notifier.step never_throws (Notifier.StreamError 0)
       (Notifier.initSocket never_throws))
  = Notifier.step never_throws (Notifier.StreamError 0)
      (Notifier.initSocket never_throws).
Proof.
  apply (restart_scheduled_once never_throws never_throws 0
           (Notifier.StreamError 0) (Notifier.StreamClose 0)).
  - left. reflexivity.
  - right. reflexivity.
Defined.

Section NotifierRetries.
Import Notifier.

Lemma doubled_delay (d : Z) (n : nat) :
  0 < d ->
  Z.min (Z.min (d * 2 ^ Z.of_nat n) CAP_DELAY * 2) CAP_DELAY
  = Z.min (d * 2 ^ Z.of_nat (S n)) CAP_DELAY.
Proof.
  intros Hd. rewrite Nat2Z.inj_succ, Z.pow_succ_r by lia.
  assert (0 < 2 ^ Z.of_nat n) by (apply Z.pow_pos_nonneg; lia).
  unfold CAP_DELAY. nia.
Qed.

(** X25. While [watch] keeps throwing for a target, each firing of its
    restart timer opens no stream and schedules the next attempt for the
    same target with the same resume position; starting from a delay [d]
    the [n]-th rescheduled attempt waits [min(d * 2^n, 30000)] ms. *)
Theorem failed_restarts_back_off (wt : string -> bool) (tg : WatchTarget)
    (token : option Z) (d : Z) (n : nat) (st : State) :
  wt (collectionName tg) = true ->
  timers st = [mkTimer tg token d] ->
  0 < d <= CAP_DELAY ->
  Nat.iter n (step wt (TimerFires 0)) st
  = mkState (streams st) (activeStreams st)
      [mkTimer tg token (Z.min (d * 2 ^ Z.of_nat n) CAP_DELAY)] (emitted st).
Proof.
  intros Hwt Ht Hd. induction n as [|n IH].
  - simpl. rewrite Z.mul_1_r, Z.min_l by lia. destruct st. simpl in *.
    congruence.
  - rewrite <- doubled_delay by lia.
    change (Nat.iter (S n) (step wt (TimerFires 0)) st)
      with (step wt (TimerFires 0) (Nat.iter n (step wt (TimerFires 0)) st)).
    rewrite IH. cbn [step timers lookup list_lookup streams activeStreams emitted].
    unfold watchTarget. cbn [timer_target timer_token timer_delay].
    rewrite Hwt. reflexivity.
Qed.

End NotifierRetries.

Lemma failed_restarts_back_off_witness :
  Notifier.timers
    (Nat.iter 5 (Notifier.step always_throws (Notifier.TimerFires 0))
       waiting_restart)
  = [Notifier.mkTimer (Notifier.mkWatchTarget "line_items" "lineItemUpdated")
       (Some 5) 30000].
Proof.
  rewrite (failed_restarts_back_off always_throws
             (Notifier.mkWatchTarget "line_items" "lineItemUpdated")
             (Some 5) 2000 5 waiting_restart eq_refl eq_refl).
  - reflexivity.
  - unfold Notifier.CAP_DELAY. lia.
Defined.

Section NotifierOrphans.
Import Notifier.

Lemma watchTarget_unregistered (wt : string -> bool) (tg0 : WatchTarget)
    (token : option Z) (delay : Z) (sid : nat) (tg : WatchTarget) (st : State) :
  unregistered_open sid tg st ->
  unregistered_open sid tg (watchTarget wt tg0 token delay st).
Proof.
  intros [(s & Hs & Hc & Ht) Hno]. unfold watchTarget.
  destruct (wt (collectionName tg0)).
  - split; [exists s; auto|exact Hno].
  - split.
    + exists s. cbn [streams]. split; [|auto].
      rewrite lookup_app_l; [exact Hs|]. eapply lookup_lt_Some. exact Hs.
    + intros ev. cbn [activeStreams]. rewrite lookup_insert.
      case_decide; [|apply Hno].
      intros [= E]. apply lookup_lt_Some in Hs. lia.
Qed.

Lemma close_other_unregistered (sid0 sid : nat) (tg : WatchTarget) (st : State) :
  sid0 <> sid -> unregistered_open sid tg st ->
  unregistered_open sid tg (close_stream sid0 st).
Proof.
  intros Hne [(s & Hs & Hc & Ht) Hno]. split.
  - exists s. rewrite close_stream_other by exact Hne. auto.
  - intros ev. rewrite close_stream_active. apply Hno.
Qed.

Lemma reopen_unregistered (wt : string -> bool) (st : State) (tg0 : WatchTarget)
    (sid : nat) (tg : WatchTarget) :
  unregistered_open sid tg st -> unregistered_open sid tg (reopen wt st tg0).
Proof.
  intros H. unfold reopen. apply watchTarget_unregistered.
  assert (H1 : unregistered_open sid tg
                 match activeStreams st !! event tg0 with
                 | Some old => close_stream old st
                 | None => st
                 end).
  { destruct (activeStreams st !! event tg0) as [old|] eqn:E; [|exact H].
    apply close_other_unregistered; [|exact H].
    intros ->. destruct H as [_ Hno]. exact (Hno _ E). }
  destruct H1 as [Hs Hno]. split; [exact Hs|].
  intros ev. cbn [activeStreams set_active]. intros Hd.
  apply lookup_delete_Some in Hd as [_ Hd]. exact (Hno _ Hd).
Qed.

Lemma step_unregistered (wt : string -> bool) (i : Input) (sid : nat)
    (tg : WatchTarget) (st : State) :
  unregistered_open sid tg st -> unregistered_open sid tg (step wt i st).
Proof.
  intros H.
  assert (Hrestart : forall sid0, unregistered_open sid tg (scheduleRestart sid0 st)).
  { intros sid0. unfold scheduleRestart.
    destruct (streams st !! sid0) as [s0|] eqn:E0; [|exact H].
    case_bool_decide as Eact; [|exact H].
    assert (Hne : sid0 <> sid).
    { intros ->. destruct H as [_ Hno]. exact (Hno _ Eact). }
    destruct (close_other_unregistered sid0 sid tg
                (set_active (delete (event (target s0)) (activeStreams st)) st) Hne)
      as [Hs Hno].
    { destruct H as [Hs Hno]. split; [exact Hs|].
      intros ev. cbn [activeStreams set_active]. intros Hd.
      apply lookup_delete_Some in Hd as [_ Hd]. exact (Hno _ Hd). }
    split; [exact Hs|exact Hno]. }
  destruct i as [sid0 token|sid0|sid0|k| |]; simpl; [|apply Hrestart..| | |].
  - unfold on_change. destruct (streams st !! sid0) as [s0|] eqn:E0; [|exact H].
    destruct (closed s0) eqn:Ec; [exact H|].
    destruct H as [(s & Hs & Hc & Ht) Hno]. split; [|exact Hno].
    cbn [streams]. destruct (decide (sid0 = sid)) as [->|Hne].
    + eexists. split.
      * apply list_lookup_insert_eq. eapply lookup_lt_Some. exact Hs.
      * split; [reflexivity|]. cbn [target]. congruence.
    + exists s. rewrite list_lookup_insert_ne by exact Hne. auto.
  - destruct (timers st !! k) as [t|]; [|exact H].
    apply watchTarget_unregistered. destruct H as [Hs Hno]. split; assumption.
  - unfold on_disconnected. split.
    + destruct H as [Hs Hno].
      assert (Hfold : (fun acc (m : gmap string nat) =>
                (forall ev, m !! ev <> Some sid) ->
                streams acc !! sid = streams st !! sid)
              (map_fold (fun (_ : string) sid0 acc => close_stream sid0 acc) st
                 (activeStreams st)) (activeStreams st)).
      { apply (map_fold_weak_ind (fun acc (m : gmap string nat) =>
                  (forall ev, m !! ev <> Some sid) ->
                  streams acc !! sid = streams st !! sid)); [reflexivity|].
        intros ev sid0 m acc Hfresh IH Hall.
        assert (Hne : sid0 <> sid).
        { intros ->. apply (Hall ev). apply lookup_insert_eq. }
        rewrite close_stream_other by exact Hne. apply IH.
        intros ev' Hd. apply (Hall ev').
        rewrite lookup_insert_ne; [exact Hd|]. intros ->. congruence. }
      cbn [streams set_active]. cbv beta in Hfold. rewrite (Hfold Hno).
      exact Hs.
    + intros ev. cbn [activeStreams set_active]. rewrite lookup_empty.
      discriminate.
  - unfold openAllStreams. clear Hrestart. revert st H.
    induction WATCH_TARGETS as [|tg0 rest IH]; intros st H; simpl; [exact H|].
    apply IH, reopen_unregistered, H.
Qed.

(** X26. A restart timer that fires while another stream of its target is
    registered opens a second stream and takes over the registry entry
    without closing the first.  In every run from there the first stream
    stays open and unregistered -- no error, close, disconnect or
    reconnect closes it -- and every change it delivers is broadcast. *)
Theorem replaced_stream_never_closed (wt : string -> bool) (st : State)
    (k : nat) (t : Timer) (old : nat)
    (inputs : list ((string -> bool) * Input)) :
  active_open st ->
  timers st !! k = Some t ->
  wt (collectionName (timer_target t)) = false ->
  activeStreams st !! event (timer_target t) = Some old ->
  exists tg,
    event tg = event (timer_target t) /\
    let st1 := step wt (TimerFires k) st in
    activeStreams st1 !! event (timer_target t) = Some (length (streams st)) /\
    old <> length (streams st) /\
    let st' := run_notifier inputs st1 in
    unregistered_open old tg st' /\
    forall wt' token,
      emitted (step wt' (Change old token) st')
      = (emitted st' ++ [(event (timer_target t), token)])%list.
Proof.
  intros Hopen Ht Hwt Hact.
  destruct (Hopen _ _ Hact) as (s & Hs & Hc & He).
  exists (target s). split; [exact He|]. cbn zeta.
  assert (Hlt : (old < length (streams st))%nat).
  { eapply lookup_lt_Some. exact Hs. }
  assert (H1 : unregistered_open old (target s) (step wt (TimerFires k) st) /\
               activeStreams (step wt (TimerFires k) st) !! event (timer_target t)
               = Some (length (streams st))).
  { cbn [step]. rewrite Ht. unfold watchTarget. rewrite Hwt.
    unfold unregistered_open. cbn [streams activeStreams]. split.
    - split.
      + exists s. rewrite lookup_app_l by exact Hlt. auto.
      + intros ev. rewrite lookup_insert. case_decide as E.
        * intros [= E']. lia.
        * intros Hd. destruct (Hopen _ _ Hd) as (s' & Hs' & _ & He').
          rewrite Hs in Hs'. injection Hs' as <-. congruence.
    - apply lookup_insert_eq. }
  destruct H1 as [H1 Hnew]. split; [exact Hnew|]. split; [lia|].
  assert (Hrun : unregistered_open old (target s)
                   (run_notifier inputs (step wt (TimerFires k) st))).
  { revert H1. generalize (step wt (TimerFires k) st).
    induction inputs as [|[w i] inputs IH]; intros st0 H0; [exact H0|].
    simpl. apply IH, step_unregistered, H0. }
  split; [exact Hrun|].
  intros wt' token. destruct Hrun as [(s' & Hs' & Hc' & Ht') _].
  destruct (on_change_spec old token _ s' Hs' Hc') as (_ & Hem & _).
  rewrite <- He, <- Ht'. exact Hem.
Qed.

End NotifierOrphans.

Lemma replaced_stream_never_closed_witness :
  exists tg,
    Notifier.event tg = "lineItemUpdated" /\
    unregistered_open 3 tg
      (run_notifier [(never_throws, Notifier.Disconnected)]
         (Notifier.step never_throws (Notifier.TimerFires 0)
            reconnected_before_restart)).
Proof.
  destruct (replaced_stream_never_closed never_throws reconnected_before_restart
              0 (Notifier.mkTimer
                   (Notifier.mkWatchTarget "line_items" "lineItemUpdated")
                   None 2000)
              3 [(never_throws, Notifier.Disconnected)])
    as (tg & Hev & _ & _ & Horphan & _).
  - apply run_active_open, initSocket_active_open.
  - reflexivity.
  - reflexivity.
  - reflexivity.
  - exists tg. split; [exact Hev|exact Horphan].
Defined.

(** ** Dates controller ([controllers/datesController.ts]) *)

Lemma findOne_find {A} (f : A -> bool) (l : list A) (n : nat) :
  snd <$> findOne_from f n l = List.find f l.
Proof.
  revert n. induction l as [|x l IH]; intros n; simpl; [reflexivity|].
  destruct (f x); [reflexivity|apply IH].
Qed.

Lemma find_app_list {A} (f : A -> bool) (l1 l2 : list A) :
  List.find f (l1 ++ l2)
  = match List.find f l1 with
    | Some x => Some x
    | None => List.find f l2
    end.
Proof.
  induction l1 as [|x l1 IH]; simpl; [reflexivity|].
  destruct (f x); [reflexivity|exact IH].
Qed.

Lemma find_insert_other {A} (f : A -> bool) (l : list A) (i : nat) (x y : A) :
  l !! i = Some x -> f x = false -> f y = false ->
  List.find f (<[i := y]> l) = List.find f l.
Proof.
  revert i. induction l as [|z l IH]; intros i Hi Hx Hy; [reflexivity|].
  destruct i as [|i]; simpl in *.
  - injection Hi as ->. rewrite Hx, Hy. reflexivity.
  - destruct (f z); [reflexivity|]. eapply IH; eassumption.
Qed.

Lemma find_none_existsb {A} (f : A -> bool) (l : list A) :
  existsb f l = false -> List.find f l = None.
Proof.
  induction l as [|x l IH]; simpl; [reflexivity|].
  destruct (f x); [discriminate|exact IH].
Qed.

Section DatesProofs.
Import DatesCtl.

Lemma get_find (coll : list Dates) (id : string) :
  getDatesByLineItemId coll id
  = if String.eqb id "" then Dates400
    else match List.find (by_key line_item_id id) coll with
         | Some datesDoc => Dates200 datesDoc
         | None => Dates404
         end.
Proof.
  unfold getDatesByLineItemId, findOne.
  rewrite <- (findOne_find _ coll 0).
  destruct (findOne_from _ 0 coll) as [[i d]|]; reflexivity.
Qed.

Lemma apply_set_twice (body : Body) (d : Dates) :
  apply_set body (apply_set body d) = apply_set body d.
Proof.
  unfold apply_set, set_field. cbn.
  destruct body as [? [?|] [?|] [?|] [?|] [?|] [?|] [?|] [?|]]; reflexivity.
Qed.

(** X27. An upsert of dates is read back and can be repeated: for a
    non-empty [line_item_id] it answers the first stored document of that
    id -- or a new one with every date null -- with exactly the defined
    fields of the body written and the others kept; [getDatesByLineItemId]
    then answers the same document, sending the body again changes
    nothing, the documents of other line items read as before, and no
    second document of the id is created. *)
Theorem upsert_dates_round_trip (coll : list Dates) (body : Body) (id : string) :
  body_line_item_id body = Some id -> id <> "" ->
  exists datesDoc coll',
    upsertDatesByLineItemId coll false body = (Dates200 datesDoc, coll') /\
    datesDoc
    = apply_set body
        (default (blank id) (List.find (by_key line_item_id id) coll)) /\
    line_item_id datesDoc = id /\
    getDatesByLineItemId coll' id = Dates200 datesDoc /\
    upsertDatesByLineItemId coll' false body = (Dates200 datesDoc, coll') /\
    (forall id', id' <> id ->
       getDatesByLineItemId coll' id' = getDatesByLineItemId coll id') /\
    (NoDup (map line_item_id coll) -> NoDup (map line_item_id coll')).
Proof.
  intros Hbody Hid. apply String.eqb_neq in Hid as Hid'.
  assert (Hother : forall id' (d : Dates),
            id' <> id -> line_item_id d = id -> by_key line_item_id id' d = false).
  { intros id' d Hne <-. unfold by_key. apply String.eqb_neq. congruence. }
  unfold upsertDatesByLineItemId at 1. rewrite Hbody.
  cbn [Js.truthy Js.str_or]. rewrite Hid'. cbn [negb].
  rewrite <- (findOne_find _ coll 0). fold (findOne (by_key line_item_id id) coll).
  destruct (findOne (by_key line_item_id id) coll) as [[i d]|] eqn:Hf.
  - pose proof (findOne_lookup _ _ _ _ Hf) as [Hi Hkey].
    unfold by_key in Hkey. apply String.eqb_eq in Hkey.
    assert (Hf' : findOne (by_key line_item_id id) (<[i := apply_set body d]> coll)
                  = Some (i, apply_set body d)).
    { unfold findOne in *.
      apply (findOne_from_insert_same _ coll 0 i d _ Hf).
      unfold by_key. cbn [line_item_id apply_set]. rewrite Hkey.
      apply String.eqb_refl. }
    do 2 eexists. split; [reflexivity|]. split; [reflexivity|].
    split; [exact Hkey|]. split; [|split; [|split]].
    + unfold getDatesByLineItemId. rewrite Hid', Hf'. reflexivity.
    + unfold upsertDatesByLineItemId. rewrite Hbody.
      cbn [Js.truthy Js.str_or]. rewrite Hid'. cbn [negb]. rewrite Hf'.
      cbn zeta. rewrite apply_set_twice, list_insert_insert_eq. reflexivity.
    + intros id' Hne. rewrite !get_find.
      rewrite (find_insert_other _ coll i d (apply_set body d) Hi);
        [reflexivity|apply Hother; auto..].
    + intros Hnd. rewrite list_fmap_insert. cbn [line_item_id apply_set].
      rewrite list_insert_id; [exact Hnd|].
      rewrite list_lookup_fmap, Hi. reflexivity.
  - cbn [fmap option_fmap option_map default].
    assert (Hnone : existsb (by_key line_item_id id) coll = false).
    { exact (existsb_findOne_from _ _ 0 Hf). }
    assert (Hf' : findOne (by_key line_item_id id)
                    (coll ++ [apply_set body (blank id)])
                  = Some (length coll, apply_set body (blank id))).
    { unfold findOne in *. rewrite findOne_from_app, Hf. simpl.
      unfold by_key. cbn [line_item_id apply_set blank].
      rewrite String.eqb_refl. reflexivity. }
    do 2 eexists. split; [reflexivity|]. split; [reflexivity|].
    split; [reflexivity|]. split; [|split; [|split]].
    + unfold getDatesByLineItemId. rewrite Hid', Hf'. reflexivity.
    + unfold upsertDatesByLineItemId. rewrite Hbody.
      cbn [Js.truthy Js.str_or]. rewrite Hid'. cbn [negb]. rewrite Hf'.
      cbn zeta. rewrite apply_set_twice. f_equal.
      apply list_insert_id. rewrite lookup_app_r by lia.
      rewrite Nat.sub_diag. reflexivity.
    + intros id' Hne. rewrite !get_find, find_app_list.
      destruct (List.find (by_key line_item_id id') coll); [reflexivity|].
      simpl. rewrite (Hother id' (apply_set body (blank id)) Hne eq_refl).
      reflexivity.
    + intros Hnd. rewrite map_app. apply NoDup_app. split; [exact Hnd|].
      split; [|apply NoDup_singleton].
      intros x Hx Hx'. apply list_elem_of_singleton in Hx'. subst x.
      apply list_elem_of_In, in_map_iff in Hx as (d & Hd & Hin).
      cbn [line_item_id apply_set blank] in Hd.
      assert (existsb (by_key line_item_id id) coll = true) as Htrue;
        [|congruence].
      apply existsb_exists. exists d. split; [exact Hin|].
      unfold by_key. rewrite Hd. apply String.eqb_refl.
Qed.

End DatesProofs.

Lemma upsert_dates_round_trip_witness :
  exists datesDoc coll',
    DatesCtl.upsertDatesByLineItemId dates_on_file false hub_arrival
    = (DatesCtl.Dates200 datesDoc, coll') /\
    DatesCtl.getDatesByLineItemId coll' "2025-03-00001-001-NCR"
    = DatesCtl.Dates200 datesDoc /\
    DatesCtl.srm_date datesDoc = Some 1 /\
    DatesCtl.ibd_date datesDoc = Some 3.
Proof.
  destruct (upsert_dates_round_trip dates_on_file hub_arrival
              "2025-03-00001-001-NCR" eq_refl ltac:(discriminate))
    as (d & coll' & Hrun & Hd & _ & Hget & _).
  exists d, coll'. split; [exact Hrun|]. split; [exact Hget|].
  rewrite Hd. split; reflexivity.
Defined.

Section DatesDelete.
Import DatesCtl.

(** X28. Deleting the dates of a line item, in a collection with one
    document per id: the call answers 200 exactly when the id is stored
    and 404, changing nothing, when it is not; afterwards
    [getDatesByLineItemId] answers 404 for that id and what it answered
    before for every other id. *)
Theorem delete_dates_then_get (coll : list Dates) (id : string)
    (resp : DatesResponse) (coll' : list Dates) :
  id <> "" ->
  NoDup (map line_item_id coll) ->
  deleteDatesByLineItemId coll id = (resp, coll') ->
  (resp = Deleted200 /\ In id (map line_item_id coll) \/
   resp = Dates404 /\ ~ In id (map line_item_id coll) /\ coll' = coll) /\
  getDatesByLineItemId coll' id = Dates404 /\
  (forall id', id' <> id ->
     getDatesByLineItemId coll' id' = getDatesByLineItemId coll id') /\
  NoDup (map line_item_id coll').
Proof.
  intros Hid Hnd. apply String.eqb_neq in Hid as Hid'.
  assert (Habsent : forall l, ~ In id (map line_item_id l) ->
                              existsb (by_key line_item_id id) l = false).
  { intros l Hl. destruct (existsb _ l) eqn:E; [|reflexivity].
    exfalso. apply Hl. apply existsb_exists in E as (d & Hin & Hd).
    unfold by_key in Hd. apply String.eqb_eq in Hd. subst id.
    apply in_map. exact Hin. }
  assert (Hpresent : forall l, existsb (by_key line_item_id id) l = false ->
                               ~ In id (map line_item_id l)).
  { intros l Hl Hin. apply in_map_iff in Hin as (d & Hd & Hin).
    assert (existsb (by_key line_item_id id) l = true) as Ht; [|congruence].
    apply existsb_exists. exists d. split; [exact Hin|].
    unfold by_key. rewrite Hd. apply String.eqb_refl. }
  unfold deleteDatesByLineItemId. rewrite Hid'.
  destruct (deleteOne_spec (by_key line_item_id id) coll)
    as [(Hex & ->) | (l1 & x & l2 & -> & Hl1 & Hx & ->)].
  - simpl. intros [= <- <-].
    split; [right; split; [reflexivity|]; split; [apply Hpresent; exact Hex|
                                                  reflexivity]|].
    split; [|split; [reflexivity|exact Hnd]].
    rewrite get_find, Hid', (find_none_existsb _ _ Hex). reflexivity.
  - simpl. intros [= <- <-].
    unfold by_key in Hx. apply String.eqb_eq in Hx.
    rewrite map_app in Hnd. simpl in Hnd.
    apply NoDup_app in Hnd as (Hnd1 & Hdisj & Hnd2).
    apply NoDup_cons in Hnd2 as [Hx2 Hnd2].
    split; [left; split; [reflexivity|]|].
    { rewrite map_app. apply in_or_app. right. left. exact Hx. }
    split; [|split].
    + rewrite get_find, Hid', find_app_list, (find_none_existsb _ _ Hl1).
      rewrite find_none_existsb; [reflexivity|].
      apply Habsent. rewrite <- Hx. intros Hin. apply Hx2.
      apply list_elem_of_In. exact Hin.
    + intros id' Hne. rewrite !get_find, !find_app_list. simpl.
      assert (by_key line_item_id id' x = false) as ->; [|reflexivity].
      unfold by_key. rewrite Hx. apply String.eqb_neq. congruence.
    + rewrite map_app. apply NoDup_app. split; [exact Hnd1|].
      split; [|exact Hnd2].
      intros y Hy Hy'. apply (Hdisj y Hy). right. exact Hy'.
Qed.

End DatesDelete.

Lemma delete_dates_then_get_witness :
  DatesCtl.getDatesByLineItemId
    (snd (DatesCtl.deleteDatesByLineItemId dates_on_file "2025-03-00001-001-NCR"))
    "2025-03-00001-001-NCR"
  = DatesCtl.Dates404.
Proof.
  refine (proj1 (proj2 (delete_dates_then_get dates_on_file
                          "2025-03-00001-001-NCR"
                          (fst (DatesCtl.deleteDatesByLineItemId dates_on_file
                                  "2025-03-00001-001-NCR"))
                          (snd (DatesCtl.deleteDatesByLineItemId dates_on_file
                                  "2025-03-00001-001-NCR"))
                          _ _ (surjective_pairing _)))).
  - discriminate.
  - repeat constructor; simpl; intros H; inversion H; subst;
      try discriminate; match goal with H' : _ ∈ [] |- _ => inversion H' end.
Defined.
